(** * URL-Categoriser-SEO: the crawl, extract, classify and aggregate pipeline

    A shallow embedding of [src/URLCat.py] and [src/URLCat_GSC.py].

    Conventions of the embedding.
    - A Python [str] is a [string]; characters carry their ASCII meaning
      (codes above 127 are letters of no case, neither blank nor
      alphabetic).
    - [len], [depth] and [word_count] are [nat]; [max_pages] is a [Z], as a
      Python [int] may be negative.
    - A [dict] whose iteration order is observed ([scores], a [Counter]) is
      an association list in insertion order; the [crawled] set is a
      [gset string]; [to_crawl] is a [list string].
    - A call that may raise returns a [result]: the value, or the text of
      the exception.  A bare [except] is a [match] on it; an exception
      that nothing catches ends the loop it occurs in.
    - A loop is a step function run with fuel; that the fuel can be
      chosen is proved, not assumed.
    - What lives outside the repository and cannot be computed here (the
      network and the HTML parser, [urljoin], the TextBlob tokenizer) is
      the class [World].  The progress callback and the pause between two
      fetches change no state and are left out. *)

From stdpp Require Import base decidable option list sets gmap strings.
From Stdlib Require Import ZArith Lia Ascii String Sorted.

Local Open Scope string_scope.
Local Open Scope list_scope.
Local Open Scope nat_scope.
Local Set Warnings "-register-all".

(** ** Python built-ins on [str] *)

Module Py.

(** [c.isspace()] on the ASCII range: TAB..CR, FS..US and the space. *)
Definition isspace (c : ascii) : bool :=
  let n := nat_of_ascii c in
  ((9 <=? n) && (n <=? 13)) || ((28 <=? n) && (n <=? 32)).

Definition isupper (c : ascii) : bool :=
  let n := nat_of_ascii c in (65 <=? n) && (n <=? 90).

Definition islower (c : ascii) : bool :=
  let n := nat_of_ascii c in (97 <=? n) && (n <=? 122).

Definition isdigit (c : ascii) : bool :=
  let n := nat_of_ascii c in (48 <=? n) && (n <=? 57).

Definition isalpha_char (c : ascii) : bool := isupper c || islower c.

Definition lower_char (c : ascii) : ascii :=
  if isupper c then ascii_of_nat (nat_of_ascii c + 32) else c.

(** [s.lower()] *)
Fixpoint lower (s : string) : string :=
  match s with
  | EmptyString => EmptyString
  | String c s' => String (lower_char c) (lower s')
  end.

Fixpoint all_chars (p : ascii -> bool) (s : string) : bool :=
  match s with
  | EmptyString => true
  | String c s' => p c && all_chars p s'
  end.

(** [s.isalpha()]: every character alphabetic, and at least one. *)
Definition isalpha (s : string) : bool :=
  match s with
  | EmptyString => false
  | _ => all_chars isalpha_char s
  end.

(** [len(s)] *)
Definition len (s : string) : nat := String.length s.

(** [s[:n]] for [n >= 0] *)
Fixpoint slice_to (n : nat) (s : string) : string :=
  match n, s with
  | S n', String c s' => String c (slice_to n' s')
  | _, _ => EmptyString
  end.

(** [s.startswith(p)] *)
Fixpoint startswith (p s : string) : bool :=
  match p, s with
  | EmptyString, _ => true
  | String a p', String b s' => bool_decide (a = b) && startswith p' s'
  | String _ _, EmptyString => false
  end.

(** [sub in s] *)
Fixpoint contains (sub s : string) : bool :=
  startswith sub s ||
  match s with
  | EmptyString => false
  | String _ s' => contains sub s'
  end.

(** [s.endswith(p)] *)
Fixpoint endswith (p s : string) : bool :=
  bool_decide (s = p) ||
  match s with
  | EmptyString => false
  | String _ s' => endswith p s'
  end.

(** [c in s] for a single character [c] *)
Fixpoint has_char (c : ascii) (s : string) : bool :=
  match s with
  | EmptyString => false
  | String b s' => bool_decide (b = c) || has_char c s'
  end.

(** [s.split(c)] for a one-character separator: the fields between its
    occurrences, empty ones included; never the empty list. *)
Fixpoint split_on (c : ascii) (s : string) : list string :=
  match s with
  | EmptyString => [EmptyString]
  | String b s' =>
      if bool_decide (b = c) then EmptyString :: split_on c s'
      else match split_on c s' with
           | f :: fs => String b f :: fs
           | [] => [String b EmptyString]
           end
  end.

(** [s.split(c, 1)]: around the first occurrence of [c], when there is
    one. *)
Fixpoint partition1 (c : ascii) (s : string) : option (string * string) :=
  match s with
  | EmptyString => None
  | String b s' =>
      if bool_decide (b = c) then Some (EmptyString, s')
      else match partition1 c s' with
           | Some (l, r) => Some (String b l, r)
           | None => None
           end
  end.

(** [s.split()]: the maximal runs of non-blank characters.  [cur] is the
    run being read, reversed. *)
Fixpoint split_ws_go (cur : list ascii) (s : string) : list string :=
  match s with
  | EmptyString =>
      match cur with
      | [] => []
      | _ => [string_of_list_ascii (rev cur)]
      end
  | String c s' =>
      if isspace c then
        match cur with
        | [] => split_ws_go [] s'
        | _ => string_of_list_ascii (rev cur) :: split_ws_go [] s'
        end
      else split_ws_go (c :: cur) s'
  end.

Definition split (s : string) : list string := split_ws_go [] s.

(** [sep.join(l)] *)
Definition join (sep : string) (l : list string) : string :=
  String.concat sep l.

Fixpoint lstrip (s : string) : string :=
  match s with
  | String c s' => if isspace c then lstrip s' else s
  | EmptyString => EmptyString
  end.

(** [s.rstrip()]: what is left of the tail decides whether the head is
    a trailing blank. *)
Fixpoint rstrip (s : string) : string :=
  match s with
  | EmptyString => EmptyString
  | String c s' =>
      match rstrip s' with
      | EmptyString => if isspace c then EmptyString else String c EmptyString
      | r => String c r
      end
  end.

(** [s.strip()] *)
Definition strip (s : string) : string := rstrip (lstrip s).

(** [s.rstrip(c)] for a one-character argument *)
Fixpoint rstrip_char (c : ascii) (s : string) : string :=
  match s with
  | EmptyString => EmptyString
  | String b s' =>
      match rstrip_char c s' with
      | EmptyString =>
          if bool_decide (b = c) then EmptyString else String b EmptyString
      | r => String b r
      end
  end.

(** [bool(s)] *)
Definition truthy (s : string) : bool :=
  match s with EmptyString => false | _ => true end.

(** [l[-1]] of a non-empty list; the default stands for no element. *)
Definition last_or {A} (d : A) (l : list A) : A := List.last l d.

(** *** [collections.Counter] *)

(** A [Counter] in insertion order. *)
Definition Counter (K : Type) := list (K * nat).

(** [c[k] += 1] *)
Fixpoint incr `{EqDecision K} (k : K) (c : Counter K) : Counter K :=
  match c with
  | [] => [(k, 1)]
  | (k', n) :: c' =>
      if decide (k' = k) then (k', S n) :: c' else (k', n) :: incr k c'
  end.

(** [Counter(l)] *)
Definition counter `{EqDecision K} (l : list K) : Counter K :=
  fold_left (fun c k => incr k c) l [].

(** One step of a stable sort by decreasing count: [x] stood before
    every element of [l], so it goes in front of the first element whose
    count is not larger than its own. *)
Fixpoint insert_desc {K} (x : K * nat) (l : list (K * nat)) : list (K * nat) :=
  match l with
  | [] => [x]
  | y :: l' =>
      if snd x <? snd y then y :: insert_desc x l' else x :: y :: l'
  end.

(** [sorted(c.items(), key=itemgetter(1), reverse=True)] *)
Fixpoint sorted_desc {K} (l : list (K * nat)) : list (K * nat) :=
  match l with
  | [] => []
  | x :: l' => insert_desc x (sorted_desc l')
  end.

(** [c.most_common(n)], which is [heapq.nlargest(n, c.items(), key=count)],
    documented as [sorted(c.items(), key=count, reverse=True)[:n]]. *)
Definition most_common {K} (n : nat) (c : Counter K) : list (K * nat) :=
  take n (sorted_desc c).

(** [list(dict.fromkeys(l))]: the keys in order of first insertion. *)
Definition fromkeys `{EqDecision K} (l : list K) : list K :=
  fold_left (fun keys k => if decide (k ∈ keys) then keys else keys ++ [k]) l [].

End Py.

(** ** Exceptions as values *)

(** The outcome of a call that may raise: the value, or the text of the
    exception ([str(e)]). *)
Inductive result (A : Type) : Type :=
| Ok (a : A)
| Raise (msg : string).
Arguments Ok {A} a.
Arguments Raise {A} msg.

#[global] Instance result_ret : MRet result := fun A a => Ok a.
#[global] Instance result_bind : MBind result := fun A B k r =>
  match r with
  | Ok a => k a
  | Raise msg => Raise msg
  end.

(** ** [urllib.parse.urlparse] *)

Module Urllib.

Record ParseResult : Type := {
  scheme : string;
  netloc : string;
  path : string;
  params : string;
  query : string;
  fragment : string
}.

(** [scheme_chars]: letters, digits and [+-.] *)
Definition scheme_char (c : ascii) : bool :=
  Py.isalpha_char c || Py.isdigit c ||
  bool_decide (c = "+"%char) || bool_decide (c = "-"%char) ||
  bool_decide (c = "."%char).

(** The scheme is what stands before the first colon, when that is a
    letter followed by scheme characters; it is lower-cased. *)
Definition split_scheme (url : string) : string * string :=
  match Py.partition1 ":" url with
  | Some (String c0 pre, rest) =>
      if Py.isalpha_char c0 && Py.all_chars scheme_char pre
      then (Py.lower (String c0 pre), rest)
      else (EmptyString, url)
  | _ => (EmptyString, url)
  end.

(** The longest prefix without a character of [stop], and what follows. *)
Fixpoint span_until (stop : ascii -> bool) (s : string) : string * string :=
  match s with
  | EmptyString => (EmptyString, EmptyString)
  | String c s' =>
      if stop c then (EmptyString, s)
      else let '(l, r) := span_until stop s' in (String c l, r)
  end.

Definition netloc_delim (c : ascii) : bool :=
  bool_decide (c = "/"%char) || bool_decide (c = "?"%char) ||
  bool_decide (c = "#"%char).

(** After a leading [//] the network location runs to the first of
    [/ ? #]; a bracket without its partner is [ValueError]. *)
Definition split_netloc (url : string) : result (string * string) :=
  match url with
  | String "/" (String "/" rest) =>
      let '(loc, rest') := span_until netloc_delim rest in
      if xorb (Py.has_char "[" loc) (Py.has_char "]" loc)
      then Raise "Invalid IPv6 URL"
      else Ok (loc, rest')
  | _ => Ok (EmptyString, url)
  end.

(** [url.split(c, 1)] when [c in url], else [url] and the empty string. *)
Definition cut (c : ascii) (url : string) : string * string :=
  match Py.partition1 c url with
  | Some (l, r) => (l, r)
  | None => (url, EmptyString)
  end.

(** Around the last occurrence of [c]. *)
Fixpoint rpartition (c : ascii) (s : string) : option (string * string) :=
  match s with
  | EmptyString => None
  | String b s' =>
      match rpartition c s' with
      | Some (l, r) => Some (String b l, r)
      | None => if bool_decide (b = c) then Some (EmptyString, s') else None
      end
  end.

Definition uses_params : list string :=
  [""; "ftp"; "hdl"; "prospero"; "http"; "imap"; "https"; "shttp"; "rtsp";
   "rtspu"; "sip"; "sips"; "mms"; "sftp"; "tel"].

(** [_splitparams]: the parameters of the last path segment. *)
Definition splitparams (url : string) : string * string :=
  match rpartition "/" url with
  | Some (l, r) =>
      match Py.partition1 ";" r with
      | Some (r1, p) => (l +:+ "/" +:+ r1, p)
      | None => (url, EmptyString)
      end
  | None => cut ";" url
  end.

(** [urlparse(url)], after [urlsplit] of CPython 3.11.  The stripping of
    leading control characters and of TAB, CR and LF inside the URL,
    which depends on the interpreter's version, and the checks on hosts
    outside ASCII are left out: URLs are taken without such characters. *)
Definition urlparse (url : string) : result ParseResult :=
  let '(sch, url1) := split_scheme url in
  '(loc, url2) ← split_netloc url1;
  let '(url3, frag) := cut "#" url2 in
  let '(url4, qry) := cut "?" url3 in
  let '(pth, prm) :=
    if bool_decide (sch ∈ uses_params) && Py.has_char ";" url4
    then splitparams url4 else (url4, EmptyString) in
  Ok {| scheme := sch; netloc := loc; path := pth; params := prm;
        query := qry; fragment := frag |}.

End Urllib.

(** ** The document tree of BeautifulSoup *)

Module Bs4.

Inductive Node : Type :=
| NavigableString (s : string)
| Tag (name : string) (attrs : list (string * string)) (contents : list Node).

(** The [BeautifulSoup] object: the root of the tree. *)
Definition soup (contents : list Node) : Node := Tag "[document]" [] contents.

Definition named (names : list string) (n : Node) : bool :=
  match n with
  | Tag t _ _ => bool_decide (t ∈ names)
  | NavigableString _ => false
  end.

(** [tag.get(key)] *)
Fixpoint lookup_attr (key : string) (attrs : list (string * string)) : option string :=
  match attrs with
  | [] => None
  | (k, v) :: attrs' => if bool_decide (k = key) then Some v else lookup_attr key attrs'
  end.

Definition get (key : string) (n : Node) : option string :=
  match n with
  | Tag _ a _ => lookup_attr key a
  | NavigableString _ => None
  end.

(** [tag.get_text()], also [tag.text]: the strings below, in document
    order. *)
Fixpoint get_text (n : Node) : string :=
  match n with
  | NavigableString s => s
  | Tag _ _ cs => String.concat "" (List.map get_text cs)
  end.

(** [tag.string] *)
Fixpoint tag_string (n : Node) : option string :=
  match n with
  | NavigableString s => Some s
  | Tag _ _ [c] => tag_string c
  | Tag _ _ _ => None
  end.

(** The nodes strictly below [n], in document order. *)
Fixpoint descendants (n : Node) : list Node :=
  match n with
  | NavigableString _ => []
  | Tag _ _ cs => List.flat_map (fun c => c :: descendants c) cs
  end.

(** [tag.find_all(names)] *)
Definition find_all (names : list string) (n : Node) : list Node :=
  List.filter (named names) (descendants n).

(** [tag.find(name)] *)
Definition find (name : string) (n : Node) : option Node :=
  head (find_all [name] n).

(** [tag.find(name, attrs={key: value})] *)
Definition find_attr (name key value : string) (n : Node) : option Node :=
  head (List.filter (fun t => bool_decide (get key t = Some value)) (find_all [name] n)).

(** [tag.find_all(name, **{key: True})] *)
Definition find_all_having (name key : string) (n : Node) : list Node :=
  List.filter (fun t => bool_decide (is_Some (get key t))) (find_all [name] n).

(** [for t in soup(names): t.decompose()]: every tag so named leaves the
    tree with all it contains. *)
Fixpoint decompose (names : list string) (n : Node) : Node :=
  match n with
  | NavigableString s => NavigableString s
  | Tag t a cs =>
      Tag t a ((fix prune (cs : list Node) : list Node :=
                  match cs with
                  | [] => []
                  | c :: cs' =>
                      if named names c then prune cs'
                      else decompose names c :: prune cs'
                  end) cs)
  end.

End Bs4.

(** ** The world outside the repository *)

Class World : Type := {
  (** [requests.get(url, ...)], [raise_for_status()] and
      [BeautifulSoup(response.content, 'html.parser')]: the parsed
      document, or the exception of a failed request. *)
  http_get : string -> result Bs4.Node;
  (** [urllib.parse.urljoin(base, href)] *)
  urljoin : string -> string -> result string;
  (** [TextBlob(text).words] *)
  blob_words : string -> list string
}.

(** ** Page records *)

(** The dictionary that [extract_page_content] returns and that the crawl
    completes.  The keys set by the crawl are absent ([None]) until then;
    [H] is the type of the [hierarchy] entry, which differs between the two
    files. *)
Record PageRecord (H : Type) : Type := {
  url : string;
  title : string;
  description : string;
  headings : list string;
  text_content : string;
  word_count : nat;
  links : list string;
  status : string;
  category : option string;
  hierarchy : option H;
  keywords : option (list (string * nat))
}.
Arguments url {H} _.
Arguments title {H} _.
Arguments description {H} _.
Arguments headings {H} _.
Arguments text_content {H} _.
Arguments word_count {H} _.
Arguments links {H} _.
Arguments status {H} _.
Arguments category {H} _.
Arguments hierarchy {H} _.
Arguments keywords {H} _.

(** The record of the [except] branch of [extract_page_content]. *)
Definition error_record {H} (u msg : string) : PageRecord H :=
  {| url := u; title := "Error"; description := ""; headings := [];
     text_content := ""; word_count := 0; links := [];
     status := "error: " +:+ msg;
     category := None; hierarchy := None; keywords := None |}.

(** [page[key]] for a key the crawl sets: [KeyError] when it is absent. *)
Definition getitem {A} (key : string) (o : option A) : result A :=
  match o with
  | Some a => Ok a
  | None => Raise ("'" +:+ key +:+ "'")
  end.

(** [max(l)] of a list of counts *)
Definition max_value (l : list nat) : nat := fold_left Nat.max l 0.

(** [max(d, key=d.get)]: the scan keeps the key it holds unless a later
    value is strictly larger. *)
Fixpoint max_key_go (best : string * nat) (l : list (string * nat)) : string * nat :=
  match l with
  | [] => best
  | x :: l' => max_key_go (if snd best <? snd x then x else best) l'
  end.

(** On an empty dictionary [max] raises; the dictionaries below are never
    empty. *)
Definition max_key (d : list (string * nat)) : string :=
  match d with
  | [] => ""
  | x :: d' => fst (max_key_go x d')
  end.

(** [sum(1 for keyword in keywords if keyword in text)] *)
Definition score (keywords : list string) (text : string) : nat :=
  List.length (List.filter (fun keyword => Py.contains keyword text) keywords).

(** [Counter(words).most_common(5)] over
    [[w.lower() for w in blob.words if len(w) > 3 and w.isalpha()]] *)
Definition top_keywords (tokens : list string) : list (string * nat) :=
  let words :=
    List.map Py.lower
      (List.filter (fun w => (3 <? Py.len w) && Py.isalpha w) tokens) in
  Py.most_common 5 (Py.counter words).

(** The links of every anchor that has one: [a['href']] over
    [soup.find_all('a', href=True)]. *)
Definition anchor_hrefs (soup : Bs4.Node) : list string :=
  omap (Bs4.get "href") (Bs4.find_all_having "a" "href" soup).

(** The state of the crawl loop.  [fetch_log] is a history variable: the
    URLs handed to [extract_page_content], in order. *)
Record CrawlState (H : Type) : Type := {
  to_crawl : list string;
  crawled : gset string;
  site_data : list (PageRecord H);
  fetch_log : list string
}.
Arguments to_crawl {H} _.
Arguments crawled {H} _.
Arguments site_data {H} _.
Arguments fetch_log {H} _.

(** [while cond: body], with fuel: [step] is [None] when the condition
    fails, and an exception that leaves [body] ends the loop. *)
Fixpoint while_loop {St} (step : St -> option (result St)) (fuel : nat) (st : St)
  : option (result St) :=
  match fuel with
  | 0 => None
  | S fuel' =>
      match step st with
      | None => Some (Ok st)
      | Some (Ok st') => while_loop step fuel' st'
      | Some (Raise msg) => Some (Raise msg)
      end
  end.

(** ** [src/URLCat.py] *)

Module URLCat.

Record Hierarchy : Type := {
  depth : nat;
  path_parts : list string;
  has_query : bool;
  file_extension : option string
}.

Abbreviation Page := (PageRecord Hierarchy).

Record WebsiteAnalyzer : Type := {
  base_url : string;
  max_pages : Z;
  crawled_urls : gset string;
  analyzer_site_data : list Page;
  domain : string
}.

(** [WebsiteAnalyzer(base_url, max_pages)] *)
Definition init (base_url : string) (max_pages : Z) : result WebsiteAnalyzer :=
  parsed ← Urllib.urlparse base_url;
  Ok {| base_url := base_url; max_pages := max_pages; crawled_urls := ∅;
        analyzer_site_data := []; domain := Urllib.netloc parsed |}.

Definition is_valid_url (self : WebsiteAnalyzer) (url : string) : bool :=
  match Urllib.urlparse url with
  | Ok parsed =>
      bool_decide (Urllib.netloc parsed = domain self) ||
      bool_decide (Urllib.netloc parsed = "") ||
      Py.endswith ("." +:+ domain self) (Urllib.netloc parsed)
  | Raise _ => false
  end.

Section Extraction.
Context `{World}.

(** The links loop: [if self.is_valid_url(href) and href not in links]. *)
Definition collect_links (self : WebsiteAnalyzer) (hrefs : list string) : list string :=
  fold_left
    (fun links href =>
       if is_valid_url self href && bool_decide (href ∉ links)
       then links ++ [href] else links)
    hrefs [].

(** The body of the [try]. *)
Definition extract_page (self : WebsiteAnalyzer) (url : string) : result Page :=
  response ← http_get url;
  let soup := Bs4.decompose ["script"; "style"] response in
  let title := Bs4.find "title" soup in
  let title_text :=
    match title with
    | Some t => Py.strip (Bs4.get_text t)
    | None => "No Title"
    end in
  let meta_desc := Bs4.find_attr "meta" "name" "description" soup in
  let description :=
    match meta_desc with
    | Some m => default "" (Bs4.get "content" m)
    | None => ""
    end in
  let headings :=
    List.filter Py.truthy
      (List.map (fun h => Py.strip (Bs4.get_text h))
         (Bs4.find_all ["h1"; "h2"; "h3"; "h4"; "h5"; "h6"] soup)) in
  let text_content := Py.join " " (Py.split (Bs4.get_text soup)) in
  hrefs ← mapM (urljoin url) (anchor_hrefs soup);
  let links := collect_links self hrefs in
  Ok {| url := url; title := title_text; description := description;
        headings := headings;
        text_content := Py.slice_to 1000 text_content;
        word_count := List.length (Py.split text_content);
        links := links; status := "success";
        category := None; hierarchy := None; keywords := None |}.

Definition extract_page_content (self : WebsiteAnalyzer) (url : string) : Page :=
  match extract_page self url with
  | Ok page => page
  | Raise e => error_record url e
  end.

End Extraction.

Definition categories : list (string * list string) :=
  [ ("product", ["product"; "buy"; "shop"; "store"; "price"; "cart"; "purchase"; "item"; "catalog"]);
    ("blog", ["blog"; "post"; "article"; "news"; "story"; "read"; "author"; "published"]);
    ("about", ["about"; "company"; "team"; "history"; "mission"; "vision"; "who we are"]);
    ("contact", ["contact"; "phone"; "email"; "address"; "location"; "reach us"; "get in touch"]);
    ("service", ["service"; "solution"; "consulting"; "support"; "what we do"; "offerings"]);
    ("help", ["help"; "faq"; "support"; "documentation"; "guide"; "tutorial"; "how to"]);
    ("legal", ["privacy"; "terms"; "legal"; "policy"; "agreement"; "disclaimer"; "cookies"]) ].

(** The text that is scored. *)
Definition classify_text (content : Page) : string :=
  Py.lower (title content +:+ " " +:+ description content +:+ " " +:+
            Py.join " " (headings content) +:+ " " +:+ text_content content).

Definition scores (text : string) : list (string * nat) :=
  List.map (fun '(category, keywords) => (category, score keywords text)) categories.

Definition classify_content (content : Page) : string :=
  let text := classify_text content in
  if 0 <? max_value (List.map snd (scores text))
  then max_key (scores text) else "other".

Definition analyze_url_hierarchy (url : string) : result Hierarchy :=
  parsed ← Urllib.urlparse url;
  let path_parts := List.filter Py.truthy (Py.split_on "/" (Urllib.path parsed)) in
  let last_part := Py.last_or "" path_parts in
  Ok {| depth := List.length path_parts;
        path_parts := path_parts;
        has_query := Py.truthy (Urllib.query parsed);
        file_extension :=
          if bool_decide (path_parts ≠ []) && Py.has_char "." last_part
          then Some (Py.last_or "" (Py.split_on "." last_part))
          else None |}.

Section Crawl.
Context `{World}.

(** The keywords of a page: none when its text is empty.  The tokenizer
    of [World] does not raise, so the [except] branch, which gives the
    empty list too, has no counterpart. *)
Definition page_keywords (text : string) : list (string * nat) :=
  if Py.truthy text then top_keywords (blob_words text) else [].

(** [if link not in crawled and link not in to_crawl: to_crawl.append(link)] *)
Definition enqueue (crawled : gset string) (to_crawl links : list string) : list string :=
  fold_left
    (fun to_crawl link =>
       if bool_decide (link ∉ crawled) && bool_decide (link ∉ to_crawl)
       then to_crawl ++ [link] else to_crawl)
    links to_crawl.

(** One turn of the [while] loop of [crawl_website]. *)
Definition crawl_step (self : WebsiteAnalyzer) (st : CrawlState Hierarchy)
  : option (result (CrawlState Hierarchy)) :=
  match to_crawl st with
  | [] => None
  | current_url :: rest =>
      if negb (Z.of_nat (size (crawled st)) <? max_pages self)%Z then None
      else if bool_decide (current_url ∈ crawled st) then
        Some (Ok {| to_crawl := rest; crawled := crawled st;
                    site_data := site_data st; fetch_log := fetch_log st |})
      else
        let crawled' := crawled st ∪ {[current_url]} in
        let log' := fetch_log st ++ [current_url] in
        let page_data := extract_page_content self current_url in
        if bool_decide (status page_data = "success") then
          let category := classify_content page_data in
          Some (hierarchy ← analyze_url_hierarchy current_url;
                let page_data' :=
                  {| url := url page_data; title := title page_data;
                     description := description page_data;
                     headings := headings page_data;
                     text_content := text_content page_data;
                     word_count := word_count page_data;
                     links := links page_data; status := status page_data;
                     category := Some category;
                     hierarchy := Some hierarchy;
                     keywords := Some (page_keywords (text_content page_data)) |} in
                Ok {| to_crawl := enqueue crawled' rest (links page_data);
                      crawled := crawled';
                      site_data := site_data st ++ [page_data'];
                      fetch_log := log' |})
        else
          Some (Ok {| to_crawl := rest; crawled := crawled';
                      site_data := site_data st; fetch_log := log' |})
  end.

Definition crawl_start (self : WebsiteAnalyzer) : CrawlState Hierarchy :=
  {| to_crawl := [base_url self]; crawled := ∅;
     site_data := analyzer_site_data self; fetch_log := [] |}.

(** [self.crawl_website()]: [None] when the fuel does not suffice,
    else the list returned or the exception that escaped. *)
Definition crawl_website (fuel : nat) (self : WebsiteAnalyzer)
  : option (result (list Page)) :=
  match while_loop (crawl_step self) fuel (crawl_start self) with
  | None => None
  | Some (Ok st) => Some (Ok (site_data st))
  | Some (Raise msg) => Some (Raise msg)
  end.

End Crawl.

Record Taxonomy : Type := {
  tax_categories : Py.Counter string;
  hierarchy_levels : Py.Counter nat;
  file_types : Py.Counter string;
  topics : list (string * nat)
}.

(** [page['hierarchy']['file_extension'] or 'html'] *)
Definition file_type (h : Hierarchy) : string :=
  match file_extension h with
  | Some e => if Py.truthy e then e else "html"
  | None => "html"
  end.

Definition create_taxonomy_data (site_data : list Page) : result Taxonomy :=
  cats ← mapM (fun page => getitem "category" (category page)) site_data;
  hs ← mapM (fun page => getitem "hierarchy" (hierarchy page)) site_data;
  kws ← mapM (fun page => getitem "keywords" (keywords page)) site_data;
  let all_keywords := List.concat (List.map (List.map fst) kws) in
  Ok {| tax_categories := Py.counter cats;
        hierarchy_levels := Py.counter (List.map depth hs);
        file_types := Py.counter (List.map file_type hs);
        topics := Py.most_common 10 (Py.counter all_keywords) |}.

End URLCat.

(** ** [src/URLCat_GSC.py] *)

Module URLCat_GSC.

Record Hierarchy : Type := {
  depth : nat;
  file_ext : string
}.

Abbreviation Page := (PageRecord Hierarchy).

Record WebsiteAnalyzer : Type := {
  base_url : string;
  max_pages : Z;
  domain : string;
  analyzer_site_data : list Page
}.

(** [WebsiteAnalyzer(base_url, max_pages)] *)
Definition init (base_url : string) (max_pages : Z) : result WebsiteAnalyzer :=
  parsed ← Urllib.urlparse base_url;
  Ok {| base_url := Py.rstrip_char "/" base_url; max_pages := max_pages;
        domain := Urllib.netloc parsed; analyzer_site_data := [] |}.

Definition is_valid_url (self : WebsiteAnalyzer) (url : string) : bool :=
  match Urllib.urlparse url with
  | Ok parsed =>
      bool_decide (Urllib.scheme parsed ∈ ["http"; "https"]) &&
      (bool_decide (Urllib.netloc parsed = domain self) ||
       Py.endswith ("." +:+ domain self) (Urllib.netloc parsed) ||
       bool_decide (Urllib.netloc parsed = ""))
  | Raise _ => false
  end.

(** [s.split('#')[0]] *)
Definition before_hash (s : string) : string :=
  default "" (head (Py.split_on "#" s)).

Section Extraction.
Context `{World}.

(** The links loop, then [list(dict.fromkeys(links))]. *)
Definition collect_links (self : WebsiteAnalyzer) (hrefs : list string) : list string :=
  Py.fromkeys (List.filter (is_valid_url self) hrefs).

(** The body of the [try]. *)
Definition extract_page (self : WebsiteAnalyzer) (url : string) : result Page :=
  resp ← http_get url;
  let soup := Bs4.decompose ["script"; "style"; "noscript"] resp in
  title ←
    match Bs4.find "title" soup with
    | Some t =>
        match Bs4.tag_string t with
        | Some s => Ok (Py.strip s)
        | None => Raise "'NoneType' object has no attribute 'strip'"
        end
    | None => Ok "No Title"
    end;
  let meta_desc := Bs4.find_attr "meta" "name" "description" soup in
  let description :=
    match meta_desc with
    | Some m => Py.strip (default "" (Bs4.get "content" m))
    | None => ""
    end in
  let headings :=
    List.map (fun h => Py.strip (Bs4.get_text h))
      (Bs4.find_all ["h1"; "h2"; "h3"; "h4"; "h5"; "h6"] soup) in
  let text_content :=
    Py.slice_to 1000 (Py.join " " (Py.split (Bs4.get_text soup))) in
  hrefs ← mapM (fun a => href ← urljoin url a; Ok (before_hash href))
            (anchor_hrefs soup);
  let links := collect_links self hrefs in
  Ok {| url := url; title := title; description := description;
        headings := headings;
        text_content := text_content;
        word_count := List.length (Py.split text_content);
        links := links; status := "success";
        category := None; hierarchy := None; keywords := None |}.

Definition extract_page_content (self : WebsiteAnalyzer) (url : string) : Page :=
  match extract_page self url with
  | Ok page => page
  | Raise e => error_record url e
  end.

End Extraction.

Definition _CATEGORY_KEYWORDS : list (string * list string) :=
  [ ("product", ["product"; "buy"; "shop"; "price"; "cart"]);
    ("blog", ["blog"; "post"; "article"; "news"]);
    ("about", ["about"; "company"; "team"; "history"]);
    ("contact", ["contact"; "phone"; "email"; "address"]);
    ("service", ["service"; "solution"; "support"]);
    ("help", ["help"; "faq"; "guide"; "tutorial"]);
    ("legal", ["privacy"; "terms"; "policy"; "legal"]) ].

(** The text that is scored. *)
Definition classify_text (page : Page) : string :=
  Py.lower (Py.join " " [title page; description page;
                         Py.join " " (headings page); text_content page]).

Definition scores (text : string) : list (string * nat) :=
  List.map (fun '(cat, kws) => (cat, score kws text)) _CATEGORY_KEYWORDS.

Definition classify_content (page : Page) : string :=
  let text := classify_text page in
  if 0 <? max_value (List.map snd (scores text))
  then max_key (scores text) else "other".

Definition hierarchy_info (url : string) : result Hierarchy :=
  parsed ← Urllib.urlparse url;
  let parts := List.filter Py.truthy (Py.split_on "/" (Urllib.path parsed)) in
  let last_part := Py.last_or "" parts in
  Ok {| depth := List.length parts;
        file_ext :=
          if bool_decide (parts ≠ []) && Py.has_char "." last_part
          then Py.last_or "" (Py.split_on "." last_part)
          else "html" |}.

Section Crawl.
Context `{World}.

(** [if link not in done and link not in todo and
    len(done)+len(todo) < self.max_pages: todo.append(link)] *)
Definition enqueue (self : WebsiteAnalyzer) (done : gset string)
    (todo links : list string) : list string :=
  fold_left
    (fun todo link =>
       if bool_decide (link ∉ done) && bool_decide (link ∉ todo) &&
          (Z.of_nat (size done + List.length todo) <? max_pages self)%Z
       then todo ++ [link] else todo)
    links todo.

(** One turn of the [while] loop of [crawl]. *)
Definition crawl_step (self : WebsiteAnalyzer) (st : CrawlState Hierarchy)
  : option (result (CrawlState Hierarchy)) :=
  match to_crawl st with
  | [] => None
  | current :: todo =>
      if negb (Z.of_nat (size (crawled st)) <? max_pages self)%Z then None
      else if bool_decide (current ∈ crawled st) then
        Some (Ok {| to_crawl := todo; crawled := crawled st;
                    site_data := site_data st; fetch_log := fetch_log st |})
      else
        let done := crawled st ∪ {[current]} in
        let log' := fetch_log st ++ [current] in
        let page := extract_page_content self current in
        if bool_decide (status page = "success") then
          let category := classify_content page in
          Some (hierarchy ← hierarchy_info current;
                let page' :=
                  {| url := url page; title := title page;
                     description := description page;
                     headings := headings page;
                     text_content := text_content page;
                     word_count := word_count page;
                     links := links page; status := status page;
                     category := Some category;
                     hierarchy := Some hierarchy;
                     keywords := Some (top_keywords (blob_words (text_content page))) |} in
                Ok {| to_crawl := enqueue self done todo (links page);
                      crawled := done;
                      site_data := site_data st ++ [page'];
                      fetch_log := log' |})
        else
          Some (Ok {| to_crawl := todo; crawled := done;
                      site_data := site_data st; fetch_log := log' |})
  end.

Definition crawl_start (self : WebsiteAnalyzer) : CrawlState Hierarchy :=
  {| to_crawl := [base_url self]; crawled := ∅;
     site_data := analyzer_site_data self; fetch_log := [] |}.

(** [self.crawl()]: [None] when the fuel does not suffice, else the
    list returned or the exception that escaped. *)
Definition crawl (fuel : nat) (self : WebsiteAnalyzer)
  : option (result (list Page)) :=
  match while_loop (crawl_step self) fuel (crawl_start self) with
  | None => None
  | Some (Ok st) => Some (Ok (site_data st))
  | Some (Raise msg) => Some (Raise msg)
  end.

End Crawl.

Record Taxonomy : Type := {
  tax_categories : Py.Counter string;
  tax_depth : Py.Counter nat;
  file_types : Py.Counter string
}.

Definition build_taxonomy (data : list Page) : result Taxonomy :=
  cats ← mapM (fun d => getitem "category" (category d)) data;
  hs ← mapM (fun d => getitem "hierarchy" (hierarchy d)) data;
  Ok {| tax_categories := Py.counter cats;
        tax_depth := Py.counter (List.map depth hs);
        file_types := Py.counter (List.map file_ext hs) |}.

End URLCat_GSC.

(** ** A small site, for concrete runs *)

Module Demo.

Import Bs4.

Definition home : string := "https://a.com/".
Definition about : string := "https://a.com/about".
Definition about_team : string := "https://a.com/about#team".
Definition missing : string := "https://a.com/missing".
Definition mailto : string := "mailto:info@a.com".
Definition long : string := "https://a.com/long".

Definition a (href text : string) : Node :=
  Tag "a" [("href", href)] [NavigableString text].

Definition nl : Node := NavigableString (String "010" "").

Definition home_doc : Node :=
  soup [Tag "html" []
    [Tag "head" []
       [Tag "title" [] [NavigableString " Our Store "]; nl;
        Tag "meta" [("name", "description"); ("content", "All we sell")] []]; nl;
     Tag "body" []
       [Tag "h1" [] [NavigableString "Welcome"]; nl;
        Tag "script" [] [NavigableString "var blog = 1;"]; nl;
        Tag "p" [] [NavigableString "cat cat dog dog dog bird"]; nl;
        a about_team "The team"; nl;
        a missing "Gone"; nl;
        a mailto "Write to us"; nl;
        a about_team "The team again"]]].

Definition about_doc : Node :=
  soup [Tag "html" []
    [Tag "head" [] [Tag "title" [] [NavigableString "About us"]]; nl;
     Tag "body" []
       [Tag "h2" [] [NavigableString "Our history"]; nl;
        Tag "p" [] [NavigableString "A company with a mission"]; nl;
        a missing "Gone"]]].

Fixpoint repeat_string (n : nat) (s : string) : string :=
  match n with
  | 0 => ""
  | S n' => s +:+ repeat_string n' s
  end.

(** 250 words of four letters: 1249 characters once collapsed. *)
Definition long_doc : Node :=
  soup [Tag "html" []
    [Tag "body" [] [Tag "p" [] [NavigableString (repeat_string 250 "word ")]]]].

(** A request does not carry the fragment of its URL. *)
Definition get (url : string) : result Node :=
  let page := URLCat_GSC.before_hash url in
  if bool_decide (page = home) || bool_decide (page = "https://a.com") then Ok home_doc
  else if bool_decide (page = about) then Ok about_doc
  else if bool_decide (page = long) then Ok long_doc
  else if bool_decide (page = mailto) then
    Raise "No connection adapters were found for 'mailto:info@a.com'"
  else Raise ("404 Client Error: Not Found for url: " +:+ url).

(** [urljoin] where the site needs it: an href with its own scheme and
    either a network location or no hierarchy at all is returned as it
    is; the site has no relative href, and any other resolves to the
    base here, as the empty href does. *)
Definition join_absolute (base href : string) : result string :=
  parsed ← Urllib.urlparse href;
  if Py.truthy (Urllib.scheme parsed) then Ok href else Ok base.

(** [TextBlob(text).words] on words separated by blanks, without
    punctuation. *)
#[global] Instance world : World :=
  {| http_get := get; urljoin := join_absolute; blob_words := Py.split |}.

(** A record whose only text is its title. *)
Definition titled {H} (t : string) : PageRecord H :=
  {| url := home; title := t; description := ""; headings := [];
     text_content := ""; word_count := 0; links := []; status := "success";
     category := None; hierarchy := None; keywords := None |}.

Definition analyzer (base : string) (budget : Z) : URLCat.WebsiteAnalyzer :=
  {| URLCat.base_url := base; URLCat.max_pages := budget;
     URLCat.crawled_urls := ∅; URLCat.analyzer_site_data := [];
     URLCat.domain := "a.com" |}.

Definition analyzer_gsc (base : string) (budget : Z) : URLCat_GSC.WebsiteAnalyzer :=
  {| URLCat_GSC.base_url := Py.rstrip_char "/" base;
     URLCat_GSC.max_pages := budget;
     URLCat_GSC.domain := "a.com"; URLCat_GSC.analyzer_site_data := [] |}.

End Demo.

(** ** Vocabulary of the statements *)

(** The states a loop passes through, from [st] on. *)
Inductive reaches {St} (step : St -> option (result St)) : St -> St -> Prop :=
| reaches_here st : reaches step st st
| reaches_next st st' st'' :
    step st = Some (Ok st') -> reaches step st' st'' -> reaches step st st''.

(** [sub] occurs in [s]. *)
Definition substring_of (sub s : string) : Prop :=
  exists pre post, s = pre +:+ sub +:+ post.

(** The first [a] of [l] stands before every [b] of [l]. *)
Definition first_before {A} (a b : A) (l : list A) : Prop :=
  exists k, l !! k = Some a /\ forall k', l !! k' = Some b -> k < k'.

(** [d] lists the elements of [l] once each, in the order in which they
    first occur in [l]. *)
Definition keeps_first_occurrences {A} (d l : list A) : Prop :=
  NoDup d /\
  (forall x, x ∈ d <-> x ∈ l) /\
  (forall i j x y,
      d !! i = Some x -> d !! j = Some y -> i < j -> first_before x y l).

(** How often [k] stands in [l]. *)
Definition occurrences `{EqDecision K} (k : K) (l : list K) : nat :=
  List.length (List.filter (fun y => bool_decide (y = k)) l).

(** [c[k]]: the count a [Counter] holds for [k], 0 when it has none. *)
Fixpoint count_of `{EqDecision K} (c : Py.Counter K) (k : K) : nat :=
  match c with
  | [] => 0
  | (k', n) :: c' => if decide (k' = k) then n else count_of c' k
  end.

(** [sum(c.values())] *)
Definition total {K} (c : Py.Counter K) : nat :=
  fold_right (fun e acc => snd e + acc) 0 c.

(** [x] stands somewhere before [y] in [l]. *)
Definition before {A} (x y : A) (l : list A) : Prop :=
  exists l1 l2 l3, l = l1 ++ x :: l2 ++ y :: l3.

(** One turn of a crawl loop, as both files take it: the head of the
    queue is dropped when it was visited; otherwise it is visited, and
    either the fetch failed and nothing else changes, or one enriched
    success record for that URL joins the result and the queue grows by
    links of the page.  [P] is what is known of every link of a page. *)
Inductive crawl_transition {H} (budget : Z) (P : string -> Prop)
  : CrawlState H -> CrawlState H -> Prop :=
| turn_skip st u rest :
    to_crawl st = u :: rest ->
    (Z.of_nat (size (crawled st)) < budget)%Z ->
    u ∈ crawled st ->
    crawl_transition budget P st
      {| to_crawl := rest; crawled := crawled st;
         site_data := site_data st; fetch_log := fetch_log st |}
| turn_failure st u rest :
    to_crawl st = u :: rest ->
    (Z.of_nat (size (crawled st)) < budget)%Z ->
    u ∉ crawled st ->
    crawl_transition budget P st
      {| to_crawl := rest; crawled := crawled st ∪ {[u]};
         site_data := site_data st; fetch_log := fetch_log st ++ [u] |}
| turn_success st u rest page queue :
    to_crawl st = u :: rest ->
    (Z.of_nat (size (crawled st)) < budget)%Z ->
    u ∉ crawled st ->
    url page = u -> status page = "success" ->
    is_Some (category page) -> is_Some (hierarchy page) -> is_Some (keywords page) ->
    Forall P (links page) ->
    (forall x, x ∈ queue -> x ∈ rest \/ x ∈ links page) ->
    crawl_transition budget P st
      {| to_crawl := queue; crawled := crawled st ∪ {[u]};
         site_data := site_data st ++ [page]; fetch_log := fetch_log st ++ [u] |}.

(** What holds of every state of a crawl that began with the result list
    [before_run]: the visited set is within the budget and is what the
    fetch log lists, once each; the records added are successes, enriched,
    one per URL, all of visited URLs; the queue holds URLs of [P]. *)
Definition crawl_inv {H} (budget : Z) (P : string -> Prop)
    (before_run : list (PageRecord H)) (st : CrawlState H) : Prop :=
  (Z.of_nat (size (crawled st)) <= Z.max 0 budget)%Z /\
  NoDup (fetch_log st) /\
  (forall u, u ∈ fetch_log st <-> u ∈ crawled st) /\
  (exists added,
      site_data st = before_run ++ added /\
      NoDup (List.map url added) /\
      (forall r, r ∈ added ->
                 url r ∈ crawled st /\ status r = "success" /\
                 is_Some (category r) /\ is_Some (hierarchy r) /\
                 is_Some (keywords r))) /\
  Forall P (to_crawl st).

(** [urlparse(u)] returns. *)
Definition parses (u : string) : Prop :=
  exists parsed, Urllib.urlparse u = Ok parsed.

(** The rule of the classifier over a table of keywords: [other] when no
    keyword of any category occurs in [text]; otherwise the category of
    the first entry whose score no entry exceeds. *)
Definition classification_rule (table : list (string * list string))
    (text answer : string) : Prop :=
  ((forall cat kws, (cat, kws) ∈ table -> score kws text = 0) /\ answer = "other")
  \/
  (exists i cat kws,
      table !! i = Some (cat, kws) /\ answer = cat /\ 0 < score kws text /\
      (forall cat' kws', (cat', kws') ∈ table -> score kws' text <= score kws text) /\
      (forall j cat' kws', j < i -> table !! j = Some (cat', kws') ->
                           score kws' text < score kws text)).

(** The table of section 4.5 of the spec, row by row, to compare the
    tables of the two files with. *)
Definition spec_keyword_table : list (string * list string) :=
  [ ("product", ["product"; "buy"; "shop"; "store"; "price"; "cart"; "purchase"; "item"; "catalog"]);
    ("blog", ["blog"; "post"; "article"; "news"; "story"; "read"; "author"; "published"]);
    ("about", ["about"; "company"; "team"; "history"; "mission"; "vision"; "who we are"]);
    ("contact", ["contact"; "phone"; "email"; "address"; "location"; "reach us"; "get in touch"]);
    ("service", ["service"; "solution"; "consulting"; "support"; "what we do"; "offerings"]);
    ("help", ["help"; "faq"; "support"; "documentation"; "guide"; "tutorial"; "how to"]);
    ("legal", ["privacy"; "terms"; "legal"; "policy"; "agreement"; "disclaimer"; "cookies"]) ].

(** The record that a turn of [crawl_website] appends for the URL [u]:
    the extracted page, with its category, hierarchy and keywords. *)
Definition urlcat_record_of `{World} (self : URLCat.WebsiteAnalyzer)
    (u : string) (r : URLCat.Page) : Prop :=
  let page := URLCat.extract_page_content self u in
  status page = "success" /\
  url r = u /\ title r = title page /\ description r = description page /\
  headings r = headings page /\ text_content r = text_content page /\
  word_count r = word_count page /\ links r = links page /\
  status r = "success" /\
  category r = Some (URLCat.classify_content page) /\
  (exists h, URLCat.analyze_url_hierarchy u = Ok h /\ hierarchy r = Some h) /\
  keywords r = Some (URLCat.page_keywords (text_content page)).

(** The record that a turn of [crawl] of [src/URLCat_GSC.py] appends. *)
Definition gsc_record_of `{World} (self : URLCat_GSC.WebsiteAnalyzer)
    (u : string) (r : URLCat_GSC.Page) : Prop :=
  let page := URLCat_GSC.extract_page_content self u in
  status page = "success" /\
  url r = u /\ title r = title page /\ description r = description page /\
  headings r = headings page /\ text_content r = text_content page /\
  word_count r = word_count page /\ links r = links page /\
  status r = "success" /\
  category r = Some (URLCat_GSC.classify_content page) /\
  (exists h, URLCat_GSC.hierarchy_info u = Ok h /\ hierarchy r = Some h) /\
  keywords r = Some (top_keywords (blob_words (text_content page))).

(** The number of records whose keywords list [w]. *)
Definition pages_listing {H} (w : string) (data : list (PageRecord H)) : nat :=
  List.length
    (List.filter
       (fun r => bool_decide (w ∈ List.map fst (default [] (keywords r)))) data).

(** A word as [str.split] gives it: not empty, and without a blank. *)
Definition is_word (w : string) : Prop :=
  w <> EmptyString /\ Py.all_chars (fun c => negb (Py.isspace c)) w = true.

(** One fetching turn of a crawl loop in full, as both files take it from
    a state whose queue holds no visited URL: the head [u] of the queue is
    visited and logged; when its extraction is no success nothing else
    changes; otherwise the record [r] of [u] joins the result and the
    links [new] of [r] that are neither visited nor queued join the queue,
    once each.  [src/URLCat.py] queues every such link ([bounded] is
    [false]); [src/URLCat_GSC.py] queues a link only while visited and
    queued URLs together are fewer than the budget. *)
Inductive crawl_turn {H} (budget : Z) (bounded : bool)
    (extract : string -> PageRecord H)
    (record_of : string -> PageRecord H -> Prop)
  : CrawlState H -> CrawlState H -> Prop :=
| fetch_failed st u rest :
    to_crawl st = u :: rest ->
    (Z.of_nat (size (crawled st)) < budget)%Z ->
    status (extract u) <> "success" ->
    crawl_turn budget bounded extract record_of st
      {| to_crawl := rest; crawled := crawled st ∪ {[u]};
         site_data := site_data st; fetch_log := fetch_log st ++ [u] |}
| fetch_succeeded st u rest r new :
    to_crawl st = u :: rest ->
    (Z.of_nat (size (crawled st)) < budget)%Z ->
    status (extract u) = "success" ->
    record_of u r ->
    links r = links (extract u) ->
    NoDup new ->
    (forall x, x ∈ new -> x ∈ links r /\ (x ∉ crawled st ∪ {[u]}) /\ (x ∉ rest)) ->
    ((forall x, x ∈ links r -> x ∈ crawled st ∪ {[u]} \/ x ∈ rest ++ new) \/
     (bounded = true /\
      (budget <= Z.of_nat (size (crawled st ∪ {[u]}) + List.length (rest ++ new)))%Z)) ->
    (bounded = true ->
     new = [] \/
     (Z.of_nat (size (crawled st ∪ {[u]}) + List.length (rest ++ new)) <= budget)%Z) ->
    crawl_turn budget bounded extract record_of st
      {| to_crawl := rest ++ new; crawled := crawled st ∪ {[u]};
         site_data := site_data st ++ [r]; fetch_log := fetch_log st ++ [u] |}.

(** The extraction of [u] was a success. *)
Definition fetched_well {H} (extract : string -> PageRecord H) (u : string) : bool :=
  bool_decide (status (extract u) = "success").

(** What holds of every state of a crawl from [seed] that began with an
    empty result list: the queue is without repetition and holds no
    visited URL; the log lists the visited URLs; the result lists, in the
    order of the log, the records of the URLs whose extraction was a
    success; every URL queued or logged is the seed or a link of a record
    of the result; the log begins with the seed; every link of every
    record is visited or queued, unless the budget stopped the queue; a
    bounded queue leaves no more URLs visited or queued than the budget,
    the seed apart; a seed whose extraction fails leaves the result
    empty; and the visited URLs are within the budget. *)
Definition crawl_run_inv {H} (budget : Z) (bounded : bool)
    (extract : string -> PageRecord H)
    (record_of : string -> PageRecord H -> Prop)
    (seed : string) (st : CrawlState H) : Prop :=
  NoDup (to_crawl st) /\
  (forall x, x ∈ to_crawl st -> x ∉ crawled st) /\
  (forall x, x ∈ fetch_log st <-> x ∈ crawled st) /\
  List.length (fetch_log st) = size (crawled st) /\
  Forall2 (fun r u => record_of u r /\ links r = links (extract u))
    (site_data st) (List.filter (fetched_well extract) (fetch_log st)) /\
  (forall x, x ∈ to_crawl st ++ fetch_log st ->
             x = seed \/ exists r, r ∈ site_data st /\ x ∈ links r) /\
  ((fetch_log st = [] /\ to_crawl st = [seed] /\ site_data st = []) \/
   exists tl, fetch_log st = seed :: tl) /\
  ((forall r x, r ∈ site_data st -> x ∈ links r ->
                x ∈ crawled st \/ x ∈ to_crawl st) \/
   (bounded = true /\
    (budget <= Z.of_nat (size (crawled st) + List.length (to_crawl st)))%Z)) /\
  (bounded = true ->
   (Z.of_nat (size (crawled st) + List.length (to_crawl st)) <= Z.max 1 budget)%Z) /\
  (status (extract seed) <> "success" -> site_data st = []) /\
  (Z.of_nat (size (crawled st)) <= Z.max 0 budget)%Z.

(** The state after [n] turns of a loop, or the state in which the loop
    stopped, or raised, before that. *)
Fixpoint run_turns {St} (step : St -> option (result St)) (n : nat) (st : St) : St :=
  match n with
  | 0 => st
  | S n' =>
      match step st with
      | Some (Ok st') => run_turns step n' st'
      | _ => st
      end
  end.

(** The arguments of the progress callback in the turn that a crawl loop
    of budget [budget] takes from [st], when that turn fetches: in both
    files [(len(crawled), min(self.max_pages, len(crawled) + len(to_crawl)))],
    after the current URL left the queue and joined the visited set. *)
Definition progress_call {H} (budget : Z) (st : CrawlState H) : option (nat * Z) :=
  match to_crawl st with
  | [] => None
  | current_url :: rest =>
      if negb (Z.of_nat (size (crawled st)) <? budget)%Z then None
      else if bool_decide (current_url ∈ crawled st) then None
      else
        let crawled' := crawled st ∪ {[current_url]} in
        Some (size crawled',
              Z.min budget (Z.of_nat (size crawled' + List.length rest)))
  end.

(** ** The dashboard of [src/URLCat.py] *)

Module Dashboard.

(** [main]: the URL as typed, with [https://] in front unless it starts
    with [http://] or [https://]. *)
Definition seed_url (website_url : string) : string :=
  if negb (Py.startswith "http://" website_url || Py.startswith "https://" website_url)
  then "https://" +:+ website_url
  else website_url.

(** What the button of [main] ends in: the success message with the
    list, the warning that no page was analysed, the error message of the
    [except] branch, or the warning that no URL was entered. *)
Inductive Outcome : Type :=
| Analysed (site_data : list URLCat.Page)
| NoPages
| Failed (msg : string)
| NoUrl.

(** The body of [if st.sidebar.button(...)].  [None] when the fuel of the
    crawl does not suffice. *)
Definition start_analysis `{World} (fuel : nat) (website_url : string)
    (max_pages : Z) : option Outcome :=
  if Py.truthy website_url then
    match URLCat.init (seed_url website_url) max_pages with
    | Raise msg => Some (Failed msg)
    | Ok analyzer =>
        match URLCat.crawl_website fuel analyzer with
        | None => None
        | Some (Raise msg) => Some (Failed msg)
        | Some (Ok []) => Some NoPages
        | Some (Ok site_data) => Some (Analysed site_data)
        end
    end
  else Some NoUrl.

(** The text of the URL list export:
    ['\n'.join([page['url'] for page in site_data])]. *)
Definition url_list (site_data : list URLCat.Page) : string :=
  Py.join (String "010" EmptyString) (List.map url site_data).

End Dashboard.

(** ** Strings *)

Section Strings.

Lemma startswith_spec p s :
  Py.startswith p s = true <-> exists post, s = p +:+ post.
Proof.
  revert s; induction p as [|a p IH]; intros s; simpl.
  - split; [intros _; by exists s | done].
  - destruct s as [|b s]; simpl.
    + split; [done | intros [post Hp]; discriminate].
    + rewrite andb_true_iff, bool_decide_eq_true, IH. split.
      * intros [-> [post ->]]. by exists post.
      * intros [post Hp]. injection Hp as -> ->. eauto.
Qed.

(** [sub in s] holds exactly when [sub] occurs in [s]. *)
Lemma contains_spec sub s :
  Py.contains sub s = true <-> substring_of sub s.
Proof.
  unfold substring_of. induction s as [|b s IH].
  - simpl. rewrite orb_false_r, startswith_spec. split.
    + intros [post Hp]. by exists "", post.
    + intros [pre [post Hp]]. destruct pre; [by exists post | discriminate].
  - cbn [Py.contains]. rewrite orb_true_iff, IH, startswith_spec. split.
    + intros [[post Hp] | [pre [post Hp]]].
      * by exists "", post.
      * exists (String b pre), post. simpl. by rewrite Hp.
    + intros [pre [post Hp]]. destruct pre as [|c pre]; simpl in Hp.
      * left. by exists post.
      * right. injection Hp as -> ->. by exists pre, post.
Qed.

Lemma slice_to_length n s :
  Py.len (Py.slice_to n s) = Nat.min n (Py.len s).
Proof.
  unfold Py.len. revert s; induction n as [|n IH]; intros [|c s]; simpl; auto.
Qed.

Lemma slice_to_prefix n s :
  exists rest, s = Py.slice_to n s +:+ rest.
Proof.
  revert s; induction n as [|n IH]; intros s.
  - exists s. by destruct s.
  - destruct s as [|c s]; [by exists "" |].
    destruct (IH s) as [rest Hr]. exists rest.
    change (String c s = String c (Py.slice_to n s +:+ rest)). by f_equal.
Qed.

End Strings.

(** ** The classifier *)

Section Classifier.

(** The scan of [max(d, key=d.get)] stops on the first entry that no
    entry exceeds. *)
Lemma max_key_go_split best l :
  exists pre x post,
    best :: l = pre ++ x :: post /\ max_key_go best l = x /\
    (forall y, y ∈ pre -> snd y < snd x) /\
    (forall y, y ∈ post -> snd y <= snd x).
Proof.
  revert best; induction l as [|z l IH]; intros best.
  - exists [], best, []. repeat split; intros y Hy; inversion Hy.
  - simpl. destruct (Nat.ltb_spec (snd best) (snd z)) as [Hlt | Hge].
    + destruct (IH z) as (pre & x & post & Heq & Hmax & Hpre & Hpost).
      exists (best :: pre), x, post. rewrite Heq. repeat split; auto.
      intros y Hy. apply elem_of_cons in Hy as [-> | Hy]; [| by apply Hpre].
      assert (Hz : z ∈ pre ++ x :: post) by (rewrite <- Heq; left).
      apply elem_of_app in Hz as [Hz | Hz].
      * specialize (Hpre z Hz). lia.
      * apply elem_of_cons in Hz as [-> | Hz]; [lia |].
        specialize (Hpost z Hz). lia.
    + destruct (IH best) as (pre & x & post & Heq & Hmax & Hpre & Hpost).
      destruct pre as [|b pre]; simpl in Heq.
      * injection Heq as <- <-. exists [], best, (z :: l).
        split; [done |]. split; [done |]. split.
        -- intros y Hy; inversion Hy.
        -- intros y Hy. apply elem_of_cons in Hy as [-> | Hy]; [lia | by apply Hpost].
      * injection Heq as <- ->. exists (best :: z :: pre), x, post.
        split; [done |]. split; [done |]. split; [| done].
        intros y Hy. assert (Hb : snd best < snd x) by (apply Hpre; left).
        apply elem_of_cons in Hy as [-> | Hy]; [done |].
        apply elem_of_cons in Hy as [-> | Hy]; [lia |].
        apply Hpre. by right.
Qed.

Lemma max_value_go_ge l a :
  a <= fold_left Nat.max l a /\
  forall x, x ∈ l -> x <= fold_left Nat.max l a.
Proof.
  revert a; induction l as [|y l IH]; intros a; simpl.
  - split; [lia | intros x Hx; inversion Hx].
  - destruct (IH (Nat.max a y)) as [Ha Hl]. split; [lia |].
    intros x Hx. apply elem_of_cons in Hx as [-> | Hx]; [lia | by apply Hl].
Qed.

Lemma max_value_go_in l a :
  fold_left Nat.max l a = a \/ fold_left Nat.max l a ∈ l.
Proof.
  revert a; induction l as [|y l IH]; intros a; simpl; [by left |].
  destruct (IH (Nat.max a y)) as [Heq | Hin].
  - rewrite Heq. destruct (Nat.max_spec a y) as [[_ ->] | [_ ->]];
      [right; left | by left].
  - right. by right.
Qed.

(** [max(l)] is positive exactly when some element of [l] is. *)
Lemma max_value_pos l :
  0 < max_value l <-> exists x, x ∈ l /\ 0 < x.
Proof.
  unfold max_value. split.
  - intros Hpos. destruct (max_value_go_in l 0) as [Heq | Hin]; [lia |].
    eauto.
  - intros (x & Hx & Hpos).
    destruct (max_value_go_ge l 0) as [_ Hl]. specialize (Hl x Hx). lia.
Qed.

Variable table : list (string * list string).
Variable text : string.

Local Abbreviation scored :=
  (List.map (fun '(cat, kws) => (cat, score kws text)) table).

(** What both files compute, over any table with at least one row. *)
Lemma classify_follows_rule :
  table <> [] ->
  classification_rule table text
    (if 0 <? max_value (List.map snd scored) then max_key scored else "other").
Proof.
  intros Hne. destruct (Nat.ltb_spec 0 (max_value (List.map snd scored))) as [Hpos | Hzero].
  - right. apply max_value_pos in Hpos as (v & Hv & Hvpos).
    assert (Hsplit : exists pre x post,
               scored = pre ++ x :: post /\ max_key scored = fst x /\
               (forall y, y ∈ pre -> snd y < snd x) /\
               (forall y, y ∈ post -> snd y <= snd x)).
    { destruct table as [|[c0 k0] t]; [done |]. simpl.
      destruct (max_key_go_split (c0, score k0 text)
                  (List.map (fun '(cat, kws) => (cat, score kws text)) t))
        as (pre & x & post & Heq & Hmax & Hpre & Hpost).
      exists pre, x, post. by rewrite Hmax. }
    destruct Hsplit as (pre & x & post & Heq & Hmax & Hpre & Hpost).
    rewrite Hmax.
    apply map_eq_app in Heq as (tpre & trest & Htab & Htpre & Htrest).
    apply map_eq_cons in Htrest as ([cat kws] & tpost & -> & Hx & Htpost).
    subst x pre post. simpl in Hpre, Hpost |- *.
    exists (List.length tpre), cat, kws.
    assert (Hall : forall cat' kws', (cat', kws') ∈ table ->
                     score kws' text <= score kws text).
    { intros cat' kws' Hin. rewrite Htab in Hin.
      apply elem_of_app in Hin as [Hin | Hin].
      - apply Nat.lt_le_incl.
        apply (Hpre (cat', score kws' text)).
        apply list_elem_of_In, in_map_iff. exists (cat', kws').
        split; [done | by apply list_elem_of_In].
      - apply elem_of_cons in Hin as [Hin | Hin]; [by injection Hin as -> -> |].
        apply (Hpost (cat', score kws' text)).
        apply list_elem_of_In, in_map_iff. exists (cat', kws').
        split; [done | by apply list_elem_of_In]. }
    repeat split; auto.
    + rewrite Htab. by rewrite list_lookup_middle.
    + apply list_elem_of_In, in_map_iff in Hv as ([c' n'] & <- & Hin).
      apply in_map_iff in Hin as ([c'' k''] & Hin1 & Hin2).
      injection Hin1 as -> <-. simpl in Hvpos.
      specialize (Hall c' k'' (proj2 (list_elem_of_In _ _) Hin2)). lia.
    + intros j cat' kws' Hj Hlook. rewrite Htab in Hlook.
      rewrite lookup_app_l in Hlook by done.
      apply (Hpre (cat', score kws' text)).
      apply list_elem_of_In, in_map_iff. exists (cat', kws').
      split; [done |]. apply list_elem_of_In. by eapply list_elem_of_lookup_2.
  - left. split; [| done]. intros cat kws Hin.
    assert (Hle : score kws text <= max_value (List.map snd scored)).
    { apply max_value_go_ge. apply list_elem_of_In, in_map_iff.
      exists (cat, score kws text). split; [done |].
      apply in_map_iff. exists (cat, kws). split; [done | by apply list_elem_of_In]. }
    lia.
Qed.

End Classifier.

(** X25. Each file's classifier lower-cases the title, the description, the
    joined headings and the stored text, joined by single blanks, scores
    every category of its own table by the number of its keywords that
    occur in that text, and answers by [classification_rule]: [other] when
    every score is 0, else the first category of the table that holds the
    highest score.  The table of [src/URLCat.py] is the one of the spec,
    section 4.5. *)
Theorem classify_content_rule :
  URLCat.categories = spec_keyword_table /\
  (forall content : URLCat.Page,
      URLCat.classify_text content =
        Py.lower (title content +:+ " " +:+ description content +:+ " " +:+
                  Py.join " " (headings content) +:+ " " +:+ text_content content) /\
      classification_rule URLCat.categories (URLCat.classify_text content)
        (URLCat.classify_content content)) /\
  (forall page : URLCat_GSC.Page,
      URLCat_GSC.classify_text page =
        Py.lower (title page +:+ " " +:+ description page +:+ " " +:+
                  Py.join " " (headings page) +:+ " " +:+ text_content page) /\
      classification_rule URLCat_GSC._CATEGORY_KEYWORDS (URLCat_GSC.classify_text page)
        (URLCat_GSC.classify_content page)) /\
  (forall text, score [] text = 0) /\
  (forall k kws text, substring_of k text -> score (k :: kws) text = S (score kws text)) /\
  (forall k kws text, ~ substring_of k text -> score (k :: kws) text = score kws text).
Proof.
  split; [reflexivity |]. split; [| split; [| split; [| split]]].
  - intros content. split; [reflexivity |].
    apply (classify_follows_rule URLCat.categories). discriminate.
  - intros page. split; [reflexivity |].
    apply (classify_follows_rule URLCat_GSC._CATEGORY_KEYWORDS). discriminate.
  - reflexivity.
  - intros k kws text Hsub. apply contains_spec in Hsub.
    unfold score. simpl. by rewrite Hsub.
  - intros k kws text Hsub. unfold score. simpl.
    destruct (Py.contains k text) eqn:Hc; [| done].
    by apply contains_spec in Hc.
Qed.

(** C2, on [src/URLCat_GSC.py]: a page that only says "Our Store".  With
    the table of the spec, which is the table of [src/URLCat.py], the word
    [store] gives [product] a score of 1 and [src/URLCat.py] answers
    [product]; [src/URLCat_GSC.py], whose table is another and whose list
    for [product] has no [store], answers [other], against the rule of the
    claim. *)
Lemma classify_gsc_leaves_the_table :
  URLCat.categories = spec_keyword_table /\
  URLCat_GSC._CATEGORY_KEYWORDS <> spec_keyword_table /\
  URLCat.classify_content (Demo.titled "Our Store") = "product" /\
  URLCat_GSC.classify_content (Demo.titled "Our Store") = "other" /\
  ~ classification_rule spec_keyword_table
      (URLCat_GSC.classify_text (Demo.titled "Our Store"))
      (URLCat_GSC.classify_content (Demo.titled "Our Store")).
Proof.
  split; [reflexivity |]. split; [discriminate |].
  split; [by vm_compute |]. split; [by vm_compute |].
  intros [[Hall _] | (i & cat & kws & Hlook & Hans & _)].
  - specialize (Hall "product"
      ["product"; "buy"; "shop"; "store"; "price"; "cart"; "purchase"; "item"; "catalog"]).
    assert (Hs : score ["product"; "buy"; "shop"; "store"; "price"; "cart";
                        "purchase"; "item"; "catalog"]
                   (URLCat_GSC.classify_text (Demo.titled "Our Store")) = 1)
      by (by vm_compute).
    rewrite Hs in Hall. discriminate Hall. left.
  - assert (Hother : URLCat_GSC.classify_content (Demo.titled "Our Store") = "other")
      by (by vm_compute).
    rewrite Hother in Hans. subst cat.
    do 8 (destruct i as [|i]; [discriminate Hlook |]). discriminate Hlook.
Qed.

(** ** The URL hierarchy *)

(** C3. On ["https://a.com/x/y/z.html"] the analyzer of [src/URLCat.py]
    gives depth 3, the segments [x], [y], [z.html] and the extension
    [html]; on the query-only ["https://a.com/?q=1"] it gives depth 0 and
    no segment.  [hierarchy_info] of [src/URLCat_GSC.py] gives the same
    depths.  In general the segments are the non-empty fields of the path
    split on [/], and the depth is their number. *)
Theorem hierarchy_of_examples :
  URLCat.analyze_url_hierarchy "https://a.com/x/y/z.html" =
    Ok {| URLCat.depth := 3; URLCat.path_parts := ["x"; "y"; "z.html"];
          URLCat.has_query := false; URLCat.file_extension := Some "html" |} /\
  URLCat.analyze_url_hierarchy "https://a.com/?q=1" =
    Ok {| URLCat.depth := 0; URLCat.path_parts := [];
          URLCat.has_query := true; URLCat.file_extension := None |} /\
  URLCat_GSC.hierarchy_info "https://a.com/x/y/z.html" =
    Ok {| URLCat_GSC.depth := 3; URLCat_GSC.file_ext := "html" |} /\
  URLCat_GSC.hierarchy_info "https://a.com/?q=1" =
    Ok {| URLCat_GSC.depth := 0; URLCat_GSC.file_ext := "html" |} /\
  (forall url h,
      URLCat.analyze_url_hierarchy url = Ok h ->
      exists parsed,
        Urllib.urlparse url = Ok parsed /\
        URLCat.path_parts h =
          List.filter Py.truthy (Py.split_on "/" (Urllib.path parsed)) /\
        URLCat.depth h = List.length (URLCat.path_parts h)) /\
  (forall url h,
      URLCat_GSC.hierarchy_info url = Ok h ->
      exists parsed,
        Urllib.urlparse url = Ok parsed /\
        URLCat_GSC.depth h =
          List.length (List.filter Py.truthy (Py.split_on "/" (Urllib.path parsed)))).
Proof.
  split; [by vm_compute |]. split; [by vm_compute |].
  split; [by vm_compute |]. split; [by vm_compute |]. split.
  - intros url h. unfold URLCat.analyze_url_hierarchy.
    destruct (Urllib.urlparse url) as [parsed | msg]; simpl; [| discriminate].
    intros Hh. injection Hh as <-. by exists parsed.
  - intros url h. unfold URLCat_GSC.hierarchy_info.
    destruct (Urllib.urlparse url) as [parsed | msg]; simpl; [| discriminate].
    intros Hh. injection Hh as <-. by exists parsed.
Qed.

(** C3, where it fails as stated: the depth of
    ["https://a.com/x/y/z.html"] is 3 and not 2, and [z.html] is one of its
    segments. *)
Lemma hierarchy_depth_counts_the_file :
  exists h,
    URLCat.analyze_url_hierarchy "https://a.com/x/y/z.html" = Ok h /\
    URLCat.depth h = 3 /\ URLCat.depth h <> 2 /\
    URLCat.path_parts h = ["x"; "y"; "z.html"] /\
    URLCat.path_parts h <> ["x"; "y"].
Proof.
  eexists. split; [by vm_compute |]. simpl. repeat split; discriminate.
Qed.

(** ** The URL scoper *)

Lemma endswith_spec p s :
  Py.endswith p s = true <-> exists pre, s = pre +:+ p.
Proof.
  induction s as [|c s IH]; cbn [Py.endswith].
  - rewrite orb_false_r, bool_decide_eq_true. split.
    + intros <-. by exists "".
    + intros [pre Hp]. destruct pre; [done | discriminate].
  - rewrite orb_true_iff, bool_decide_eq_true, IH. split.
    + intros [<- | [pre ->]]; [by exists EmptyString | by exists (String c pre)].
    + intros [[|c' pre] Hp]; [by left |].
      injection Hp as <- ->. right. by exists pre.
Qed.

(** The scoper of [src/URLCat_GSC.py]: a URL is accepted exactly when it
    parses, its scheme is [http] or [https], and its host is the domain, a
    name that ends with a dot and the domain, or empty. *)
Lemma gsc_is_valid_url_spec (self : URLCat_GSC.WebsiteAnalyzer) (u : string) :
  (URLCat_GSC.is_valid_url self u = true <->
   exists parsed,
     Urllib.urlparse u = Ok parsed /\
     (Urllib.scheme parsed = "http" \/ Urllib.scheme parsed = "https") /\
     (Urllib.netloc parsed = URLCat_GSC.domain self \/
      (exists pre, Urllib.netloc parsed = pre +:+ "." +:+ URLCat_GSC.domain self) \/
      Urllib.netloc parsed = "")) /\
  (forall msg, Urllib.urlparse u = Raise msg -> URLCat_GSC.is_valid_url self u = false).
Proof.
  unfold URLCat_GSC.is_valid_url. split.
  - destruct (Urllib.urlparse u) as [parsed | msg].
    + rewrite andb_true_iff, !orb_true_iff, !bool_decide_eq_true, endswith_spec.
      split.
      * intros [Hs Hn]. exists parsed. split; [done |]. split; [| tauto].
        apply elem_of_cons in Hs as [Hs | Hs]; [by left |].
        apply elem_of_cons in Hs as [Hs | Hs]; [by right | inversion Hs].
      * intros (parsed' & Hp & Hs & Hn). injection Hp as <-. split; [| tauto].
        destruct Hs as [-> | ->]; [left | right; left].
    + split; [done |]. by intros (parsed & Hp & _).
  - by intros msg ->.
Qed.

(** The scoper of [src/URLCat.py] looks at the host only. *)
Lemma urlcat_is_valid_url_spec (self : URLCat.WebsiteAnalyzer) (u : string) :
  URLCat.is_valid_url self u = true <->
  exists parsed,
    Urllib.urlparse u = Ok parsed /\
    (Urllib.netloc parsed = URLCat.domain self \/
     Urllib.netloc parsed = "" \/
     (exists pre, Urllib.netloc parsed = pre +:+ "." +:+ URLCat.domain self)).
Proof.
  unfold URLCat.is_valid_url.
  destruct (Urllib.urlparse u) as [parsed | msg].
  - rewrite !orb_true_iff, !bool_decide_eq_true, endswith_spec. split.
    + intros Hn. exists parsed. split; [done |]. tauto.
    + intros (parsed' & Hp & Hn). injection Hp as <-. tauto.
  - split; [done |]. by intros (parsed & Hp & _).
Qed.

(** C4, on [src/URLCat.py]: the analyzer built for ["https://a.com/"]
    accepts ["mailto:info@a.com"], whose scheme is [mailto] and whose host
    is empty; the scoper of [src/URLCat_GSC.py] rejects it. *)
Theorem urlcat_scoper_accepts_mailto :
  exists self parsed,
    URLCat.init "https://a.com/" 5 = Ok self /\
    Urllib.urlparse "mailto:info@a.com" = Ok parsed /\
    Urllib.scheme parsed = "mailto" /\ Urllib.netloc parsed = "" /\
    URLCat.is_valid_url self "mailto:info@a.com" = true /\
    URLCat_GSC.is_valid_url (Demo.analyzer_gsc "https://a.com/" 5) "mailto:info@a.com" = false.
Proof.
  do 2 eexists. split; [by vm_compute |]. split; [by vm_compute |]. by vm_compute.
Qed.

(** ** Removal of duplicates *)

Section FirstOccurrences.
Context {A : Type} `{EqDecision A}.

Lemma keeps_first_step (acc done : list A) (x : A) :
  keeps_first_occurrences acc done ->
  keeps_first_occurrences (if decide (x ∈ acc) then acc else acc ++ [x]) (done ++ [x]).
Proof.
  intros (Hnd & Hin & Hord). destruct (decide (x ∈ acc)) as [Hx | Hx].
  - split; [done |]. split.
    + intros y. rewrite elem_of_app, list_elem_of_singleton, <- Hin.
      split; [tauto | intros [Hy | ->]; done].
    + intros i j a b Hi Hj Hij.
      destruct (Hord i j a b Hi Hj Hij) as (k & Hk & Hafter).
      exists k. split.
      * rewrite lookup_app_l; [done | by eapply lookup_lt_Some].
      * intros k' Hk'. destruct (decide (k' < List.length done)) as [Hlt | Hge].
        -- rewrite lookup_app_l in Hk' by done. by apply Hafter.
        -- apply lookup_lt_Some in Hk. lia.
  - assert (Hxd : x ∉ done) by (by rewrite <- Hin).
    split; [| split].
    + apply NoDup_app. split; [done |]. split; [| apply NoDup_singleton].
      intros y Hy Hy'. apply list_elem_of_singleton in Hy'. by subst y.
    + intros y. rewrite !elem_of_app, Hin. tauto.
    + intros i j a b Hi Hj Hij.
      destruct (decide (j < List.length acc)) as [Hlt | Hge].
      * rewrite lookup_app_l in Hi by lia. rewrite lookup_app_l in Hj by done.
        destruct (Hord i j a b Hi Hj Hij) as (k & Hk & Hafter).
        exists k. split.
        -- rewrite lookup_app_l; [done | by eapply lookup_lt_Some].
        -- intros k' Hk'. destruct (decide (k' < List.length done)) as [Hlt' | Hge'].
           ++ rewrite lookup_app_l in Hk' by done. by apply Hafter.
           ++ apply lookup_lt_Some in Hk. lia.
      * pose proof (lookup_lt_Some _ _ _ Hj) as Hjl.
        rewrite length_app in Hjl. simpl in Hjl.
        assert (Hjx : b = x).
        { rewrite lookup_app_r in Hj by lia.
          apply list_elem_of_singleton. by eapply list_elem_of_lookup_2. }
        subst b.
        assert (Hia : a ∈ acc).
        { rewrite lookup_app_l in Hi by lia. by eapply list_elem_of_lookup_2. }
        apply Hin, list_elem_of_lookup in Hia as [k Hk].
        exists k. split.
        -- rewrite lookup_app_l; [done | by eapply lookup_lt_Some].
        -- intros k' Hk'. destruct (decide (k' < List.length done)) as [Hlt' | Hge'].
           ++ rewrite lookup_app_l in Hk' by done.
              exfalso. apply Hxd. by eapply list_elem_of_lookup_2.
           ++ apply lookup_lt_Some in Hk. lia.
Qed.

Lemma fromkeys_go_keeps (l acc done : list A) :
  keeps_first_occurrences acc done ->
  keeps_first_occurrences
    (fold_left (fun keys k => if decide (k ∈ keys) then keys else keys ++ [k]) l acc)
    (done ++ l).
Proof.
  revert acc done; induction l as [|x l IH]; intros acc done Hk; simpl.
  - by rewrite app_nil_r.
  - replace (done ++ x :: l) with ((done ++ [x]) ++ l) by (by rewrite <- app_assoc).
    apply IH. by apply keeps_first_step.
Qed.

(** [list(dict.fromkeys(l))] keeps every element of [l] once, where it
    first stood. *)
Lemma fromkeys_keeps_first (l : list A) :
  keeps_first_occurrences (Py.fromkeys l) l.
Proof.
  apply (fromkeys_go_keeps l [] []). split; [apply NoDup_nil_2 |].
  split; [done |]. intros i j x y Hi. by rewrite lookup_nil in Hi.
Qed.

(** A loop that appends what passes a test and is not yet in the list is
    [dict.fromkeys] after a filter. *)
Lemma append_if_new_is_fromkeys (valid : A -> bool) (l acc : list A) :
  fold_left
    (fun links href =>
       if valid href && bool_decide (href ∉ links) then links ++ [href] else links)
    l acc =
  fold_left (fun keys k => if decide (k ∈ keys) then keys else keys ++ [k])
    (List.filter valid l) acc.
Proof.
  revert acc; induction l as [|x l IH]; intros acc; simpl; [done |].
  destruct (valid x); simpl; [| apply IH].
  rewrite IH. f_equal.
  destruct (decide (x ∈ acc)) as [Hx | Hx].
  - by rewrite bool_decide_eq_false_2 by (by intros Hn).
  - by rewrite bool_decide_eq_true_2.
Qed.

End FirstOccurrences.

(** What stands before the first [#] has no [#], and the string goes on
    with [#] if it goes on at all. *)
Lemma before_hash_spec (s : string) :
  Py.has_char "#" (URLCat_GSC.before_hash s) = false /\
  (s = URLCat_GSC.before_hash s \/
   exists frag, s = URLCat_GSC.before_hash s +:+ String "#" frag).
Proof.
  unfold URLCat_GSC.before_hash.
  induction s as [|b s [IHc IHs]]; [by split; [| left] |].
  cbn [Py.split_on]. destruct (bool_decide (b = "#"%char)) eqn:Hb.
  - apply bool_decide_eq_true in Hb as ->. simpl. split; [done |].
    right. by exists s.
  - destruct (Py.split_on "#" s) as [|f fs]; simpl in *.
    + rewrite Hb. split; [done |]. destruct IHs as [-> | [frag ->]]; [by left |].
      right. by exists frag.
    + rewrite Hb, IHc. split; [done |].
      destruct IHs as [Hs | [frag Hs]]; [left | right; exists frag];
        by rewrite Hs at 1.
Qed.

(** A loop over [f] followed by a pure step is the loop over [f], then the
    step on each result. *)
Lemma mapM_then {A B C} (f : A -> result B) (g : B -> C) (l : list A) :
  mapM (fun a => b ← f a; Ok (g b)) l =
  match mapM f l with
  | Ok bs => Ok (List.map g bs)
  | Raise msg => Raise msg
  end.
Proof.
  induction l as [|a l IH]; simpl; [done |].
  destruct (f a) as [b | msg]; simpl; [| done].
  rewrite IH. by destruct (mapM f l).
Qed.

(** ** Extraction *)

Lemma error_record_status {H} (u msg : string) :
  status (error_record (H := H) u msg) <> "success".
Proof. unfold error_record. cbn. discriminate. Qed.

Section ExtractionFacts.
Context `{World}.

(** What a successful extraction of [src/URLCat.py] returns. *)
Lemma urlcat_extract_page_inv (self : URLCat.WebsiteAnalyzer) (u : string)
    (page : URLCat.Page) :
  URLCat.extract_page self u = Ok page ->
  exists response resolved,
    http_get u = Ok response /\
    mapM (urljoin u) (anchor_hrefs (Bs4.decompose ["script"; "style"] response))
      = Ok resolved /\
    url page = u /\ status page = "success" /\
    text_content page =
      Py.slice_to 1000
        (Py.join " " (Py.split (Bs4.get_text (Bs4.decompose ["script"; "style"] response)))) /\
    word_count page =
      List.length
        (Py.split
           (Py.join " " (Py.split (Bs4.get_text (Bs4.decompose ["script"; "style"] response))))) /\
    links page = URLCat.collect_links self resolved /\
    category page = None /\ hierarchy page = None /\ keywords page = None.
Proof.
  unfold URLCat.extract_page. intros Hx.
  destruct (http_get u) as [response | msg]; simpl in Hx; [| discriminate].
  destruct (mapM (urljoin u) _) as [resolved | msg] eqn:Hm; simpl in Hx; [| discriminate].
  injection Hx as <-. exists response, resolved. by repeat split.
Qed.

(** What a successful extraction of [src/URLCat_GSC.py] returns. *)
Lemma gsc_extract_page_inv (self : URLCat_GSC.WebsiteAnalyzer) (u : string)
    (page : URLCat_GSC.Page) :
  URLCat_GSC.extract_page self u = Ok page ->
  exists response resolved,
    http_get u = Ok response /\
    mapM (urljoin u)
      (anchor_hrefs (Bs4.decompose ["script"; "style"; "noscript"] response))
      = Ok resolved /\
    url page = u /\ status page = "success" /\
    text_content page =
      Py.slice_to 1000
        (Py.join " "
           (Py.split (Bs4.get_text (Bs4.decompose ["script"; "style"; "noscript"] response)))) /\
    word_count page = List.length (Py.split (text_content page)) /\
    links page =
      URLCat_GSC.collect_links self (List.map URLCat_GSC.before_hash resolved) /\
    category page = None /\ hierarchy page = None /\ keywords page = None.
Proof.
  unfold URLCat_GSC.extract_page. intros Hx.
  destruct (http_get u) as [response | msg]; simpl in Hx; [| discriminate].
  match type of Hx with
  | context [mbind _ ?t] => destruct t as [title | msg]; simpl in Hx; [| discriminate]
  end.
  rewrite mapM_then in Hx.
  destruct (mapM (urljoin u) _) as [resolved | msg] eqn:Hm; simpl in Hx; [| discriminate].
  injection Hx as <-. exists response, resolved. by repeat split.
Qed.

Lemma urlcat_extract_url (self : URLCat.WebsiteAnalyzer) (u : string) :
  url (URLCat.extract_page_content self u) = u.
Proof.
  unfold URLCat.extract_page_content.
  destruct (URLCat.extract_page self u) as [page | msg] eqn:Hx; [| done].
  by apply urlcat_extract_page_inv in Hx as (? & ? & _ & _ & -> & _).
Qed.

Lemma gsc_extract_url (self : URLCat_GSC.WebsiteAnalyzer) (u : string) :
  url (URLCat_GSC.extract_page_content self u) = u.
Proof.
  unfold URLCat_GSC.extract_page_content.
  destruct (URLCat_GSC.extract_page self u) as [page | msg] eqn:Hx; [| done].
  by apply gsc_extract_page_inv in Hx as (? & ? & _ & _ & -> & _).
Qed.

(** The record is a success exactly when the body of the [try] went
    through. *)
Lemma urlcat_extract_success (self : URLCat.WebsiteAnalyzer) (u : string) :
  status (URLCat.extract_page_content self u) = "success" ->
  URLCat.extract_page self u = Ok (URLCat.extract_page_content self u).
Proof.
  unfold URLCat.extract_page_content.
  destruct (URLCat.extract_page self u) as [page | msg]; [done |].
  intros Hs. by apply error_record_status in Hs.
Qed.

Lemma gsc_extract_success (self : URLCat_GSC.WebsiteAnalyzer) (u : string) :
  status (URLCat_GSC.extract_page_content self u) = "success" ->
  URLCat_GSC.extract_page self u = Ok (URLCat_GSC.extract_page_content self u).
Proof.
  unfold URLCat_GSC.extract_page_content.
  destruct (URLCat_GSC.extract_page self u) as [page | msg]; [done |].
  intros Hs. by apply error_record_status in Hs.
Qed.

(** In [src/URLCat.py] the stored text is the first 1000 characters of
    the collapsed text of the document, a prefix of it, and the words are
    counted on the whole collapsed text. *)
Lemma urlcat_text_and_word_count (self : URLCat.WebsiteAnalyzer) (u : string) :
  status (URLCat.extract_page_content self u) = "success" ->
  exists response,
    http_get u = Ok response /\
    let full :=
      Py.join " " (Py.split (Bs4.get_text (Bs4.decompose ["script"; "style"] response))) in
    text_content (URLCat.extract_page_content self u) = Py.slice_to 1000 full /\
    Py.len (text_content (URLCat.extract_page_content self u)) = Nat.min 1000 (Py.len full) /\
    (exists rest, full = text_content (URLCat.extract_page_content self u) +:+ rest) /\
    word_count (URLCat.extract_page_content self u) = List.length (Py.split full).
Proof.
  intros Hs. apply urlcat_extract_success in Hs.
  apply urlcat_extract_page_inv in Hs
    as (response & resolved & Hget & _ & _ & _ & Htext & Hwords & _).
  exists response. split; [done |]. cbv zeta. rewrite Htext, Hwords.
  split; [done |]. split; [apply slice_to_length |]. split; [apply slice_to_prefix | done].
Qed.

(** In [src/URLCat_GSC.py] the words are counted on the stored text. *)
Lemma gsc_text_and_word_count (self : URLCat_GSC.WebsiteAnalyzer) (u : string) :
  status (URLCat_GSC.extract_page_content self u) = "success" ->
  exists response,
    http_get u = Ok response /\
    let full :=
      Py.join " "
        (Py.split (Bs4.get_text (Bs4.decompose ["script"; "style"; "noscript"] response))) in
    text_content (URLCat_GSC.extract_page_content self u) = Py.slice_to 1000 full /\
    word_count (URLCat_GSC.extract_page_content self u) =
      List.length (Py.split (Py.slice_to 1000 full)).
Proof.
  intros Hs. apply gsc_extract_success in Hs.
  apply gsc_extract_page_inv in Hs
    as (response & resolved & Hget & _ & _ & _ & Htext & Hwords & _).
  exists response. split; [done |]. cbv zeta. by rewrite Hwords, Htext.
Qed.

(** The links of [src/URLCat_GSC.py]: the hrefs resolved against the
    page, cut at the first [#], those the scoper accepts, each once where
    it first stood. *)
Lemma gsc_links_spec (self : URLCat_GSC.WebsiteAnalyzer) (u : string) :
  status (URLCat_GSC.extract_page_content self u) = "success" ->
  exists response resolved,
    http_get u = Ok response /\
    mapM (urljoin u)
      (anchor_hrefs (Bs4.decompose ["script"; "style"; "noscript"] response))
      = Ok resolved /\
    keeps_first_occurrences (links (URLCat_GSC.extract_page_content self u))
      (List.filter (URLCat_GSC.is_valid_url self)
         (List.map URLCat_GSC.before_hash resolved)) /\
    (forall x, x ∈ links (URLCat_GSC.extract_page_content self u) ->
               Py.has_char "#" x = false /\ URLCat_GSC.is_valid_url self x = true).
Proof.
  intros Hs. apply gsc_extract_success in Hs.
  apply gsc_extract_page_inv in Hs
    as (response & resolved & Hget & Hm & _ & _ & _ & _ & Hlinks & _).
  exists response, resolved. split; [done |]. split; [done |].
  rewrite Hlinks. unfold URLCat_GSC.collect_links.
  pose proof (fromkeys_keeps_first
                (List.filter (URLCat_GSC.is_valid_url self)
                   (List.map URLCat_GSC.before_hash resolved))) as Hk.
  split; [done |]. intros x Hx.
  destruct Hk as (_ & Hin & _). apply Hin, list_elem_of_In, filter_In in Hx as [Hx Hv].
  split; [| done]. apply in_map_iff in Hx as (r & <- & _). apply before_hash_spec.
Qed.

(** The links of [src/URLCat.py]: the same, without the cut at [#]. *)
Lemma urlcat_links_spec (self : URLCat.WebsiteAnalyzer) (u : string) :
  status (URLCat.extract_page_content self u) = "success" ->
  exists response resolved,
    http_get u = Ok response /\
    mapM (urljoin u) (anchor_hrefs (Bs4.decompose ["script"; "style"] response))
      = Ok resolved /\
    keeps_first_occurrences (links (URLCat.extract_page_content self u))
      (List.filter (URLCat.is_valid_url self) resolved) /\
    (forall x, x ∈ links (URLCat.extract_page_content self u) ->
               URLCat.is_valid_url self x = true).
Proof.
  intros Hs. apply urlcat_extract_success in Hs.
  apply urlcat_extract_page_inv in Hs
    as (response & resolved & Hget & Hm & _ & _ & _ & _ & Hlinks & _).
  exists response, resolved. split; [done |]. split; [done |].
  rewrite Hlinks. unfold URLCat.collect_links. rewrite append_if_new_is_fromkeys.
  pose proof (fromkeys_keeps_first (List.filter (URLCat.is_valid_url self) resolved)) as Hk.
  split; [done |]. intros x Hx.
  destruct Hk as (_ & Hin & _). by apply Hin, list_elem_of_In, filter_In in Hx as [_ Hv].
Qed.

End ExtractionFacts.

(** C5, on [src/URLCat_GSC.py]: a page of 250 four-letter words.  Its
    collapsed text has 1249 characters and 250 words; the stored text is
    its first 1000 characters, and [word_count] is 200, the words of the
    stored text.  [src/URLCat.py] counts 250. *)
Theorem gsc_word_count_of_stored_text :
  let full := Py.join " " (Py.split (Bs4.get_text Demo.long_doc)) in
  let page := URLCat_GSC.extract_page_content (Demo.analyzer_gsc Demo.home 5) Demo.long in
  status page = "success" /\
  Py.len full = 1249 /\ List.length (Py.split full) = 250 /\
  text_content page = Py.slice_to 1000 full /\
  word_count page = 200 /\
  word_count (URLCat.extract_page_content (Demo.analyzer Demo.home 5) Demo.long) = 250.
Proof. cbv zeta. repeat split; by vm_compute. Qed.

(** C6, on [src/URLCat.py]: the home page of the small site links twice
    to ["https://a.com/about#team"].  The links kept are that URL with its
    fragment, the missing page and the [mailto:] address;
    [src/URLCat_GSC.py] keeps ["https://a.com/about"] and the missing
    page. *)
Theorem urlcat_links_keep_the_fragment :
  links (URLCat.extract_page_content (Demo.analyzer Demo.home 5) Demo.home) =
    ["https://a.com/about#team"; "https://a.com/missing"; "mailto:info@a.com"] /\
  anchor_hrefs (Bs4.decompose ["script"; "style"] Demo.home_doc) =
    ["https://a.com/about#team"; "https://a.com/missing"; "mailto:info@a.com";
     "https://a.com/about#team"] /\
  links (URLCat_GSC.extract_page_content (Demo.analyzer_gsc Demo.home 5) Demo.home) =
    ["https://a.com/about"; "https://a.com/missing"].
Proof. repeat split; by vm_compute. Qed.

(** ** [Counter] and [most_common] *)

Section CounterFacts.
Context {K : Type} `{EqDecision K}.

Lemma counter_snoc (l : list K) (x : K) :
  Py.counter (l ++ [x]) = Py.incr x (Py.counter l).
Proof. unfold Py.counter. by rewrite fold_left_app. Qed.

Lemma incr_keys (k : K) (c : Py.Counter K) :
  List.map fst (Py.incr k c) =
  if decide (k ∈ List.map fst c) then List.map fst c else List.map fst c ++ [k].
Proof.
  induction c as [|[k' n] c IH].
  - cbn [Py.incr List.map]. destruct (decide (k ∈ [])) as [Hin | Hin]; [inversion Hin | done].
  - cbn [Py.incr List.map fst]. destruct (decide (k' = k)) as [-> | Hne].
    + cbn [List.map fst].
      destruct (decide (k ∈ k :: List.map fst c)) as [Hin | Hin]; [done |].
      exfalso. apply Hin. left.
    + cbn [List.map fst]. rewrite IH.
      destruct (decide (k ∈ List.map fst c)) as [Hin | Hin];
        destruct (decide (k ∈ k' :: List.map fst c)) as [Hin' | Hin']; try done.
      * exfalso. apply Hin'. by right.
      * apply elem_of_cons in Hin' as [-> | Hin']; done.
Qed.

Lemma incr_count (k k' : K) (c : Py.Counter K) :
  count_of (Py.incr k c) k' =
  if decide (k = k') then S (count_of c k') else count_of c k'.
Proof.
  induction c as [|[k0 n] c IH]; simpl.
  - by destruct (decide (k = k')).
  - destruct (decide (k0 = k)) as [-> | Hne]; simpl.
    + by destruct (decide (k = k')).
    + rewrite IH. destruct (decide (k0 = k')) as [-> | Hne'];
        [by rewrite decide_False by done | done].
Qed.

Lemma incr_total (k : K) (c : Py.Counter K) :
  total (Py.incr k c) = S (total c).
Proof.
  unfold total. induction c as [|[k0 n] c IH]; simpl; [done |].
  destruct (decide (k0 = k)); simpl; [done | rewrite IH; lia].
Qed.

Lemma incr_positive (k : K) (c : Py.Counter K) :
  Forall (fun e => 0 < snd e) c -> Forall (fun e => 0 < snd e) (Py.incr k c).
Proof.
  induction c as [|[k0 n] c IH]; simpl; intros Hc.
  - constructor; [simpl; lia | constructor].
  - apply Forall_cons in Hc as [Hn Hc].
    destruct (decide (k0 = k)); constructor; simpl in *; auto; lia.
Qed.

Lemma occurrences_snoc (k x : K) (l : list K) :
  occurrences k (l ++ [x]) =
  if decide (x = k) then S (occurrences k l) else occurrences k l.
Proof.
  unfold occurrences. rewrite List.filter_app, length_app. simpl.
  destruct (decide (x = k)) as [-> | Hne].
  - rewrite bool_decide_eq_true_2 by done. simpl. lia.
  - rewrite bool_decide_eq_false_2 by done. simpl. lia.
Qed.

Lemma fromkeys_snoc (l : list K) (x : K) :
  Py.fromkeys (l ++ [x]) =
  if decide (x ∈ Py.fromkeys l) then Py.fromkeys l else Py.fromkeys l ++ [x].
Proof. unfold Py.fromkeys. by rewrite fold_left_app. Qed.

(** [Counter(l)] holds, for each element of [l] and in the order of first
    occurrence, the number of times it stands in [l]. *)
Lemma counter_spec (l : list K) :
  List.map fst (Py.counter l) = Py.fromkeys l /\
  (forall k, count_of (Py.counter l) k = occurrences k l) /\
  total (Py.counter l) = List.length l /\
  Forall (fun e => 0 < snd e) (Py.counter l).
Proof.
  induction l as [|x l (Hkeys & Hcount & Htotal & Hpos)] using rev_ind.
  - repeat split; constructor.
  - rewrite counter_snoc. split; [| split; [| split]].
    + by rewrite incr_keys, fromkeys_snoc, Hkeys.
    + intros k. by rewrite incr_count, occurrences_snoc, Hcount.
    + rewrite incr_total, Htotal, length_app. simpl. lia.
    + by apply incr_positive.
Qed.

Lemma count_of_elem (c : Py.Counter K) (k : K) (n : nat) :
  NoDup (List.map fst c) -> (k, n) ∈ c -> count_of c k = n.
Proof.
  induction c as [|[k0 n0] c IH]; simpl; intros Hnd Hin; [inversion Hin |].
  apply NoDup_cons in Hnd as [Hk0 Hnd].
  apply elem_of_cons in Hin as [Heq | Hin].
  - injection Heq as <- <-. by rewrite decide_True.
  - rewrite decide_False; [by apply IH |].
    intros ->. apply Hk0. apply list_elem_of_In, in_map_iff.
    exists (k, n). split; [done | by apply list_elem_of_In].
Qed.

Lemma counter_keys_NoDup (l : list K) : NoDup (List.map fst (Py.counter l)).
Proof.
  destruct (counter_spec l) as (-> & _). apply fromkeys_keeps_first.
Qed.

(** An entry of [Counter(l)] is a key with its number of occurrences. *)
Lemma counter_elem (l : list K) (k : K) (n : nat) :
  (k, n) ∈ Py.counter l -> n = occurrences k l /\ 0 < n /\ k ∈ l.
Proof.
  intros Hin. destruct (counter_spec l) as (Hkeys & Hcount & _ & Hpos).
  split; [| split].
  - rewrite <- Hcount. symmetry. apply count_of_elem; [apply counter_keys_NoDup | done].
  - rewrite Forall_forall in Hpos. by apply (Hpos (k, n)).
  - apply (proj1 (proj2 (fromkeys_keeps_first l))). rewrite <- Hkeys.
    apply list_elem_of_In, in_map_iff. exists (k, n). split; [done | by apply list_elem_of_In].
Qed.

(** Every element of [l] has its entry. *)
Lemma counter_has (l : list K) (k : K) :
  k ∈ l -> (k, occurrences k l) ∈ Py.counter l.
Proof.
  intros Hin. destruct (counter_spec l) as (Hkeys & _).
  apply (proj1 (proj2 (fromkeys_keeps_first l))) in Hin. rewrite <- Hkeys in Hin.
  apply list_elem_of_In, in_map_iff in Hin as ([k' n] & Hk & Hin). simpl in Hk. subst k'.
  apply list_elem_of_In in Hin.
  by destruct (counter_elem l k n Hin) as (<- & _).
Qed.

End CounterFacts.

(** ** The stable sort behind [most_common] *)

Section SortFacts.
Context {K : Type}.

Local Abbreviation by_count_desc := (fun x y : K * nat => snd y <= snd x).

Lemma insert_desc_perm (x : K * nat) (l : list (K * nat)) :
  Py.insert_desc x l ≡ₚ x :: l.
Proof.
  induction l as [|y l IH]; simpl; [done |].
  destruct (snd x <? snd y); [| done].
  rewrite IH. apply Permutation_swap.
Qed.

Lemma sorted_desc_perm (l : list (K * nat)) : Py.sorted_desc l ≡ₚ l.
Proof.
  induction l as [|x l IH]; simpl; [done |].
  by rewrite insert_desc_perm, IH.
Qed.

Lemma insert_desc_sorted (x : K * nat) (l : list (K * nat)) :
  StronglySorted by_count_desc l ->
  StronglySorted by_count_desc (Py.insert_desc x l).
Proof.
  induction l as [|y l IH]; simpl; intros Hs.
  - repeat constructor.
  - apply StronglySorted_inv in Hs as [Hs Hy].
    destruct (Nat.ltb_spec (snd x) (snd y)) as [Hlt | Hge].
    + constructor; [by apply IH |].
      rewrite insert_desc_perm. constructor; [lia | done].
    + constructor; [by constructor |]. constructor; [done |].
      eapply Forall_impl; [exact Hy |]. intros z Hz. simpl in *. lia.
Qed.

(** The sort puts larger counts first. *)
Lemma sorted_desc_sorted (l : list (K * nat)) :
  StronglySorted by_count_desc (Py.sorted_desc l).
Proof.
  induction l as [|x l IH]; simpl; [constructor | by apply insert_desc_sorted].
Qed.

Lemma insert_desc_stable (n : nat) (x : K * nat) (l : list (K * nat)) :
  List.filter (fun e => snd e =? n) (Py.insert_desc x l) =
  List.filter (fun e => snd e =? n) (x :: l).
Proof.
  induction l as [|y l IH]; [done |].
  cbn [Py.insert_desc]. destruct (Nat.ltb_spec (snd x) (snd y)) as [Hlt | Hge]; [| done].
  cbn [List.filter] in *. rewrite IH.
  destruct (Nat.eqb_spec (snd x) n) as [Hx | Hx]; [| done].
  destruct (Nat.eqb_spec (snd y) n) as [Hy | Hy]; [lia | done].
Qed.

(** The sort is stable: entries of one count keep their order. *)
Lemma sorted_desc_stable (n : nat) (l : list (K * nat)) :
  List.filter (fun e => snd e =? n) (Py.sorted_desc l) =
  List.filter (fun e => snd e =? n) l.
Proof.
  induction l as [|x l IH]; [done |].
  cbn [Py.sorted_desc]. rewrite insert_desc_stable. cbn [List.filter]. by rewrite IH.
Qed.

End SortFacts.

Section BeforeFacts.
Context {A : Type}.

Lemma sorted_app_inv (R : A -> A -> Prop) (a b : list A) :
  StronglySorted R (a ++ b) -> forall x y, x ∈ a -> y ∈ b -> R x y.
Proof.
  induction a as [|z a IH]; simpl; intros Hs x y Hx Hy; [inversion Hx |].
  apply StronglySorted_inv in Hs as [Hs Hz].
  apply elem_of_cons in Hx as [-> | Hx]; [| by apply IH].
  rewrite Forall_forall in Hz. apply Hz. apply elem_of_app. by right.
Qed.

Lemma before_sorted (R : A -> A -> Prop) (x y : A) (l : list A) :
  StronglySorted R l -> before x y l -> R x y.
Proof.
  intros Hs (l1 & l2 & l3 & ->).
  replace (l1 ++ x :: l2 ++ y :: l3) with ((l1 ++ [x]) ++ l2 ++ y :: l3) in Hs
    by (by rewrite <- app_assoc).
  apply (sorted_app_inv R _ _ Hs).
  - apply elem_of_app. right. left.
  - apply elem_of_app. right. left.
Qed.

Lemma filter_eq_app_cons (P : A -> bool) (l m1 m2 : list A) (x : A) :
  List.filter P l = m1 ++ x :: m2 ->
  exists l1 l2, l = l1 ++ x :: l2 /\ List.filter P l1 = m1 /\ List.filter P l2 = m2.
Proof.
  revert m1; induction l as [|z l IH]; intros m1 Hf; simpl in Hf.
  - by destruct m1.
  - destruct (P z) eqn:Hz.
    + destruct m1 as [|z' m1]; simpl in Hf.
      * injection Hf as -> <-. by exists [], l.
      * injection Hf as <- Hf. destruct (IH m1 Hf) as (l1 & l2 & -> & Hl1 & Hl2).
        exists (z :: l1), l2. simpl. rewrite Hz, Hl1. done.
    + destruct (IH m1 Hf) as (l1 & l2 & -> & Hl1 & Hl2).
      exists (z :: l1), l2. simpl. by rewrite Hz.
Qed.

Lemma filter_before (P : A -> bool) (x y : A) (l : list A) :
  before x y (List.filter P l) -> before x y l.
Proof.
  intros (m1 & m2 & m3 & Hf).
  apply filter_eq_app_cons in Hf as (l1 & l2 & -> & _ & Hf).
  apply filter_eq_app_cons in Hf as (l2a & l2b & -> & _).
  by exists l1, l2a, l2b.
Qed.

Lemma before_filter (P : A -> bool) (x y : A) (l : list A) :
  P x = true -> P y = true -> before x y l -> before x y (List.filter P l).
Proof.
  intros Hx Hy (l1 & l2 & l3 & ->).
  exists (List.filter P l1), (List.filter P l2), (List.filter P l3).
  rewrite List.filter_app. simpl. rewrite Hx, List.filter_app. simpl. by rewrite Hy.
Qed.

Lemma before_app_l (x y : A) (l l' : list A) :
  before x y l -> before x y (l ++ l').
Proof.
  intros (l1 & l2 & l3 & ->). exists l1, l2, (l3 ++ l').
  by repeat (rewrite <- app_assoc; simpl).
Qed.

Lemma before_across (x y : A) (l l' : list A) :
  x ∈ l -> y ∈ l' -> before x y (l ++ l').
Proof.
  intros Hx Hy. apply list_elem_of_split in Hx as (a1 & a2 & ->).
  apply list_elem_of_split in Hy as (b1 & b2 & ->).
  exists a1, (a2 ++ b1), b2. by repeat (rewrite <- app_assoc; simpl).
Qed.

End BeforeFacts.

(** ** The ranking of [most_common] *)

Section Ranking.
Context {K : Type} `{EqDecision K}.

Lemma counter_before (l : list K) (x y : K * nat) :
  before x y (Py.counter l) -> first_before (fst x) (fst y) l.
Proof.
  intros (l1 & l2 & l3 & Hc).
  destruct (counter_spec l) as (Hkeys & _).
  destruct (fromkeys_keeps_first l) as (_ & _ & Hord).
  rewrite <- Hkeys, Hc in Hord.
  apply (Hord (List.length l1) (List.length l1 + S (List.length l2))); [| | lia].
  - rewrite List.map_app. simpl. rewrite <- (length_map fst l1).
    apply list_lookup_middle. done.
  - rewrite List.map_app. simpl. rewrite List.map_app. simpl.
    rewrite lookup_app_r by (rewrite length_map; lia).
    rewrite length_map.
    replace (List.length l1 + S (List.length l2) - List.length l1)
      with (S (List.length l2)) by lia.
    simpl. rewrite <- (length_map fst l2). apply list_lookup_middle. done.
Qed.

Lemma sorted_counter_before (l : list K) (x y : K * nat) :
  before x y (Py.sorted_desc (Py.counter l)) ->
  snd y <= snd x /\ (snd x = snd y -> first_before (fst x) (fst y) l).
Proof.
  intros Hb. split.
  - apply (before_sorted (fun a b : K * nat => snd b <= snd a) x y _
             (sorted_desc_sorted _) Hb).
  - intros Heq. apply counter_before.
    apply (filter_before (fun e => snd e =? snd x)).
    rewrite <- sorted_desc_stable.
    apply before_filter; [apply Nat.eqb_refl | by rewrite <- Heq, Nat.eqb_refl | done].
Qed.

(** [Counter(l).most_common(n)]: at most [n] entries, each a distinct
    element of [l] with the number of its occurrences, larger counts
    first, equal counts in the order of first occurrence; what is left
    out has no larger count than, and on equal counts comes later than,
    anything kept. *)
Lemma most_common_spec (n : nat) (l : list K) :
  List.length (Py.most_common n (Py.counter l)) <= n /\
  NoDup (List.map fst (Py.most_common n (Py.counter l))) /\
  (forall k c, (k, c) ∈ Py.most_common n (Py.counter l) ->
               c = occurrences k l /\ 0 < c /\ k ∈ l) /\
  (forall x y, before x y (Py.most_common n (Py.counter l)) ->
               snd y <= snd x /\
               (snd x = snd y -> first_before (fst x) (fst y) l)) /\
  (forall k, k ∈ l -> k ∉ List.map fst (Py.most_common n (Py.counter l)) ->
             List.length (Py.most_common n (Py.counter l)) = n /\
             forall x, x ∈ Py.most_common n (Py.counter l) ->
                       occurrences k l <= snd x /\
                       (snd x = occurrences k l -> first_before (fst x) k l)).
Proof.
  unfold Py.most_common.
  set (s := Py.sorted_desc (Py.counter l)).
  assert (Hsplit : s = take n s ++ drop n s) by (by rewrite take_drop).
  assert (Hperm : s ≡ₚ Py.counter l) by apply sorted_desc_perm.
  split; [rewrite length_take; lia |]. split; [| split; [| split]].
  - assert (Hnd : NoDup (List.map fst s)).
    { rewrite Hperm. apply counter_keys_NoDup. }
    rewrite Hsplit, List.map_app in Hnd. by apply NoDup_app in Hnd as [Hnd _].
  - intros k c Hin. apply counter_elem. rewrite <- Hperm, Hsplit.
    apply elem_of_app. by left.
  - intros x y Hb. apply sorted_counter_before. fold s. rewrite Hsplit.
    by apply before_app_l.
  - intros k Hk Hout.
    assert (Hin : (k, occurrences k l) ∈ drop n s).
    { pose proof (counter_has l k Hk) as Hin. rewrite <- Hperm, Hsplit in Hin.
      apply elem_of_app in Hin as [Hin | Hin]; [| done].
      exfalso. apply Hout. apply list_elem_of_In, in_map_iff.
      exists (k, occurrences k l). split; [done | by apply list_elem_of_In]. }
    split.
    + apply length_take_le. destruct (decide (n <= List.length s)) as [Hle | Hgt]; [done |].
      rewrite drop_ge in Hin by lia. inversion Hin.
    + intros x Hx.
      assert (Hb : before x (k, occurrences k l) s)
        by (rewrite Hsplit; by apply before_across).
      apply sorted_counter_before in Hb. simpl in Hb. done.
Qed.

End Ranking.

(** ** The keywords of a page *)

(** C9. The keywords of a page are computed from its tokens that are
    alphabetic and longer than 3 characters, lower-cased: at most 5
    entries, each a distinct such word with the number of its occurrences,
    larger counts first and equal counts in the order of first occurrence,
    and no word left out has a larger count than a word kept.  For the
    text ["cat cat dog dog dog bird"] the only entry is [("bird", 1)]:
    [cat] and [dog] have 3 letters and are dropped alike. *)
Theorem top_keywords_spec (tokens : list string) :
  let words :=
    List.map Py.lower
      (List.filter (fun w => (3 <? Py.len w) && Py.isalpha w) tokens) in
  List.length (top_keywords tokens) <= 5 /\
  NoDup (List.map fst (top_keywords tokens)) /\
  (forall w n, (w, n) ∈ top_keywords tokens ->
               n = occurrences w words /\ 0 < n /\
               exists t, t ∈ tokens /\ w = Py.lower t /\
                         3 < Py.len t /\ Py.isalpha t = true) /\
  (forall x y, before x y (top_keywords tokens) ->
               snd y <= snd x /\
               (snd x = snd y -> first_before (fst x) (fst y) words)) /\
  (forall w, w ∈ words -> w ∉ List.map fst (top_keywords tokens) ->
             List.length (top_keywords tokens) = 5 /\
             forall x, x ∈ top_keywords tokens ->
                       occurrences w words <= snd x /\
                       (snd x = occurrences w words -> first_before (fst x) w words)) /\
  top_keywords (Py.split "cat cat dog dog dog bird") = [("bird", 1)].
Proof.
  cbv zeta. unfold top_keywords.
  set (words := List.map Py.lower _).
  destruct (most_common_spec 5 words) as (Hlen & Hnd & Hin & Hord & Hout).
  split; [done |]. split; [done |]. split; [| split; [done | split; [done |]]].
  - intros w n Hw. destruct (Hin w n Hw) as (Hn & Hpos & Hmem).
    split; [done |]. split; [done |].
    apply list_elem_of_In, in_map_iff in Hmem as (t & <- & Ht).
    apply filter_In in Ht as [Ht Hq]. apply andb_true_iff in Hq as [Hl Ha].
    exists t. split; [by apply list_elem_of_In |]. split; [done |].
    split; [by apply Nat.ltb_lt | done].
  - by vm_compute.
Qed.

(** ** Loops *)

Section Loops.
Context {St : Type} (step : St -> option (result St)).

(** What holds at the start and is kept by every turn holds all along. *)
Lemma reaches_invariant (I : St -> Prop) (a b : St) :
  (forall st st', I st -> step st = Some (Ok st') -> I st') ->
  I a -> reaches step a b -> I b.
Proof.
  intros Hkeep Ha Hr. induction Hr as [|a a' b Hstep Hr IH]; [done |].
  apply IH. by eapply Hkeep.
Qed.

(** A loop that returns went through its states and stopped on its
    condition. *)
Lemma while_loop_ok (fuel : nat) (st st' : St) :
  while_loop step fuel st = Some (Ok st') ->
  reaches step st st' /\ step st' = None.
Proof.
  revert st; induction fuel as [|fuel IH]; intros st Hw; simpl in Hw; [discriminate |].
  destruct (step st) as [[st1 | msg] |] eqn:Hstep.
  - destruct (IH st1 Hw) as [Hr Hstop]. split; [| done].
    by eapply reaches_next.
  - discriminate.
  - injection Hw as <-. split; [constructor | done].
Qed.

(** A loop that raised did so in a turn from a state it went through. *)
Lemma while_loop_raise (fuel : nat) (st : St) (msg : string) :
  while_loop step fuel st = Some (Raise msg) ->
  exists st', reaches step st st' /\ step st' = Some (Raise msg).
Proof.
  revert st; induction fuel as [|fuel IH]; intros st Hw; simpl in Hw; [discriminate |].
  destruct (step st) as [[st1 | msg'] |] eqn:Hstep.
  - destruct (IH st1 Hw) as (st' & Hr & Hraise). exists st'. split; [| done].
    by eapply reaches_next.
  - injection Hw as ->. exists st. split; [constructor | done].
  - discriminate.
Qed.

(** More fuel does not change an outcome. *)
Lemma while_loop_more_fuel (fuel fuel' : nat) (st : St) (out : result St) :
  while_loop step fuel st = Some out -> fuel <= fuel' ->
  while_loop step fuel' st = Some out.
Proof.
  revert fuel' st; induction fuel as [|fuel IH]; intros fuel' st Hw Hle;
    simpl in Hw; [discriminate |].
  destruct fuel' as [|fuel']; [lia |]. simpl.
  destruct (step st) as [[st1 | msg] |]; [| done | done].
  apply IH; [done | lia].
Qed.

(** A loop whose turns go down in a lexicographic measure ends. *)
Lemma while_loop_terminates (m1 m2 : St -> nat) :
  (forall st st', step st = Some (Ok st') ->
                  m1 st' < m1 st \/ (m1 st' = m1 st /\ m2 st' < m2 st)) ->
  forall st, exists fuel out, while_loop step fuel st = Some out.
Proof.
  intros Hdown.
  assert (Hmain : forall a b st, m1 st <= a -> m2 st <= b ->
                    exists fuel out, while_loop step fuel st = Some out).
  { induction a as [a IHa] using lt_wf_ind.
    induction b as [b IHb] using lt_wf_ind.
    intros st Ha Hb.
    destruct (step st) as [[st1 | msg] |] eqn:Hstep.
    - destruct (Hdown st st1 Hstep) as [Hlt | [Heq Hlt]].
      + destruct (IHa (m1 st1) ltac:(lia) (m2 st1) st1 ltac:(lia) ltac:(lia))
          as (fuel & out & Hw).
        exists (S fuel), out. simpl. by rewrite Hstep.
      + destruct (IHb (m2 st1) ltac:(lia) st1 ltac:(lia) ltac:(lia))
          as (fuel & out & Hw).
        exists (S fuel), out. simpl. by rewrite Hstep.
    - exists 1, (Raise msg). simpl. by rewrite Hstep.
    - exists 1, (Ok st). simpl. by rewrite Hstep. }
  intros st. by apply (Hmain (m1 st) (m2 st)).
Qed.

End Loops.

(** ** The crawl loop, for both files *)

Lemma size_visit (X : gset string) (u : string) :
  u ∉ X -> size (X ∪ {[u]}) = S (size X).
Proof.
  intros Hu. rewrite size_union by set_solver. rewrite size_singleton. lia.
Qed.

Section CrawlInvariant.
Context {H : Type} (budget : Z) (P : string -> Prop).
Context (before_run : list (PageRecord H)).

(** Every turn keeps [crawl_inv]. *)
Lemma crawl_inv_keep (st st' : CrawlState H) :
  crawl_inv budget P before_run st ->
  crawl_transition budget P st st' ->
  crawl_inv budget P before_run st'.
Proof.
  intros (Hb & Hnd & Hlog & (added & Hdata & Hnda & Hrec) & Hq) Ht.
  destruct Ht as [st u rest Hhead Hguard Hin
                 | st u rest Hhead Hguard Hout
                 | st u rest page queue Hhead Hguard Hout Hurl Hst Hc Hh Hk HP Hqueue];
    rewrite Hhead in Hq; apply Forall_cons in Hq as [Hu Hrest];
    unfold crawl_inv; simpl.
  - split; [done |]. split; [done |]. split; [done |]. split; [| done].
    by exists added.
  - split; [rewrite size_visit by done; lia |].
    split; [| split; [| split; [| done]]].
    + apply NoDup_app. split; [done |]. split; [| apply NoDup_singleton].
      intros x Hx Hx'. apply list_elem_of_singleton in Hx'. subst x.
      by apply Hout, Hlog.
    + intros x. rewrite elem_of_app, elem_of_union, list_elem_of_singleton,
        elem_of_singleton, Hlog. done.
    + exists added. split; [done |]. split; [done |].
      intros r Hr. destruct (Hrec r Hr) as (Hv & Hrest'). split; [| done].
      apply elem_of_union. by left.
  - split; [rewrite size_visit by done; lia |].
    split; [| split; [| split]].
    + apply NoDup_app. split; [done |]. split; [| apply NoDup_singleton].
      intros x Hx Hx'. apply list_elem_of_singleton in Hx'. subst x.
      by apply Hout, Hlog.
    + intros x. rewrite elem_of_app, elem_of_union, list_elem_of_singleton,
        elem_of_singleton, Hlog. done.
    + exists (added ++ [page]). split; [by rewrite Hdata, app_assoc |]. split.
      * rewrite List.map_app. simpl. apply NoDup_app. split; [done |].
        split; [| apply NoDup_singleton].
        intros x Hx Hx'. apply list_elem_of_singleton in Hx'. subst x.
        apply list_elem_of_In, in_map_iff in Hx as (r & Hr & Hin).
        apply list_elem_of_In in Hin. destruct (Hrec r Hin) as (Hv & _).
        apply Hout. by rewrite <- Hurl, <- Hr.
      * intros r Hr. apply elem_of_app in Hr as [Hr | Hr].
        -- destruct (Hrec r Hr) as (Hv & Hrest'). split; [| done].
           apply elem_of_union. by left.
        -- apply list_elem_of_singleton in Hr. subst r.
           split; [| done]. apply elem_of_union. right.
           by apply elem_of_singleton.
    + apply Forall_forall. intros x Hx.
      destruct (Hqueue x Hx) as [Hx' | Hx'].
      * rewrite Forall_forall in Hrest. by apply Hrest.
      * rewrite Forall_forall in HP. by apply HP.
Qed.

(** Every turn goes down in the room left in the budget, then in the
    length of the queue. *)
Lemma crawl_transition_measure (st st' : CrawlState H) :
  crawl_transition budget P st st' ->
  Z.to_nat (budget - Z.of_nat (size (crawled st'))) <
    Z.to_nat (budget - Z.of_nat (size (crawled st))) \/
  (Z.to_nat (budget - Z.of_nat (size (crawled st'))) =
     Z.to_nat (budget - Z.of_nat (size (crawled st))) /\
   List.length (to_crawl st') < List.length (to_crawl st)).
Proof.
  intros Ht.
  destruct Ht as [st u rest Hhead Hguard Hin
                 | st u rest Hhead Hguard Hout
                 | st u rest page queue Hhead Hguard Hout Hurl Hst Hc Hh Hk HP Hqueue];
    simpl.
  - right. split; [done |]. rewrite Hhead. simpl. lia.
  - left. rewrite size_visit by done. lia.
  - left. rewrite size_visit by done. lia.
Qed.

(** The records a run adds are no more than the URLs it visited. *)
Lemma crawl_inv_added (st : CrawlState H) :
  crawl_inv budget P before_run st ->
  List.length (fetch_log st) = size (crawled st) /\
  exists added,
    site_data st = before_run ++ added /\
    NoDup (List.map url added) /\
    List.length added <= size (crawled st) /\
    List.length added <= List.length (fetch_log st) /\
    (forall r, r ∈ added ->
               url r ∈ fetch_log st /\ status r = "success" /\
               is_Some (category r) /\ is_Some (hierarchy r) /\
               is_Some (keywords r)).
Proof.
  intros (Hb & Hnd & Hlog & (added & Hdata & Hnda & Hrec) & Hq).
  assert (Hlen : List.length (fetch_log st) = size (crawled st)).
  { rewrite <- (size_list_to_set (C := gset string)) by done.
    f_equal. apply set_eq. intros u. by rewrite elem_of_list_to_set, Hlog. }
  assert (Hle : List.length added <= size (crawled st)).
  { rewrite <- (length_map url added).
    rewrite <- (size_list_to_set (C := gset string)) by done.
    apply subseteq_size. intros u Hu. apply elem_of_list_to_set in Hu.
    apply list_elem_of_In, in_map_iff in Hu as (r & <- & Hr).
    by apply Hrec, list_elem_of_In. }
  split; [done |].
  exists added. split; [done |]. split; [done |]. split; [done |].
  split; [lia |]. intros r Hr. destruct (Hrec r Hr) as (Hv & Hrest).
  split; [by apply Hlog | done].
Qed.

End CrawlInvariant.

(** ** The crawl of [src/URLCat.py] *)

Section UrlcatCrawl.
Context `{World} (self : URLCat.WebsiteAnalyzer).

Lemma urlcat_enqueue_elem (visited : gset string) (links queue : list string) (x : string) :
  x ∈ URLCat.enqueue visited queue links -> x ∈ queue \/ x ∈ links.
Proof.
  unfold URLCat.enqueue. revert queue; induction links as [|l links IH]; intros queue; simpl.
  - by left.
  - intros Hx. apply IH in Hx as [Hx | Hx]; [| right; by right].
    destruct (_ && _); [| by left].
    apply elem_of_app in Hx as [Hx | Hx]; [by left |].
    apply list_elem_of_singleton in Hx. subst x. right. left.
Qed.

(** Every link of an extracted page parses: the scoper accepted it. *)
Lemma urlcat_links_parse (u : string) :
  Forall parses (links (URLCat.extract_page_content self u)).
Proof.
  destruct (decide (status (URLCat.extract_page_content self u) = "success")) as [Hs | Hs].
  - destruct (urlcat_links_spec self u Hs) as (_ & _ & _ & _ & _ & Hvalid).
    apply Forall_forall. intros x Hx. specialize (Hvalid x Hx).
    apply urlcat_is_valid_url_spec in Hvalid as (parsed & Hp & _). by exists parsed.
  - unfold URLCat.extract_page_content in *.
    destruct (URLCat.extract_page self u) as [page | msg] eqn:Hx; [| constructor].
    exfalso. apply Hs.
    by apply urlcat_extract_page_inv in Hx as (? & ? & _ & _ & _ & -> & _).
Qed.

Lemma urlcat_hierarchy_ok (u : string) :
  parses u -> exists h, URLCat.analyze_url_hierarchy u = Ok h.
Proof.
  intros [parsed Hp]. unfold URLCat.analyze_url_hierarchy. rewrite Hp. simpl. eauto.
Qed.

(** A turn of [crawl_website] is a turn of [crawl_transition]. *)
Lemma urlcat_step_transition (st st' : CrawlState URLCat.Hierarchy) :
  URLCat.crawl_step self st = Some (Ok st') ->
  crawl_transition (URLCat.max_pages self) parses st st'.
Proof.
  unfold URLCat.crawl_step.
  destruct (to_crawl st) as [|u rest] eqn:Hhead; [discriminate |].
  destruct (Z.ltb_spec (Z.of_nat (size (crawled st))) (URLCat.max_pages self))
    as [Hguard | Hguard]; simpl; [| discriminate].
  destruct (decide (u ∈ crawled st)) as [Hin | Hout].
  - rewrite bool_decide_eq_true_2 by done. intros Hst. injection Hst as <-.
    by apply (turn_skip _ _ st u rest).
  - rewrite bool_decide_eq_false_2 by done.
    destruct (decide (status (URLCat.extract_page_content self u) = "success"))
      as [Hs | Hs].
    + rewrite bool_decide_eq_true_2 by done.
      destruct (URLCat.analyze_url_hierarchy u) as [h | msg]; simpl; [| discriminate].
      intros Hst. injection Hst as <-.
      apply (turn_success _ _ st u rest); simpl; try done.
      * apply urlcat_extract_url.
      * apply urlcat_links_parse.
      * intros x. apply urlcat_enqueue_elem.
    + rewrite bool_decide_eq_false_2 by done. intros Hst. injection Hst as <-.
      by apply (turn_failure _ _ st u rest).
Qed.

(** No exception leaves a turn whose queue parses. *)
Lemma urlcat_step_no_raise (st : CrawlState URLCat.Hierarchy) (msg : string) :
  Forall parses (to_crawl st) -> URLCat.crawl_step self st <> Some (Raise msg).
Proof.
  unfold URLCat.crawl_step. intros Hq.
  destruct (to_crawl st) as [|u rest] eqn:Hhead; [discriminate |].
  apply Forall_cons in Hq as [Hu _].
  destruct (negb _); [discriminate |].
  destruct (bool_decide (u ∈ crawled st)); [discriminate |].
  destruct (bool_decide (status _ = "success")); [| discriminate].
  destruct (urlcat_hierarchy_ok u Hu) as [h ->]. discriminate.
Qed.

(** A failed fetch leaves the result as it was and marks the URL
    visited. *)
Lemma urlcat_step_failure (st : CrawlState URLCat.Hierarchy) (u : string)
    (rest : list string) :
  to_crawl st = u :: rest ->
  (Z.of_nat (size (crawled st)) < URLCat.max_pages self)%Z ->
  u ∉ crawled st ->
  status (URLCat.extract_page_content self u) <> "success" ->
  URLCat.crawl_step self st =
    Some (Ok {| to_crawl := rest; crawled := crawled st ∪ {[u]};
                site_data := site_data st; fetch_log := fetch_log st ++ [u] |}).
Proof.
  intros Hhead Hguard Hout Hs. unfold URLCat.crawl_step. rewrite Hhead.
  destruct (Z.ltb_spec (Z.of_nat (size (crawled st))) (URLCat.max_pages self));
    [| lia]. simpl.
  rewrite bool_decide_eq_false_2 by done. by rewrite bool_decide_eq_false_2 by done.
Qed.

Lemma urlcat_start_inv :
  parses (URLCat.base_url self) ->
  crawl_inv (URLCat.max_pages self) parses (URLCat.analyzer_site_data self)
    (URLCat.crawl_start self).
Proof.
  intros Hbase. unfold crawl_inv, URLCat.crawl_start.
  cbn [to_crawl crawled site_data fetch_log].
  split; [rewrite size_empty; lia |]. split; [apply NoDup_nil_2 |].
  split; [intros u; split; intros Hu; [inversion Hu | by apply elem_of_empty in Hu] |].
  split; [| by repeat constructor].
  exists []. split; [by rewrite app_nil_r |]. split; [apply NoDup_nil_2 |].
  intros r Hr. inversion Hr.
Qed.

(** [crawl_inv] holds all along a run. *)
Lemma urlcat_reaches_inv (st : CrawlState URLCat.Hierarchy) :
  parses (URLCat.base_url self) ->
  reaches (URLCat.crawl_step self) (URLCat.crawl_start self) st ->
  crawl_inv (URLCat.max_pages self) parses (URLCat.analyzer_site_data self) st.
Proof.
  intros Hbase Hr.
  apply (reaches_invariant (URLCat.crawl_step self)
           (crawl_inv (URLCat.max_pages self) parses (URLCat.analyzer_site_data self))
           (URLCat.crawl_start self) st); [| by apply urlcat_start_inv | done].
  intros s s' Hinv Hstep. eapply crawl_inv_keep; [exact Hinv |].
  by apply urlcat_step_transition.
Qed.

(** The loop ends, and with a list when the seed parses. *)
Lemma urlcat_crawl_returns :
  parses (URLCat.base_url self) ->
  exists fuel data, URLCat.crawl_website fuel self = Some (Ok data).
Proof.
  intros Hbase.
  destruct (while_loop_terminates (URLCat.crawl_step self)
              (fun st => Z.to_nat (URLCat.max_pages self - Z.of_nat (size (crawled st))))
              (fun st => List.length (to_crawl st))
              (fun st st' Hstep =>
                 crawl_transition_measure _ _ st st' (urlcat_step_transition st st' Hstep))
              (URLCat.crawl_start self)) as (fuel & out & Hw).
  exists fuel. unfold URLCat.crawl_website. rewrite Hw.
  destruct out as [st | msg]; [by eexists |].
  apply while_loop_raise in Hw as (st' & Hr & Hraise).
  exfalso. apply (urlcat_step_no_raise st' msg); [| done].
  by apply (urlcat_reaches_inv st' Hbase Hr).
Qed.

(** What [crawl_website] returns is the list of a state the loop went
    through. *)
Lemma urlcat_crawl_result (fuel : nat) (data : list URLCat.Page) :
  URLCat.crawl_website fuel self = Some (Ok data) ->
  exists st,
    reaches (URLCat.crawl_step self) (URLCat.crawl_start self) st /\
    URLCat.crawl_step self st = None /\ site_data st = data.
Proof.
  unfold URLCat.crawl_website.
  destruct (while_loop _ fuel _) as [[st | msg] |] eqn:Hw; [| discriminate | discriminate].
  intros Hd. injection Hd as <-. apply while_loop_ok in Hw as [Hr Hstop]. by exists st.
Qed.

End UrlcatCrawl.

(** ** The crawl of [src/URLCat_GSC.py] *)

Section GscCrawl.
Context `{World} (self : URLCat_GSC.WebsiteAnalyzer).

Lemma gsc_enqueue_elem (visited : gset string) (links queue : list string) (x : string) :
  x ∈ URLCat_GSC.enqueue self visited queue links -> x ∈ queue \/ x ∈ links.
Proof.
  unfold URLCat_GSC.enqueue. revert queue; induction links as [|l links IH]; intros queue; simpl.
  - by left.
  - intros Hx. apply IH in Hx as [Hx | Hx]; [| right; by right].
    destruct (_ && _); [| by left].
    apply elem_of_app in Hx as [Hx | Hx]; [by left |].
    apply list_elem_of_singleton in Hx. subst x. right. left.
Qed.

(** Every link of an extracted page parses: the scoper accepted it. *)
Lemma gsc_links_parse (u : string) :
  Forall parses (links (URLCat_GSC.extract_page_content self u)).
Proof.
  destruct (decide (status (URLCat_GSC.extract_page_content self u) = "success")) as [Hs | Hs].
  - destruct (gsc_links_spec self u Hs) as (_ & _ & _ & _ & _ & Hvalid).
    apply Forall_forall. intros x Hx. destruct (Hvalid x Hx) as [_ Hv].
    apply (proj1 (gsc_is_valid_url_spec self x)) in Hv as (parsed & Hp & _).
    by exists parsed.
  - unfold URLCat_GSC.extract_page_content in *.
    destruct (URLCat_GSC.extract_page self u) as [page | msg] eqn:Hx; [| constructor].
    exfalso. apply Hs.
    by apply gsc_extract_page_inv in Hx as (? & ? & _ & _ & _ & -> & _).
Qed.

Lemma gsc_hierarchy_ok (u : string) :
  parses u -> exists h, URLCat_GSC.hierarchy_info u = Ok h.
Proof.
  intros [parsed Hp]. unfold URLCat_GSC.hierarchy_info. rewrite Hp. simpl. eauto.
Qed.

(** A turn of [crawl] of this file is a turn of [crawl_transition]. *)
Lemma gsc_step_transition (st st' : CrawlState URLCat_GSC.Hierarchy) :
  URLCat_GSC.crawl_step self st = Some (Ok st') ->
  crawl_transition (URLCat_GSC.max_pages self) parses st st'.
Proof.
  unfold URLCat_GSC.crawl_step.
  destruct (to_crawl st) as [|u rest] eqn:Hhead; [discriminate |].
  destruct (Z.ltb_spec (Z.of_nat (size (crawled st))) (URLCat_GSC.max_pages self))
    as [Hguard | Hguard]; simpl; [| discriminate].
  destruct (decide (u ∈ crawled st)) as [Hin | Hout].
  - rewrite bool_decide_eq_true_2 by done. intros Hst. injection Hst as <-.
    by apply (turn_skip _ _ st u rest).
  - rewrite bool_decide_eq_false_2 by done.
    destruct (decide (status (URLCat_GSC.extract_page_content self u) = "success"))
      as [Hs | Hs].
    + rewrite bool_decide_eq_true_2 by done.
      destruct (URLCat_GSC.hierarchy_info u) as [h | msg]; simpl; [| discriminate].
      intros Hst. injection Hst as <-.
      apply (turn_success _ _ st u rest); simpl; try done.
      * apply gsc_extract_url.
      * apply gsc_links_parse.
      * intros x. apply gsc_enqueue_elem.
    + rewrite bool_decide_eq_false_2 by done. intros Hst. injection Hst as <-.
      by apply (turn_failure _ _ st u rest).
Qed.

(** No exception leaves a turn whose queue parses. *)
Lemma gsc_step_no_raise (st : CrawlState URLCat_GSC.Hierarchy) (msg : string) :
  Forall parses (to_crawl st) -> URLCat_GSC.crawl_step self st <> Some (Raise msg).
Proof.
  unfold URLCat_GSC.crawl_step. intros Hq.
  destruct (to_crawl st) as [|u rest] eqn:Hhead; [discriminate |].
  apply Forall_cons in Hq as [Hu _].
  destruct (negb _); [discriminate |].
  destruct (bool_decide (u ∈ crawled st)); [discriminate |].
  destruct (bool_decide (status _ = "success")); [| discriminate].
  destruct (gsc_hierarchy_ok u Hu) as [h ->]. discriminate.
Qed.

(** A failed fetch leaves the result as it was and marks the URL
    visited. *)
Lemma gsc_step_failure (st : CrawlState URLCat_GSC.Hierarchy) (u : string)
    (rest : list string) :
  to_crawl st = u :: rest ->
  (Z.of_nat (size (crawled st)) < URLCat_GSC.max_pages self)%Z ->
  u ∉ crawled st ->
  status (URLCat_GSC.extract_page_content self u) <> "success" ->
  URLCat_GSC.crawl_step self st =
    Some (Ok {| to_crawl := rest; crawled := crawled st ∪ {[u]};
                site_data := site_data st; fetch_log := fetch_log st ++ [u] |}).
Proof.
  intros Hhead Hguard Hout Hs. unfold URLCat_GSC.crawl_step. rewrite Hhead.
  destruct (Z.ltb_spec (Z.of_nat (size (crawled st))) (URLCat_GSC.max_pages self));
    [| lia]. simpl.
  rewrite bool_decide_eq_false_2 by done. by rewrite bool_decide_eq_false_2 by done.
Qed.

Lemma gsc_start_inv :
  parses (URLCat_GSC.base_url self) ->
  crawl_inv (URLCat_GSC.max_pages self) parses (URLCat_GSC.analyzer_site_data self)
    (URLCat_GSC.crawl_start self).
Proof.
  intros Hbase. unfold crawl_inv, URLCat_GSC.crawl_start.
  cbn [to_crawl crawled site_data fetch_log].
  split; [rewrite size_empty; lia |]. split; [apply NoDup_nil_2 |].
  split; [intros u; split; intros Hu; [inversion Hu | by apply elem_of_empty in Hu] |].
  split; [| by repeat constructor].
  exists []. split; [by rewrite app_nil_r |]. split; [apply NoDup_nil_2 |].
  intros r Hr. inversion Hr.
Qed.

(** [crawl_inv] holds all along a run. *)
Lemma gsc_reaches_inv (st : CrawlState URLCat_GSC.Hierarchy) :
  parses (URLCat_GSC.base_url self) ->
  reaches (URLCat_GSC.crawl_step self) (URLCat_GSC.crawl_start self) st ->
  crawl_inv (URLCat_GSC.max_pages self) parses (URLCat_GSC.analyzer_site_data self) st.
Proof.
  intros Hbase Hr.
  apply (reaches_invariant (URLCat_GSC.crawl_step self)
           (crawl_inv (URLCat_GSC.max_pages self) parses (URLCat_GSC.analyzer_site_data self))
           (URLCat_GSC.crawl_start self) st); [| by apply gsc_start_inv | done].
  intros s s' Hinv Hstep. eapply crawl_inv_keep; [exact Hinv |].
  by apply gsc_step_transition.
Qed.

(** The loop ends, and with a list when the seed parses. *)
Lemma gsc_crawl_returns :
  parses (URLCat_GSC.base_url self) ->
  exists fuel data, URLCat_GSC.crawl fuel self = Some (Ok data).
Proof.
  intros Hbase.
  destruct (while_loop_terminates (URLCat_GSC.crawl_step self)
              (fun st => Z.to_nat (URLCat_GSC.max_pages self - Z.of_nat (size (crawled st))))
              (fun st => List.length (to_crawl st))
              (fun st st' Hstep =>
                 crawl_transition_measure _ _ st st' (gsc_step_transition st st' Hstep))
              (URLCat_GSC.crawl_start self)) as (fuel & out & Hw).
  exists fuel. unfold URLCat_GSC.crawl. rewrite Hw.
  destruct out as [st | msg]; [by eexists |].
  apply while_loop_raise in Hw as (st' & Hr & Hraise).
  exfalso. apply (gsc_step_no_raise st' msg); [| done].
  by apply (gsc_reaches_inv st' Hbase Hr).
Qed.

(** What [crawl] returns is the list of a state the loop went
    through. *)
Lemma gsc_crawl_result (fuel : nat) (data : list URLCat_GSC.Page) :
  URLCat_GSC.crawl fuel self = Some (Ok data) ->
  exists st,
    reaches (URLCat_GSC.crawl_step self) (URLCat_GSC.crawl_start self) st /\
    URLCat_GSC.crawl_step self st = None /\ site_data st = data.
Proof.
  unfold URLCat_GSC.crawl.
  destruct (while_loop _ fuel _) as [[st | msg] |] eqn:Hw; [| discriminate | discriminate].
  intros Hd. injection Hd as <-. apply while_loop_ok in Hw as [Hr Hstop]. by exists st.
Qed.

End GscCrawl.

(** ** The taxonomy *)

Section Getitem.
Context {A B : Type} (key : string) (f : A -> option B).

(** Reading a key that every record has gives the values, in order. *)
Lemma mapM_getitem_ok (l : list A) :
  Forall (fun x => is_Some (f x)) l ->
  exists ys, mapM (fun x => getitem key (f x)) l = Ok ys /\
             List.map Some ys = List.map f l.
Proof.
  induction l as [|x l IH]; intros Hl; [by exists [] |].
  apply Forall_cons in Hl as [[y Hy] Hl]. destruct (IH Hl) as (ys & Hm & Hys).
  exists (y :: ys). cbn [mapM]. rewrite Hy, Hm. simpl. by rewrite Hys, Hy.
Qed.

(** Reading a key that some record lacks is a [KeyError] of that key. *)
Lemma mapM_getitem_raise (l : list A) (x : A) :
  x ∈ l -> f x = None ->
  mapM (fun x => getitem key (f x)) l = Raise ("'" +:+ key +:+ "'").
Proof.
  intros Hx Hnone. induction l as [|z l IH]; [inversion Hx |].
  cbn [mapM]. destruct (f z) as [y |] eqn:Hz; [| done].
  apply elem_of_cons in Hx as [-> | Hx]; [congruence |].
  simpl. by rewrite (IH Hx).
Qed.

End Getitem.

Lemma map_Some_length {A} (ys : list A) (l : list (option A)) :
  List.map Some ys = l -> List.length ys = List.length l.
Proof. intros <-. by rewrite length_map. Qed.

Lemma occurrences_Some `{EqDecision A} (c : A) (ys : list A) :
  occurrences (Some c) (List.map Some ys) = occurrences c ys.
Proof.
  unfold occurrences. induction ys as [|y ys IH]; [done |]. cbn [List.map List.filter].
  destruct (decide (y = c)) as [-> | Hne].
  - rewrite !bool_decide_eq_true_2 by done. simpl. by rewrite IH.
  - rewrite !bool_decide_eq_false_2 by congruence. done.
Qed.

Lemma concat_keywords {H} (kws : list (list (string * nat))) (data : list (PageRecord H)) :
  List.map Some kws = List.map keywords data ->
  List.concat (List.map (List.map fst) kws) =
  List.flat_map (fun r => List.map fst (default [] (keywords r))) data.
Proof.
  revert data; induction kws as [|k kws IH]; intros [|r data] Hm; try done.
  simpl in Hm. injection Hm as Hk Hm. simpl. by rewrite <- Hk, (IH data Hm).
Qed.

(** [create_taxonomy_data] on records that all carry the three keys of
    the crawl: every record is counted, whatever its status. *)
Lemma urlcat_taxonomy_counts_all (data : list URLCat.Page) :
  Forall (fun r => is_Some (category r) /\ is_Some (hierarchy r) /\
                   is_Some (keywords r)) data ->
  exists tax,
    URLCat.create_taxonomy_data data = Ok tax /\
    total (URLCat.tax_categories tax) = List.length data /\
    total (URLCat.hierarchy_levels tax) = List.length data /\
    total (URLCat.file_types tax) = List.length data /\
    (forall c, count_of (URLCat.tax_categories tax) c =
               occurrences (Some c) (List.map category data)) /\
    URLCat.topics tax =
      Py.most_common 10
        (Py.counter
           (List.flat_map (fun r => List.map fst (default [] (keywords r))) data)).
Proof.
  intros Hall.
  destruct (mapM_getitem_ok "category" category data) as (cats & Hc & Hcats).
  { eapply Forall_impl; [exact Hall |]. by intros r (? & _). }
  destruct (mapM_getitem_ok "hierarchy" hierarchy data) as (hs & Hh & Hhs).
  { eapply Forall_impl; [exact Hall |]. by intros r (_ & ? & _). }
  destruct (mapM_getitem_ok "keywords" keywords data) as (kws & Hk & Hkws).
  { eapply Forall_impl; [exact Hall |]. by intros r (_ & _ & ?). }
  unfold URLCat.create_taxonomy_data. rewrite Hc. cbn [mbind result_bind].
  rewrite Hh. cbn [mbind result_bind]. rewrite Hk. cbn [mbind result_bind].
  eexists. split; [reflexivity |].
  cbn [URLCat.tax_categories URLCat.hierarchy_levels URLCat.file_types URLCat.topics].
  pose proof (map_Some_length _ _ Hcats) as Hlc.
  pose proof (map_Some_length _ _ Hhs) as Hlh. rewrite length_map in Hlc, Hlh.
  split; [by rewrite (proj1 (proj2 (proj2 (counter_spec cats)))) |].
  split; [by rewrite (proj1 (proj2 (proj2 (counter_spec _)))), length_map |].
  split; [by rewrite (proj1 (proj2 (proj2 (counter_spec _)))), length_map |].
  split.
  - intros c. rewrite (proj1 (proj2 (counter_spec cats))).
    by rewrite <- Hcats, occurrences_Some.
  - by rewrite (concat_keywords kws data Hkws).
Qed.

(** [build_taxonomy] likewise. *)
Lemma gsc_taxonomy_counts_all (data : list URLCat_GSC.Page) :
  Forall (fun r => is_Some (category r) /\ is_Some (hierarchy r) /\
                   is_Some (keywords r)) data ->
  exists tax,
    URLCat_GSC.build_taxonomy data = Ok tax /\
    total (URLCat_GSC.tax_categories tax) = List.length data /\
    total (URLCat_GSC.tax_depth tax) = List.length data /\
    total (URLCat_GSC.file_types tax) = List.length data /\
    (forall c, count_of (URLCat_GSC.tax_categories tax) c =
               occurrences (Some c) (List.map category data)).
Proof.
  intros Hall.
  destruct (mapM_getitem_ok "category" category data) as (cats & Hc & Hcats).
  { eapply Forall_impl; [exact Hall |]. by intros r (? & _). }
  destruct (mapM_getitem_ok "hierarchy" hierarchy data) as (hs & Hh & Hhs).
  { eapply Forall_impl; [exact Hall |]. by intros r (_ & ? & _). }
  unfold URLCat_GSC.build_taxonomy. rewrite Hc. cbn [mbind result_bind].
  rewrite Hh. cbn [mbind result_bind].
  eexists. split; [reflexivity |].
  cbn [URLCat_GSC.tax_categories URLCat_GSC.tax_depth URLCat_GSC.file_types].
  pose proof (map_Some_length _ _ Hcats) as Hlc.
  pose proof (map_Some_length _ _ Hhs) as Hlh. rewrite length_map in Hlc, Hlh.
  split; [by rewrite (proj1 (proj2 (proj2 (counter_spec cats)))) |].
  split; [by rewrite (proj1 (proj2 (proj2 (counter_spec _)))), length_map |].
  split; [by rewrite (proj1 (proj2 (proj2 (counter_spec _)))), length_map |].
  intros c. rewrite (proj1 (proj2 (counter_spec cats))).
  by rewrite <- Hcats, occurrences_Some.
Qed.

(** ** The seed URL *)

Lemma rstrip_char_cons (c b : ascii) (s : string) :
  Py.rstrip_char c (String b s) =
  match Py.rstrip_char c s with
  | EmptyString => if bool_decide (b = c) then EmptyString else String b EmptyString
  | r => String b r
  end.
Proof. reflexivity. Qed.

(** Apart from a stripped character, the head of a string stays. *)
Lemma rstrip_char_keep (c b : ascii) (s : string) :
  b <> c -> Py.rstrip_char c (String b s) = String b (Py.rstrip_char c s).
Proof.
  intros Hb. rewrite rstrip_char_cons. rewrite bool_decide_eq_false_2 by done.
  by destruct (Py.rstrip_char c s).
Qed.

Lemma rstrip_char_nonempty (c b : ascii) (s : string) :
  Py.rstrip_char c s <> EmptyString ->
  Py.rstrip_char c (String b s) = String b (Py.rstrip_char c s).
Proof. intros Hs. rewrite rstrip_char_cons. by destruct (Py.rstrip_char c s). Qed.

Lemma partition1_rstrip (s : string) :
  Py.partition1 ":" (Py.rstrip_char "/" s) =
  match Py.partition1 ":" s with
  | Some (pre, rest) => Some (pre, Py.rstrip_char "/" rest)
  | None => None
  end.
Proof.
  induction s as [|b s IH]; [done |].
  destruct (decide (b = ":"%char)) as [-> | Hb].
  - rewrite rstrip_char_keep by done. done.
  - cbn [Py.partition1]. rewrite (bool_decide_eq_false_2 (b = ":"%char)) by done.
    destruct (decide (Py.rstrip_char "/" s = EmptyString)) as [He | Hne].
    + rewrite He in IH. simpl in IH.
      destruct (Py.partition1 ":" s) as [[l r] |]; [discriminate |].
      rewrite rstrip_char_cons, He.
      destruct (bool_decide (b = "/"%char)); [done |].
      simpl. by rewrite bool_decide_eq_false_2 by done.
    + rewrite rstrip_char_nonempty by done. cbn [Py.partition1].
      rewrite bool_decide_eq_false_2 by done. rewrite IH.
      by destruct (Py.partition1 ":" s) as [[l r] |].
Qed.

Lemma split_scheme_rstrip (s : string) :
  Urllib.split_scheme (Py.rstrip_char "/" s) =
  (fst (Urllib.split_scheme s), Py.rstrip_char "/" (snd (Urllib.split_scheme s))).
Proof.
  unfold Urllib.split_scheme. rewrite partition1_rstrip.
  destruct (Py.partition1 ":" s) as [[[|c0 pre] rest] |]; try done.
  by destruct (_ && _).
Qed.

Lemma span_until_all_stripped (s : string) :
  Py.rstrip_char "/" s = EmptyString ->
  fst (Urllib.span_until Urllib.netloc_delim s) = EmptyString.
Proof.
  destruct s as [|b s]; [done |]. rewrite rstrip_char_cons.
  destruct (Py.rstrip_char "/" s); [| discriminate].
  destruct (bool_decide (b = "/"%char)) eqn:Hb; [| discriminate].
  apply bool_decide_eq_true in Hb as ->. done.
Qed.

Lemma span_until_rstrip (s : string) :
  Py.rstrip_char "/" s <> EmptyString ->
  fst (Urllib.span_until Urllib.netloc_delim (Py.rstrip_char "/" s)) =
  fst (Urllib.span_until Urllib.netloc_delim s).
Proof.
  induction s as [|b s IH]; [done |]. intros Hne.
  destruct (Urllib.netloc_delim b) eqn:Hd.
  - assert (Hs : exists r, Py.rstrip_char "/" (String b s) = String b r).
    { rewrite rstrip_char_cons in *. destruct (Py.rstrip_char "/" s); [| by eexists].
      destruct (bool_decide (b = "/"%char)); [done | by eexists]. }
    destruct Hs as [r ->]. simpl. by rewrite Hd.
  - assert (Hb : b <> "/"%char).
    { intros ->. discriminate Hd. }
    rewrite rstrip_char_keep by done. cbn [Urllib.span_until]. rewrite Hd.
    destruct (decide (Py.rstrip_char "/" s = EmptyString)) as [He | Hne'].
    + rewrite He. simpl. pose proof (span_until_all_stripped s He) as Hl.
      destruct (Urllib.span_until Urllib.netloc_delim s) as [l r]. simpl in *. by rewrite Hl.
    + specialize (IH Hne').
      destruct (Urllib.span_until Urllib.netloc_delim (Py.rstrip_char "/" s)) as [l' r'].
      destruct (Urllib.span_until Urllib.netloc_delim s) as [l r]. simpl in *. by rewrite IH.
Qed.

Lemma split_netloc_other (a : ascii) (t : string) :
  a <> "/"%char ->
  Urllib.split_netloc (String a t) = Ok (EmptyString, String a t).
Proof.
  intros Ha. unfold Urllib.split_netloc.
  destruct a as [[] [] [] [] [] [] [] []]; try reflexivity. by destruct Ha.
Qed.

Lemma split_netloc_single (b : ascii) (t : string) :
  b <> "/"%char ->
  Urllib.split_netloc (String "/" (String b t)) = Ok (EmptyString, String "/" (String b t)).
Proof.
  intros Hb. unfold Urllib.split_netloc.
  destruct b as [[] [] [] [] [] [] [] []]; try reflexivity. by destruct Hb.
Qed.

Lemma split_netloc_rstrip (t : string) :
  (exists r, Urllib.split_netloc t = Ok r) ->
  exists r, Urllib.split_netloc (Py.rstrip_char "/" t) = Ok r.
Proof.
  intros [r Hr].
  destruct t as [|a t]; [by exists (EmptyString, EmptyString) |].
  destruct (decide (a = "/"%char)) as [-> | Ha].
  2:{ rewrite rstrip_char_keep by done. rewrite split_netloc_other by done. by eexists. }
  destruct t as [|b t].
  { by exists (EmptyString, EmptyString). }
  destruct (decide (b = "/"%char)) as [-> | Hb].
  2:{ rewrite rstrip_char_nonempty by (rewrite rstrip_char_keep by done; discriminate).
      rewrite rstrip_char_keep by done. rewrite split_netloc_single by done. by eexists. }
  destruct (decide (Py.rstrip_char "/" t = EmptyString)) as [He | Hne].
  { rewrite !rstrip_char_cons, He. by exists (EmptyString, EmptyString). }
  rewrite rstrip_char_nonempty.
  2:{ rewrite rstrip_char_nonempty by done. discriminate. }
  rewrite rstrip_char_nonempty by done.
  unfold Urllib.split_netloc in *.
  pose proof (span_until_rstrip t Hne) as Hspan.
  destruct (Urllib.span_until Urllib.netloc_delim (Py.rstrip_char "/" t)) as [l' r'].
  destruct (Urllib.span_until Urllib.netloc_delim t) as [l r0]. simpl in Hspan. subst l'.
  destruct (xorb _ _); [discriminate | by eexists].
Qed.

Lemma parses_iff (u : string) :
  parses u <-> exists r, Urllib.split_netloc (snd (Urllib.split_scheme u)) = Ok r.
Proof.
  unfold parses, Urllib.urlparse.
  destruct (Urllib.split_scheme u) as [sch url1]. simpl.
  destruct (Urllib.split_netloc url1) as [[loc url2] | msg]; simpl.
  - split; [by eexists |]. intros _.
    destruct (Urllib.cut "#" url2) as [url3 frag].
    destruct (Urllib.cut "?" url3) as [url4 qry].
    match goal with
    | |- context [let '(_, _) := ?x in _] => destruct x as [pth prm]
    end.
    by eexists.
  - split; intros [r Hr]; discriminate.
Qed.

(** A URL that parses still parses without its trailing slashes. *)
Lemma parses_rstrip (u : string) :
  parses u -> parses (Py.rstrip_char "/" u).
Proof.
  rewrite !parses_iff, split_scheme_rstrip. simpl. apply split_netloc_rstrip.
Qed.

(** The constructors leave an analyzer with an empty result list and a
    seed that parses. *)
Lemma urlcat_init_ready (base : string) (budget : Z) (self : URLCat.WebsiteAnalyzer) :
  URLCat.init base budget = Ok self ->
  URLCat.base_url self = base /\ URLCat.max_pages self = budget /\
  URLCat.analyzer_site_data self = [] /\ parses (URLCat.base_url self).
Proof.
  unfold URLCat.init. destruct (Urllib.urlparse base) as [parsed | msg] eqn:Hp;
    simpl; [| discriminate].
  intros Hs. injection Hs as <-. simpl. repeat split. by exists parsed.
Qed.

Lemma gsc_init_ready (base : string) (budget : Z) (self : URLCat_GSC.WebsiteAnalyzer) :
  URLCat_GSC.init base budget = Ok self ->
  URLCat_GSC.base_url self = Py.rstrip_char "/" base /\
  URLCat_GSC.max_pages self = budget /\
  URLCat_GSC.analyzer_site_data self = [] /\ parses (URLCat_GSC.base_url self).
Proof.
  unfold URLCat_GSC.init. destruct (Urllib.urlparse base) as [parsed | msg] eqn:Hp;
    simpl; [| discriminate].
  intros Hs. injection Hs as <-. simpl. repeat split.
  apply parses_rstrip. by exists parsed.
Qed.

(** ** Runs of a fresh analyzer *)

Section Runs.
Context `{World}.

(** All that holds of every state of a run of [crawl_website] on an
    analyzer whose result list is empty. *)
Lemma urlcat_run_facts (self : URLCat.WebsiteAnalyzer) (st : CrawlState URLCat.Hierarchy) :
  URLCat.analyzer_site_data self = [] ->
  parses (URLCat.base_url self) ->
  reaches (URLCat.crawl_step self) (URLCat.crawl_start self) st ->
  (Z.of_nat (size (crawled st)) <= Z.max 0 (URLCat.max_pages self))%Z /\
  List.length (fetch_log st) = size (crawled st) /\
  NoDup (fetch_log st) /\
  NoDup (List.map url (site_data st)) /\
  List.length (site_data st) <= size (crawled st) /\
  (forall r, r ∈ site_data st ->
             url r ∈ fetch_log st /\ status r = "success" /\
             is_Some (category r) /\ is_Some (hierarchy r) /\ is_Some (keywords r)).
Proof.
  intros Hfresh Hbase Hr.
  pose proof (urlcat_reaches_inv self st Hbase Hr) as Hinv.
  destruct (crawl_inv_added _ _ _ st Hinv) as (Hlen & added & Hdata & Hnd & Hle & _ & Hrec).
  rewrite Hfresh in Hdata. simpl in Hdata. subst added.
  destruct Hinv as (Hb & Hndl & _).
  split; [done |]. split; [done |]. split; [done |]. split; [done |]. by split.
Qed.

(** The same of [crawl] of [src/URLCat_GSC.py]. *)
Lemma gsc_run_facts (self : URLCat_GSC.WebsiteAnalyzer) (st : CrawlState URLCat_GSC.Hierarchy) :
  URLCat_GSC.analyzer_site_data self = [] ->
  parses (URLCat_GSC.base_url self) ->
  reaches (URLCat_GSC.crawl_step self) (URLCat_GSC.crawl_start self) st ->
  (Z.of_nat (size (crawled st)) <= Z.max 0 (URLCat_GSC.max_pages self))%Z /\
  List.length (fetch_log st) = size (crawled st) /\
  NoDup (fetch_log st) /\
  NoDup (List.map url (site_data st)) /\
  List.length (site_data st) <= size (crawled st) /\
  (forall r, r ∈ site_data st ->
             url r ∈ fetch_log st /\ status r = "success" /\
             is_Some (category r) /\ is_Some (hierarchy r) /\ is_Some (keywords r)).
Proof.
  intros Hfresh Hbase Hr.
  pose proof (gsc_reaches_inv self st Hbase Hr) as Hinv.
  destruct (crawl_inv_added _ _ _ st Hinv) as (Hlen & added & Hdata & Hnd & Hle & _ & Hrec).
  rewrite Hfresh in Hdata. simpl in Hdata. subst added.
  destruct Hinv as (Hb & Hndl & _).
  split; [done |]. split; [done |]. split; [done |]. split; [done |]. by split.
Qed.

(** C7. In a run of either file on a fresh analyzer with a budget
    [max_pages >= 0], at every state of the loop the visited URLs, which
    are the URLs a fetch was attempted on, are at most [max_pages], and so
    are the records; the loop ends and returns a list of at most
    [max_pages] records.  An analyzer is fresh when its result list is
    empty and its seed parses, as the constructor leaves it
    ([urlcat_init_ready], [gsc_init_ready]). *)
Theorem crawl_budget_respected :
  (forall self : URLCat.WebsiteAnalyzer,
      (0 <= URLCat.max_pages self)%Z ->
      URLCat.analyzer_site_data self = [] ->
      parses (URLCat.base_url self) ->
      (forall st,
          reaches (URLCat.crawl_step self) (URLCat.crawl_start self) st ->
          (Z.of_nat (size (crawled st)) <= URLCat.max_pages self)%Z /\
          List.length (fetch_log st) = size (crawled st) /\
          (Z.of_nat (List.length (site_data st)) <= URLCat.max_pages self)%Z) /\
      (exists fuel data, URLCat.crawl_website fuel self = Some (Ok data)) /\
      (forall fuel data,
          URLCat.crawl_website fuel self = Some (Ok data) ->
          (Z.of_nat (List.length data) <= URLCat.max_pages self)%Z)) /\
  (forall self : URLCat_GSC.WebsiteAnalyzer,
      (0 <= URLCat_GSC.max_pages self)%Z ->
      URLCat_GSC.analyzer_site_data self = [] ->
      parses (URLCat_GSC.base_url self) ->
      (forall st,
          reaches (URLCat_GSC.crawl_step self) (URLCat_GSC.crawl_start self) st ->
          (Z.of_nat (size (crawled st)) <= URLCat_GSC.max_pages self)%Z /\
          List.length (fetch_log st) = size (crawled st) /\
          (Z.of_nat (List.length (site_data st)) <= URLCat_GSC.max_pages self)%Z) /\
      (exists fuel data, URLCat_GSC.crawl fuel self = Some (Ok data)) /\
      (forall fuel data,
          URLCat_GSC.crawl fuel self = Some (Ok data) ->
          (Z.of_nat (List.length data) <= URLCat_GSC.max_pages self)%Z)).
Proof.
  split; intros self Hbudget Hfresh Hbase.
  - assert (Hstates : forall st,
               reaches (URLCat.crawl_step self) (URLCat.crawl_start self) st ->
               (Z.of_nat (size (crawled st)) <= URLCat.max_pages self)%Z /\
               List.length (fetch_log st) = size (crawled st) /\
               (Z.of_nat (List.length (site_data st)) <= URLCat.max_pages self)%Z).
    { intros st Hr.
      destruct (urlcat_run_facts self st Hfresh Hbase Hr) as (Hb & Hlen & _ & _ & Hle & _).
      split; [lia |]. split; [done | lia]. }
    split; [done |]. split; [by apply urlcat_crawl_returns |].
    intros fuel data Hd. apply urlcat_crawl_result in Hd as (st & Hr & _ & <-).
    by apply Hstates.
  - assert (Hstates : forall st,
               reaches (URLCat_GSC.crawl_step self) (URLCat_GSC.crawl_start self) st ->
               (Z.of_nat (size (crawled st)) <= URLCat_GSC.max_pages self)%Z /\
               List.length (fetch_log st) = size (crawled st) /\
               (Z.of_nat (List.length (site_data st)) <= URLCat_GSC.max_pages self)%Z).
    { intros st Hr.
      destruct (gsc_run_facts self st Hfresh Hbase Hr) as (Hb & Hlen & _ & _ & Hle & _).
      split; [lia |]. split; [done | lia]. }
    split; [done |]. split; [by apply gsc_crawl_returns |].
    intros fuel data Hd. apply gsc_crawl_result in Hd as (st & Hr & _ & <-).
    by apply Hstates.
Qed.

(** C8. In a run of either file on a fresh analyzer no URL is fetched
    twice and no two records have the same [url]: at every state of the
    loop the fetch log and the URLs of the records are without repetition,
    and every record is of a fetched URL; so is the list returned. *)
Theorem crawl_no_duplicate_fetch :
  (forall self : URLCat.WebsiteAnalyzer,
      URLCat.analyzer_site_data self = [] ->
      parses (URLCat.base_url self) ->
      (forall st,
          reaches (URLCat.crawl_step self) (URLCat.crawl_start self) st ->
          NoDup (fetch_log st) /\ NoDup (List.map url (site_data st)) /\
          forall r, r ∈ site_data st -> url r ∈ fetch_log st) /\
      (exists fuel data, URLCat.crawl_website fuel self = Some (Ok data)) /\
      (forall fuel data,
          URLCat.crawl_website fuel self = Some (Ok data) ->
          NoDup (List.map url data))) /\
  (forall self : URLCat_GSC.WebsiteAnalyzer,
      URLCat_GSC.analyzer_site_data self = [] ->
      parses (URLCat_GSC.base_url self) ->
      (forall st,
          reaches (URLCat_GSC.crawl_step self) (URLCat_GSC.crawl_start self) st ->
          NoDup (fetch_log st) /\ NoDup (List.map url (site_data st)) /\
          forall r, r ∈ site_data st -> url r ∈ fetch_log st) /\
      (exists fuel data, URLCat_GSC.crawl fuel self = Some (Ok data)) /\
      (forall fuel data,
          URLCat_GSC.crawl fuel self = Some (Ok data) ->
          NoDup (List.map url data))).
Proof.
  split; intros self Hfresh Hbase.
  - split; [| split; [by apply urlcat_crawl_returns |]].
    + intros st Hr.
      destruct (urlcat_run_facts self st Hfresh Hbase Hr) as (_ & _ & Hlog & Hnd & _ & Hrec).
      split; [done |]. split; [done |]. intros r Hin. by apply Hrec.
    + intros fuel data Hd. apply urlcat_crawl_result in Hd as (st & Hr & _ & <-).
      by destruct (urlcat_run_facts self st Hfresh Hbase Hr) as (_ & _ & _ & Hnd & _).
  - split; [| split; [by apply gsc_crawl_returns |]].
    + intros st Hr.
      destruct (gsc_run_facts self st Hfresh Hbase Hr) as (_ & _ & Hlog & Hnd & _ & Hrec).
      split; [done |]. split; [done |]. intros r Hin. by apply Hrec.
    + intros fuel data Hd. apply gsc_crawl_result in Hd as (st & Hr & _ & <-).
      by destruct (gsc_run_facts self st Hfresh Hbase Hr) as (_ & _ & _ & Hnd & _).
Qed.

(** C10. In a run of either file on a fresh analyzer every record of the
    result, at every state and in the list returned, has status
    [success] and carries its category, hierarchy and keywords; a turn
    whose fetch or extraction failed marks the URL visited and leaves the
    result as it was. *)
Theorem crawl_keeps_successes_only :
  (forall self : URLCat.WebsiteAnalyzer,
      URLCat.analyzer_site_data self = [] ->
      parses (URLCat.base_url self) ->
      (forall st r,
          reaches (URLCat.crawl_step self) (URLCat.crawl_start self) st ->
          r ∈ site_data st ->
          status r = "success" /\ is_Some (category r) /\
          is_Some (hierarchy r) /\ is_Some (keywords r)) /\
      (forall fuel data r,
          URLCat.crawl_website fuel self = Some (Ok data) -> r ∈ data ->
          status r = "success" /\ is_Some (category r) /\
          is_Some (hierarchy r) /\ is_Some (keywords r)) /\
      (forall st u rest,
          to_crawl st = u :: rest ->
          (Z.of_nat (size (crawled st)) < URLCat.max_pages self)%Z ->
          u ∉ crawled st ->
          status (URLCat.extract_page_content self u) <> "success" ->
          URLCat.crawl_step self st =
            Some (Ok {| to_crawl := rest; crawled := crawled st ∪ {[u]};
                        site_data := site_data st;
                        fetch_log := fetch_log st ++ [u] |}))) /\
  (forall self : URLCat_GSC.WebsiteAnalyzer,
      URLCat_GSC.analyzer_site_data self = [] ->
      parses (URLCat_GSC.base_url self) ->
      (forall st r,
          reaches (URLCat_GSC.crawl_step self) (URLCat_GSC.crawl_start self) st ->
          r ∈ site_data st ->
          status r = "success" /\ is_Some (category r) /\
          is_Some (hierarchy r) /\ is_Some (keywords r)) /\
      (forall fuel data r,
          URLCat_GSC.crawl fuel self = Some (Ok data) -> r ∈ data ->
          status r = "success" /\ is_Some (category r) /\
          is_Some (hierarchy r) /\ is_Some (keywords r)) /\
      (forall st u rest,
          to_crawl st = u :: rest ->
          (Z.of_nat (size (crawled st)) < URLCat_GSC.max_pages self)%Z ->
          u ∉ crawled st ->
          status (URLCat_GSC.extract_page_content self u) <> "success" ->
          URLCat_GSC.crawl_step self st =
            Some (Ok {| to_crawl := rest; crawled := crawled st ∪ {[u]};
                        site_data := site_data st;
                        fetch_log := fetch_log st ++ [u] |}))).
Proof.
  split; intros self Hfresh Hbase.
  - assert (Hstates : forall st r,
               reaches (URLCat.crawl_step self) (URLCat.crawl_start self) st ->
               r ∈ site_data st ->
               status r = "success" /\ is_Some (category r) /\
               is_Some (hierarchy r) /\ is_Some (keywords r)).
    { intros st r Hr Hin.
      destruct (urlcat_run_facts self st Hfresh Hbase Hr) as (_ & _ & _ & _ & _ & Hrec).
      by destruct (Hrec r Hin) as (_ & Hrest). }
    split; [done |]. split.
    + intros fuel data r Hd Hin. apply urlcat_crawl_result in Hd as (st & Hr & _ & <-).
      by apply (Hstates st).
    + intros st u rest. apply urlcat_step_failure.
  - assert (Hstates : forall st r,
               reaches (URLCat_GSC.crawl_step self) (URLCat_GSC.crawl_start self) st ->
               r ∈ site_data st ->
               status r = "success" /\ is_Some (category r) /\
               is_Some (hierarchy r) /\ is_Some (keywords r)).
    { intros st r Hr Hin.
      destruct (gsc_run_facts self st Hfresh Hbase Hr) as (_ & _ & _ & _ & _ & Hrec).
      by destruct (Hrec r Hin) as (_ & Hrest). }
    split; [done |]. split.
    + intros fuel data r Hd Hin. apply gsc_crawl_result in Hd as (st & Hr & _ & <-).
      by apply (Hstates st).
    + intros st u rest. apply gsc_step_failure.
Qed.

(** C1. The list that either crawl returns on a fresh analyzer holds no
    error record: every record has status [success].  The taxonomy of
    that list exists and counts every one of its records: the category,
    depth and file-type counts each sum to the number of records, the
    count of a category is the number of records of that category, and
    the topics are the 10 most common keywords of all records.  The
    aggregators test no status: a list with a record that lacks the
    category (as an error record does) ends in the [KeyError] of that
    key. *)
Theorem taxonomy_counts_the_result_set :
  (forall self : URLCat.WebsiteAnalyzer,
      URLCat.analyzer_site_data self = [] ->
      parses (URLCat.base_url self) ->
      forall fuel data,
        URLCat.crawl_website fuel self = Some (Ok data) ->
        (forall r, r ∈ data -> status r = "success") /\
        exists tax,
          URLCat.create_taxonomy_data data = Ok tax /\
          total (URLCat.tax_categories tax) = List.length data /\
          total (URLCat.hierarchy_levels tax) = List.length data /\
          total (URLCat.file_types tax) = List.length data /\
          (forall c, count_of (URLCat.tax_categories tax) c =
                     occurrences (Some c) (List.map category data)) /\
          URLCat.topics tax =
            Py.most_common 10
              (Py.counter
                 (List.flat_map (fun r => List.map fst (default [] (keywords r))) data))) /\
  (forall self : URLCat_GSC.WebsiteAnalyzer,
      URLCat_GSC.analyzer_site_data self = [] ->
      parses (URLCat_GSC.base_url self) ->
      forall fuel data,
        URLCat_GSC.crawl fuel self = Some (Ok data) ->
        (forall r, r ∈ data -> status r = "success") /\
        exists tax,
          URLCat_GSC.build_taxonomy data = Ok tax /\
          total (URLCat_GSC.tax_categories tax) = List.length data /\
          total (URLCat_GSC.tax_depth tax) = List.length data /\
          total (URLCat_GSC.file_types tax) = List.length data /\
          (forall c, count_of (URLCat_GSC.tax_categories tax) c =
                     occurrences (Some c) (List.map category data))) /\
  (forall (data : list URLCat.Page) r,
      r ∈ data -> category r = None ->
      URLCat.create_taxonomy_data data = Raise "'category'") /\
  (forall (data : list URLCat_GSC.Page) r,
      r ∈ data -> category r = None ->
      URLCat_GSC.build_taxonomy data = Raise "'category'").
Proof.
  split; [| split; [| split]].
  - intros self Hfresh Hbase fuel data Hd.
    apply urlcat_crawl_result in Hd as (st & Hr & _ & <-).
    destruct (urlcat_run_facts self st Hfresh Hbase Hr) as (_ & _ & _ & _ & _ & Hrec).
    split; [intros r Hin; by destruct (Hrec r Hin) as (_ & ? & _) |].
    apply urlcat_taxonomy_counts_all. apply Forall_forall. intros r Hin.
    by destruct (Hrec r Hin) as (_ & _ & ? & ? & ?).
  - intros self Hfresh Hbase fuel data Hd.
    apply gsc_crawl_result in Hd as (st & Hr & _ & <-).
    destruct (gsc_run_facts self st Hfresh Hbase Hr) as (_ & _ & _ & _ & _ & Hrec).
    split; [intros r Hin; by destruct (Hrec r Hin) as (_ & ? & _) |].
    apply gsc_taxonomy_counts_all. apply Forall_forall. intros r Hin.
    by destruct (Hrec r Hin) as (_ & _ & ? & ? & ?).
  - intros data r Hin Hnone. unfold URLCat.create_taxonomy_data.
    by rewrite (mapM_getitem_raise "category" category data r Hin Hnone).
  - intros data r Hin Hnone. unfold URLCat_GSC.build_taxonomy.
    by rewrite (mapM_getitem_raise "category" category data r Hin Hnone).
Qed.

End Runs.

(** ** Concrete runs *)

(** C1, where it fails as stated: the crawl of [src/URLCat.py] from the
    about page of the small site fetches that page and the missing page
    it links to.  The fetch of the missing page gives an error record,
    and the list returned holds one record, the one of the about page:
    the raw result count is 1, not 2.  Put back into the list, the error
    record makes [create_taxonomy_data] end in a [KeyError]. *)
Lemma crawl_drops_error_records :
  exists st,
    while_loop (URLCat.crawl_step (Demo.analyzer Demo.about 5)) 10
      (URLCat.crawl_start (Demo.analyzer Demo.about 5)) = Some (Ok st) /\
    URLCat.crawl_website 10 (Demo.analyzer Demo.about 5) = Some (Ok (site_data st)) /\
    fetch_log st = ["https://a.com/about"; "https://a.com/missing"] /\
    status (URLCat.extract_page_content (Demo.analyzer Demo.about 5) Demo.missing) =
      "error: 404 Client Error: Not Found for url: https://a.com/missing" /\
    List.map url (site_data st) = ["https://a.com/about"] /\
    List.length (site_data st) = 1 /\
    URLCat.create_taxonomy_data
      (site_data st ++ [URLCat.extract_page_content (Demo.analyzer Demo.about 5) Demo.missing])
      = Raise "'category'" /\
    (exists tax, URLCat.create_taxonomy_data (site_data st) = Ok tax /\
                 URLCat.tax_categories tax = [("about", 1)]).
Proof.
  eexists. split; [by vm_compute |]. split; [by vm_compute |].
  split; [by vm_compute |]. split; [by vm_compute |]. split; [by vm_compute |].
  split; [by vm_compute |]. split; [by vm_compute |].
  eexists. split; by vm_compute.
Qed.

(** C9, where it fails as stated: for ["cat cat dog dog dog bird"] the
    keywords are [("bird", 1)] alone; [dog] has 3 letters, as [cat] has,
    and is no keyword. *)
Lemma keywords_drop_three_letter_words :
  URLCat.page_keywords "cat cat dog dog dog bird" = [("bird", 1)] /\
  top_keywords (blob_words "cat cat dog dog dog bird") = [("bird", 1)] /\
  head (URLCat.page_keywords "cat cat dog dog dog bird") <> Some ("dog", 3) /\
  Py.len "dog" = 3 /\ (3 <? Py.len "dog") = false.
Proof. repeat split; by vm_compute. Qed.

(** X25 at work in [src/URLCat.py] on a page titled "Blog about us":
    [blog] and [about] both score 1, and the answer is [blog], the earlier
    of the two; and [store], which occurs in ["our store"], adds 1 to the
    score of the keywords after it. *)
Lemma classify_content_rule_witness :
  classification_rule URLCat.categories
    (URLCat.classify_text (Demo.titled "Blog about us"))
    (URLCat.classify_content (Demo.titled "Blog about us")) /\
  URLCat.scores (URLCat.classify_text (Demo.titled "Blog about us")) =
    [("product", 0); ("blog", 1); ("about", 1); ("contact", 0); ("service", 0);
     ("help", 0); ("legal", 0)] /\
  URLCat.classify_content (Demo.titled "Blog about us") = "blog" /\
  substring_of "store" "our store" /\
  score ["store"; "price"; "cart"] "our store" = S (score ["price"; "cart"] "our store").
Proof.
  assert (Hs : substring_of "store" "our store") by (by exists "our ", EmptyString).
  split.
  { exact (proj2 (proj1 (proj2 classify_content_rule) (Demo.titled "Blog about us"))). }
  split; [vm_compute; reflexivity |]. split; [vm_compute; reflexivity |].
  split; [exact Hs |].
  exact (proj1 (proj2 (proj2 (proj2 (proj2 classify_content_rule))))
           "store" ["price"; "cart"] "our store" Hs).
Defined.

(** C3 at work on ["https://a.com/x/y/z.html"]. *)
Lemma hierarchy_of_examples_witness :
  exists h parsed,
    URLCat.analyze_url_hierarchy "https://a.com/x/y/z.html" = Ok h /\
    Urllib.urlparse "https://a.com/x/y/z.html" = Ok parsed /\
    URLCat.path_parts h = List.filter Py.truthy (Py.split_on "/" (Urllib.path parsed)) /\
    URLCat.depth h = List.length (URLCat.path_parts h).
Proof.
  assert (Hh : URLCat.analyze_url_hierarchy "https://a.com/x/y/z.html" =
               Ok {| URLCat.depth := 3; URLCat.path_parts := ["x"; "y"; "z.html"];
                     URLCat.has_query := false; URLCat.file_extension := Some "html" |})
    by (vm_compute; reflexivity).
  destruct (proj1 (proj2 (proj2 (proj2 (proj2 hierarchy_of_examples)))) _ _ Hh)
    as (parsed & Hp & Hparts & Hdepth).
  eexists; exists parsed. split; [exact Hh |]. split; [exact Hp |].
  split; [exact Hparts | exact Hdepth].
Defined.

(** C9 at work on the tokens [bird], [Idea], [idea], [cat]. *)
Lemma top_keywords_spec_witness :
  ("idea", 2) ∈ top_keywords ["bird"; "Idea"; "idea"; "cat"] /\
  2 = occurrences "idea" ["bird"; "idea"; "idea"] /\
  before ("idea", 2) ("bird", 1) (top_keywords ["bird"; "Idea"; "idea"; "cat"]) /\
  1 <= 2.
Proof.
  assert (Hin : ("idea", 2) ∈ top_keywords ["bird"; "Idea"; "idea"; "cat"])
    by (vm_compute; left).
  assert (Hb : before ("idea", 2) ("bird", 1)
                 (top_keywords ["bird"; "Idea"; "idea"; "cat"]))
    by (by exists [], [], []).
  destruct (top_keywords_spec ["bird"; "Idea"; "idea"; "cat"])
    as (_ & _ & Hcount & Hord & _).
  split; [exact Hin |]. split; [exact (proj1 (Hcount "idea" 2 Hin)) |].
  split; [exact Hb |]. exact (proj1 (Hord _ _ Hb)).
Defined.

(** The seeds of the small site parse. *)
Lemma demo_home_parses : parses (URLCat.base_url (Demo.analyzer Demo.home 5)).
Proof.
  assert (Hinit : URLCat.init Demo.home 5 = Ok (Demo.analyzer Demo.home 5))
    by (vm_compute; reflexivity).
  by apply urlcat_init_ready in Hinit as (_ & _ & _ & Hp).
Defined.

Lemma demo_home_gsc_parses : parses (URLCat_GSC.base_url (Demo.analyzer_gsc Demo.home 5)).
Proof.
  assert (Hinit : URLCat_GSC.init Demo.home 5 = Ok (Demo.analyzer_gsc Demo.home 5))
    by (vm_compute; reflexivity).
  by apply gsc_init_ready in Hinit as (_ & _ & _ & Hp).
Defined.

(** C7 at work on the small site, with a budget of 5. *)
Lemma crawl_budget_respected_witness :
  (0 <= URLCat.max_pages (Demo.analyzer Demo.home 5))%Z /\
  URLCat.analyzer_site_data (Demo.analyzer Demo.home 5) = [] /\
  parses (URLCat.base_url (Demo.analyzer Demo.home 5)) /\
  (exists fuel data, URLCat.crawl_website fuel (Demo.analyzer Demo.home 5) = Some (Ok data)) /\
  (forall fuel data,
      URLCat.crawl_website fuel (Demo.analyzer Demo.home 5) = Some (Ok data) ->
      (Z.of_nat (List.length data) <= 5)%Z) /\
  (0 <= URLCat_GSC.max_pages (Demo.analyzer_gsc Demo.home 5))%Z /\
  URLCat_GSC.analyzer_site_data (Demo.analyzer_gsc Demo.home 5) = [] /\
  parses (URLCat_GSC.base_url (Demo.analyzer_gsc Demo.home 5)) /\
  (forall fuel data,
      URLCat_GSC.crawl fuel (Demo.analyzer_gsc Demo.home 5) = Some (Ok data) ->
      (Z.of_nat (List.length data) <= 5)%Z).
Proof.
  assert (Hb : (0 <= 5)%Z) by (intros Hc; discriminate Hc).
  destruct (proj1 (crawl_budget_respected (H := Demo.world))
              (Demo.analyzer Demo.home 5) Hb eq_refl demo_home_parses)
    as (_ & Hret & Hlen).
  destruct (proj2 (crawl_budget_respected (H := Demo.world))
              (Demo.analyzer_gsc Demo.home 5) Hb eq_refl demo_home_gsc_parses)
    as (_ & _ & Hlen').
  split; [exact Hb |]. split; [reflexivity |]. split; [exact demo_home_parses |].
  split; [exact Hret |]. split; [exact Hlen |].
  split; [exact Hb |]. split; [reflexivity |]. split; [exact demo_home_gsc_parses |].
  exact Hlen'.
Defined.

(** C8 at work on the small site. *)
Lemma crawl_no_duplicate_fetch_witness :
  URLCat.analyzer_site_data (Demo.analyzer Demo.home 5) = [] /\
  parses (URLCat.base_url (Demo.analyzer Demo.home 5)) /\
  (forall fuel data,
      URLCat.crawl_website fuel (Demo.analyzer Demo.home 5) = Some (Ok data) ->
      NoDup (List.map url data)) /\
  URLCat_GSC.analyzer_site_data (Demo.analyzer_gsc Demo.home 5) = [] /\
  parses (URLCat_GSC.base_url (Demo.analyzer_gsc Demo.home 5)) /\
  (forall fuel data,
      URLCat_GSC.crawl fuel (Demo.analyzer_gsc Demo.home 5) = Some (Ok data) ->
      NoDup (List.map url data)).
Proof.
  destruct (proj1 (crawl_no_duplicate_fetch (H := Demo.world))
              (Demo.analyzer Demo.home 5) eq_refl demo_home_parses)
    as (_ & _ & Hnd).
  destruct (proj2 (crawl_no_duplicate_fetch (H := Demo.world))
              (Demo.analyzer_gsc Demo.home 5) eq_refl demo_home_gsc_parses)
    as (_ & _ & Hnd').
  split; [reflexivity |]. split; [exact demo_home_parses |]. split; [exact Hnd |].
  split; [reflexivity |]. split; [exact demo_home_gsc_parses |]. exact Hnd'.
Defined.

(** C10 at work on the small site. *)
Lemma crawl_keeps_successes_only_witness :
  URLCat.analyzer_site_data (Demo.analyzer Demo.home 5) = [] /\
  parses (URLCat.base_url (Demo.analyzer Demo.home 5)) /\
  (forall fuel data r,
      URLCat.crawl_website fuel (Demo.analyzer Demo.home 5) = Some (Ok data) ->
      r ∈ data ->
      status r = "success" /\ is_Some (category r) /\
      is_Some (hierarchy r) /\ is_Some (keywords r)) /\
  URLCat_GSC.analyzer_site_data (Demo.analyzer_gsc Demo.home 5) = [] /\
  parses (URLCat_GSC.base_url (Demo.analyzer_gsc Demo.home 5)) /\
  (forall fuel data r,
      URLCat_GSC.crawl fuel (Demo.analyzer_gsc Demo.home 5) = Some (Ok data) ->
      r ∈ data ->
      status r = "success" /\ is_Some (category r) /\
      is_Some (hierarchy r) /\ is_Some (keywords r)).
Proof.
  destruct (proj1 (crawl_keeps_successes_only (H := Demo.world))
              (Demo.analyzer Demo.home 5) eq_refl demo_home_parses)
    as (_ & Hs & _).
  destruct (proj2 (crawl_keeps_successes_only (H := Demo.world))
              (Demo.analyzer_gsc Demo.home 5) eq_refl demo_home_gsc_parses)
    as (_ & Hs' & _).
  split; [reflexivity |]. split; [exact demo_home_parses |]. split; [exact Hs |].
  split; [reflexivity |]. split; [exact demo_home_gsc_parses |]. exact Hs'.
Defined.

(** C1 at work on the small site. *)
Lemma taxonomy_counts_the_result_set_witness :
  URLCat.analyzer_site_data (Demo.analyzer Demo.home 5) = [] /\
  parses (URLCat.base_url (Demo.analyzer Demo.home 5)) /\
  (exists data,
      URLCat.crawl_website 10 (Demo.analyzer Demo.home 5) = Some (Ok data) /\
      (forall r, r ∈ data -> status r = "success") /\
      exists tax,
        URLCat.create_taxonomy_data data = Ok tax /\
        total (URLCat.tax_categories tax) = List.length data).
Proof.
  split; [reflexivity |]. split; [exact demo_home_parses |].
  destruct (URLCat.crawl_website 10 (Demo.analyzer Demo.home 5))
    as [[data | msg] |] eqn:Hd;
    [| exfalso; vm_compute in Hd; discriminate Hd
     | exfalso; vm_compute in Hd; discriminate Hd].
  destruct (proj1 (taxonomy_counts_the_result_set (H := Demo.world))
              (Demo.analyzer Demo.home 5) eq_refl demo_home_parses 10 data Hd)
    as (Hs & tax & Ht & Hc & _).
  exists data. split; [reflexivity |]. split; [exact Hs |].
  exists tax. split; [exact Ht | exact Hc].
Defined.

(** ** The model on small inputs *)

Example urlparse_absolute :
  Urllib.urlparse "HTTPS://a.com/x/y;p?q=1#top" =
    Ok {| Urllib.scheme := "https"; Urllib.netloc := "a.com"; Urllib.path := "/x/y";
          Urllib.params := "p"; Urllib.query := "q=1"; Urllib.fragment := "top" |}.
Proof. by vm_compute. Qed.

Example urlparse_unbalanced_bracket :
  Urllib.urlparse "http://[::1/x" = Raise "Invalid IPv6 URL" /\
  URLCat.is_valid_url (Demo.analyzer Demo.home 5) "http://[::1/x" = false /\
  URLCat_GSC.is_valid_url (Demo.analyzer_gsc Demo.home 5) "http://[::1/x" = false.
Proof. repeat split; by vm_compute. Qed.

Example split_collapses_blanks :
  Py.join " " (Py.split "  cat   dog bird ") = "cat dog bird".
Proof. by vm_compute. Qed.

Example most_common_breaks_ties_by_first_occurrence :
  Py.most_common 2 (Py.counter ["a"; "b"; "b"; "c"; "c"; "a"; "d"]) = [("a", 2); ("b", 2)].
Proof. by vm_compute. Qed.

Example classify_tie_goes_to_the_first_category :
  score ["service"; "solution"; "consulting"; "support"; "what we do"; "offerings"]
    "customer support" = 1 /\
  score ["help"; "faq"; "support"; "documentation"; "guide"; "tutorial"; "how to"]
    "customer support" = 1 /\
  URLCat.classify_content (Demo.titled "Customer Support") = "service".
Proof. repeat split; by vm_compute. Qed.

Example crawl_of_the_small_site :
  option_map
    (fun r => match r with
              | Ok data => Ok (List.map (fun p => (url p, category p)) data)
              | Raise msg => Raise msg
              end)
    (URLCat.crawl_website 10 (Demo.analyzer Demo.home 5)) =
    Some (Ok [("https://a.com/", Some "product");
              ("https://a.com/about#team", Some "about")]) /\
  option_map
    (fun r => match r with
              | Ok data => Ok (List.map (fun p => (url p, category p)) data)
              | Raise msg => Raise msg
              end)
    (URLCat_GSC.crawl 10 (Demo.analyzer_gsc Demo.home 5)) =
    Some (Ok [("https://a.com", Some "about"); ("https://a.com/about", Some "about")]).
Proof. split; by vm_compute. Qed.

(** * Further properties of the code *)

(** ** Blanks and words *)

Lemma rstrip_cons (c : ascii) (s : string) :
  Py.rstrip (String c s) =
  match Py.rstrip s with
  | EmptyString => if Py.isspace c then EmptyString else String c EmptyString
  | r => String c r
  end.
Proof. reflexivity. Qed.

Lemma rstrip_idem (s : string) : Py.rstrip (Py.rstrip s) = Py.rstrip s.
Proof.
  induction s as [|c s IH]; [done |]. rewrite rstrip_cons.
  destruct (Py.rstrip s) as [|d r] eqn:Hr.
  - destruct (Py.isspace c) eqn:Hc; [done |]. rewrite rstrip_cons. simpl. by rewrite Hc.
  - rewrite rstrip_cons, IH. done.
Qed.

Lemma lstrip_head (s : string) :
  Py.lstrip s = EmptyString \/
  exists c t, Py.lstrip s = String c t /\ Py.isspace c = false.
Proof.
  induction s as [|c s IH]; [by left |]. cbn [Py.lstrip].
  destruct (Py.isspace c) eqn:Hc; [done |]. right. by exists c, s.
Qed.

Lemma rstrip_head (c : ascii) (t : string) :
  Py.isspace c = false -> exists t', Py.rstrip (String c t) = String c t'.
Proof.
  intros Hc. rewrite rstrip_cons. destruct (Py.rstrip t); [| by eexists].
  rewrite Hc. by eexists.
Qed.

(** A stripped string is empty or begins with a character that is no
    blank, and stripping it again changes nothing. *)
Lemma strip_spec (s : string) :
  Py.strip (Py.strip s) = Py.strip s /\
  (Py.strip s = EmptyString \/
   exists c t, Py.strip s = String c t /\ Py.isspace c = false).
Proof.
  unfold Py.strip. destruct (lstrip_head s) as [-> | (c & t & -> & Hc)].
  - split; [done | by left].
  - destruct (rstrip_head c t Hc) as [t' Ht]. rewrite Ht. split.
    + cbn [Py.lstrip]. rewrite Hc. by rewrite <- Ht, rstrip_idem.
    + right. by exists c, t'.
Qed.

Lemma string_of_rev_nonempty (c : ascii) (cur : list ascii) :
  string_of_list_ascii (rev (c :: cur)) <> EmptyString.
Proof.
  simpl. destruct (rev cur); simpl; discriminate.
Qed.

Lemma all_chars_of_list (p : ascii -> bool) (l : list ascii) :
  Py.all_chars p (string_of_list_ascii l) = true <-> Forall (fun c => p c = true) l.
Proof.
  induction l as [|c l IH]; simpl; [split; [constructor | done] |].
  rewrite andb_true_iff, IH, Forall_cons. done.
Qed.

Lemma split_go_words (s : string) (cur : list ascii) :
  Forall (fun c => negb (Py.isspace c) = true) cur ->
  Forall is_word (Py.split_ws_go cur s).
Proof.
  revert cur; induction s as [|c s IH]; intros cur Hcur; cbn [Py.split_ws_go].
  - destruct cur as [|d cur]; [constructor |]. constructor; [| constructor].
    split; [apply string_of_rev_nonempty |].
    apply all_chars_of_list. by apply Forall_rev.
  - destruct (Py.isspace c) eqn:Hc.
    + destruct cur as [|d cur]; [by apply IH |].
      constructor; [| by apply IH]. split; [apply string_of_rev_nonempty |].
      apply all_chars_of_list. by apply Forall_rev.
    + apply IH. constructor; [by rewrite Hc | done].
Qed.

(** [s.split()] gives words. *)
Lemma split_words (s : string) : Forall is_word (Py.split s).
Proof. apply split_go_words. constructor. Qed.

Lemma split_go_app (w rest : string) (cur : list ascii) :
  Py.all_chars (fun c => negb (Py.isspace c)) w = true ->
  Py.split_ws_go cur (w +:+ rest) =
  Py.split_ws_go (rev (list_ascii_of_string w) ++ cur) rest.
Proof.
  revert cur; induction w as [|c w IH]; intros cur Hw; [done |].
  simpl in Hw. apply andb_true_iff in Hw as [Hc Hw].
  change (String c w +:+ rest) with (String c (w +:+ rest)).
  cbn [Py.split_ws_go]. apply negb_true_iff in Hc. rewrite Hc.
  rewrite (IH (c :: cur) Hw). simpl. by rewrite <- app_assoc.
Qed.

Lemma split_go_word (w rest : string) :
  is_word w ->
  Py.split_ws_go [] (w +:+ rest) =
  match rest with
  | EmptyString => [w]
  | String c rest' =>
      if Py.isspace c then w :: Py.split_ws_go [] rest'
      else Py.split_ws_go (c :: rev (list_ascii_of_string w)) rest'
  end.
Proof.
  intros [Hne Hw]. rewrite split_go_app by done. rewrite app_nil_r.
  assert (Hcur : string_of_list_ascii (rev (rev (list_ascii_of_string w))) = w)
    by (rewrite rev_involutive; apply string_of_list_ascii_of_string).
  destruct (rev (list_ascii_of_string w)) as [|d cur] eqn:Hr.
  { simpl in Hcur. by subst w. }
  destruct rest as [|c rest']; cbn [Py.split_ws_go]; [by rewrite Hcur |].
  destruct (Py.isspace c); [by rewrite Hcur | done].
Qed.

(** Splitting words joined by single blanks gives the words back. *)
Lemma split_join (ws : list string) :
  Forall is_word ws -> Py.split (Py.join " " ws) = ws.
Proof.
  unfold Py.split, Py.join. induction ws as [|w ws IH]; intros Hws; [done |].
  apply Forall_cons in Hws as [Hw Hws].
  destruct ws as [|w' ws].
  - cbn [String.concat].
    replace w with (w +:+ EmptyString) at 1; [by rewrite split_go_word |].
    clear. induction w as [|a w IH]; [done |].
    change (String a (w +:+ EmptyString) = String a w). by rewrite IH.
  - cbn [String.concat].
    change (w +:+ " " +:+ String.concat " " (w' :: ws))
      with (w +:+ String " " (String.concat " " (w' :: ws))).
    rewrite split_go_word by done. change (Py.isspace " ") with true. cbn iota.
    f_equal. by apply IH.
Qed.

(** Collapsing the blanks of a text keeps its words. *)
Lemma split_collapse (s : string) :
  Py.split (Py.join " " (Py.split s)) = Py.split s.
Proof. apply split_join, split_words. Qed.

Lemma split_go_length (s : string) (cur : list ascii) :
  2 * List.length (Py.split_ws_go cur s) <=
  Py.len s + match cur with [] => 1 | _ => 2 end.
Proof.
  unfold Py.len. revert cur; induction s as [|c s IH]; intros cur; cbn [Py.split_ws_go].
  - destruct cur; simpl; lia.
  - destruct (Py.isspace c).
    + destruct cur as [|d cur].
      * specialize (IH []). simpl in *. lia.
      * specialize (IH []). simpl in *. lia.
    + specialize (IH (c :: cur)). destruct cur; simpl in *; lia.
Qed.

(** A text of [n] characters has at most [(n + 1) / 2] words. *)
Lemma split_length (s : string) : 2 * List.length (Py.split s) <= Py.len s + 1.
Proof. apply (split_go_length s []). Qed.

(** ** What extraction returns *)

Section ExtractionOutcome.
Context `{World}.

(** X1. [extract_page_content] of [src/URLCat.py] never raises and always
    returns a record of the URL it was given.  The record is a success
    exactly when the request returned a document and [urljoin] resolved
    every href of its anchors; otherwise it is the error record of the
    exception: title [Error], status [error: ] and the text of the
    exception, every other field empty or 0. *)
Theorem urlcat_extraction_outcome (self : URLCat.WebsiteAnalyzer) (u : string) :
  url (URLCat.extract_page_content self u) = u /\
  (status (URLCat.extract_page_content self u) = "success" <->
   exists response resolved,
     http_get u = Ok response /\
     mapM (urljoin u) (anchor_hrefs (Bs4.decompose ["script"; "style"] response))
       = Ok resolved) /\
  (forall msg, http_get u = Raise msg ->
               URLCat.extract_page_content self u = error_record u msg) /\
  (forall response msg,
      http_get u = Ok response ->
      mapM (urljoin u) (anchor_hrefs (Bs4.decompose ["script"; "style"] response))
        = Raise msg ->
      URLCat.extract_page_content self u = error_record u msg) /\
  (forall msg,
      URLCat.extract_page_content self u = error_record u msg ->
      title (URLCat.extract_page_content self u) = "Error" /\
      status (URLCat.extract_page_content self u) = "error: " +:+ msg /\
      text_content (URLCat.extract_page_content self u) = "" /\
      word_count (URLCat.extract_page_content self u) = 0 /\
      headings (URLCat.extract_page_content self u) = [] /\
      links (URLCat.extract_page_content self u) = []).
Proof.
  split; [apply urlcat_extract_url |]. split; [| split; [| split]].
  - split.
    + intros Hs. apply urlcat_extract_success in Hs.
      apply urlcat_extract_page_inv in Hs as (response & resolved & Hg & Hm & _).
      by exists response, resolved.
    + intros (response & resolved & Hg & Hm).
      unfold URLCat.extract_page_content, URLCat.extract_page.
      rewrite Hg. simpl. by rewrite Hm.
  - intros msg Hg. unfold URLCat.extract_page_content, URLCat.extract_page.
    by rewrite Hg.
  - intros response msg Hg Hm. unfold URLCat.extract_page_content, URLCat.extract_page.
    rewrite Hg. simpl. by rewrite Hm.
  - intros msg ->. by repeat split.
Qed.

(** X2. [extract_page_content] of [src/URLCat_GSC.py] is a success
    exactly when the request returned a document, the first [title] tag,
    if there is one, has a single string below it, and [urljoin] resolved
    every href.  A document whose [title] tag has no single string (an
    empty [title], or one with several children) gives the error record of
    the [AttributeError] raised by [soup.title.string.strip()], although
    the request succeeded. *)
Theorem gsc_extraction_outcome (self : URLCat_GSC.WebsiteAnalyzer) (u : string) :
  url (URLCat_GSC.extract_page_content self u) = u /\
  (status (URLCat_GSC.extract_page_content self u) = "success" <->
   exists response resolved,
     http_get u = Ok response /\
     (forall t, Bs4.find "title" (Bs4.decompose ["script"; "style"; "noscript"] response)
                  = Some t -> is_Some (Bs4.tag_string t)) /\
     mapM (urljoin u)
       (anchor_hrefs (Bs4.decompose ["script"; "style"; "noscript"] response))
       = Ok resolved) /\
  (forall msg, http_get u = Raise msg ->
               URLCat_GSC.extract_page_content self u = error_record u msg) /\
  (forall response t,
      http_get u = Ok response ->
      Bs4.find "title" (Bs4.decompose ["script"; "style"; "noscript"] response) = Some t ->
      Bs4.tag_string t = None ->
      URLCat_GSC.extract_page_content self u =
        error_record u "'NoneType' object has no attribute 'strip'").
Proof.
  split; [apply gsc_extract_url |]. split; [| split].
  - split.
    + intros Hs. apply gsc_extract_success in Hs.
      pose proof Hs as Hx.
      apply gsc_extract_page_inv in Hs as (response & resolved & Hg & Hm & _).
      exists response, resolved. split; [done |]. split; [| done].
      intros t Ht. unfold URLCat_GSC.extract_page in Hx. rewrite Hg in Hx.
      simpl in Hx. rewrite Ht in Hx.
      destruct (Bs4.tag_string t); [by eexists | discriminate].
    + intros (response & resolved & Hg & Ht & Hm).
      unfold URLCat_GSC.extract_page_content, URLCat_GSC.extract_page.
      rewrite Hg. simpl.
      destruct (Bs4.find "title" _) as [t |] eqn:Hf.
      * destruct (Ht t eq_refl) as [str ->]. simpl.
        rewrite mapM_then, Hm. done.
      * simpl. rewrite mapM_then, Hm. done.
  - intros msg Hg. unfold URLCat_GSC.extract_page_content, URLCat_GSC.extract_page.
    by rewrite Hg.
  - intros response t Hg Ht Hnone.
    unfold URLCat_GSC.extract_page_content, URLCat_GSC.extract_page.
    rewrite Hg. simpl. rewrite Ht, Hnone. done.
Qed.

(** X3. In every record that [extract_page_content] of [src/URLCat.py]
    returns, no heading is empty and every heading is stripped of
    leading and trailing blanks, and so is the title. *)
Theorem urlcat_headings_are_clean (self : URLCat.WebsiteAnalyzer) (u : string) :
  Forall (fun h => h <> EmptyString /\ Py.strip h = h /\
                   exists c t, h = String c t /\ Py.isspace c = false)
    (headings (URLCat.extract_page_content self u)) /\
  Py.strip (title (URLCat.extract_page_content self u)) =
    title (URLCat.extract_page_content self u).
Proof.
  unfold URLCat.extract_page_content, URLCat.extract_page.
  destruct (http_get u) as [response | msg]; simpl; [| by split].
  destruct (mapM (urljoin u) _) as [resolved | msg]; simpl; [| by split].
  split.
  - apply Forall_forall. intros h Hh.
    apply list_elem_of_In, filter_In in Hh as [Hh Htruthy].
    apply in_map_iff in Hh as (tag & <- & _).
    destruct (strip_spec (Bs4.get_text tag)) as [Hidem [He | (c & t & Hc & Hsp)]].
    + rewrite He in Htruthy. discriminate.
    + split; [by rewrite Hc |]. split; [done |]. by exists c, t.
  - destruct (Bs4.find "title" _) as [t |]; [| done].
    apply strip_spec.
Qed.

(** X4. The links of every record that either file extracts are without
    repetition and were all accepted by the scoper of that file; those of
    [src/URLCat_GSC.py] hold no [#]. *)
Theorem links_in_scope_and_distinct :
  (forall (self : URLCat.WebsiteAnalyzer) (u : string),
      NoDup (links (URLCat.extract_page_content self u)) /\
      Forall (fun x => URLCat.is_valid_url self x = true)
        (links (URLCat.extract_page_content self u))) /\
  (forall (self : URLCat_GSC.WebsiteAnalyzer) (u : string),
      NoDup (links (URLCat_GSC.extract_page_content self u)) /\
      Forall (fun x => URLCat_GSC.is_valid_url self x = true /\
                       Py.has_char "#" x = false)
        (links (URLCat_GSC.extract_page_content self u))).
Proof.
  split; intros self u.
  - destruct (decide (status (URLCat.extract_page_content self u) = "success")) as [Hs | Hs].
    + destruct (urlcat_links_spec self u Hs) as (_ & _ & _ & _ & (Hnd & _) & Hvalid).
      split; [done |]. by apply Forall_forall.
    + unfold URLCat.extract_page_content in *.
      destruct (URLCat.extract_page self u) as [page | msg] eqn:Hx;
        [| split; constructor].
      exfalso. apply Hs.
      by apply urlcat_extract_page_inv in Hx as (? & ? & _ & _ & _ & -> & _).
  - destruct (decide (status (URLCat_GSC.extract_page_content self u) = "success"))
      as [Hs | Hs].
    + destruct (gsc_links_spec self u Hs) as (_ & _ & _ & _ & (Hnd & _) & Hvalid).
      split; [done |]. apply Forall_forall. intros x Hx.
      destruct (Hvalid x Hx) as [Hh Hv]. by split.
    + unfold URLCat_GSC.extract_page_content in *.
      destruct (URLCat_GSC.extract_page self u) as [page | msg] eqn:Hx;
        [| split; constructor].
      exfalso. apply Hs.
      by apply gsc_extract_page_inv in Hx as (? & ? & _ & _ & _ & -> & _).
Qed.

(** X5. In a success record of [src/URLCat.py], [word_count] is the
    number of blank-separated words of the text of the document itself
    (scripts and styles removed): collapsing the blanks first changes no
    word.  The stored text is a prefix of the collapsed text, of at most
    1000 characters. *)
Theorem urlcat_word_count_is_of_the_document (self : URLCat.WebsiteAnalyzer)
    (u : string) (response : Bs4.Node) :
  http_get u = Ok response ->
  status (URLCat.extract_page_content self u) = "success" ->
  word_count (URLCat.extract_page_content self u) =
    List.length (Py.split (Bs4.get_text (Bs4.decompose ["script"; "style"] response))) /\
  Py.len (text_content (URLCat.extract_page_content self u)) <= 1000 /\
  exists rest,
    Py.join " " (Py.split (Bs4.get_text (Bs4.decompose ["script"; "style"] response))) =
    text_content (URLCat.extract_page_content self u) +:+ rest.
Proof.
  intros Hg Hs.
  destruct (urlcat_text_and_word_count self u Hs)
    as (response' & Hg' & Htext & Hlen & Hrest & Hwords).
  rewrite Hg in Hg'. injection Hg' as <-. cbv zeta in *.
  split; [by rewrite Hwords, split_collapse |]. split; [rewrite Hlen; lia | done].
Qed.

(** X6. In every record of [src/URLCat_GSC.py] the stored text has at
    most 1000 characters and [word_count], counted on the stored text, is
    at most 500. *)
Theorem gsc_word_count_is_bounded (self : URLCat_GSC.WebsiteAnalyzer) (u : string) :
  Py.len (text_content (URLCat_GSC.extract_page_content self u)) <= 1000 /\
  word_count (URLCat_GSC.extract_page_content self u) <= 500 /\
  word_count (URLCat_GSC.extract_page_content self u) =
    List.length (Py.split (text_content (URLCat_GSC.extract_page_content self u))).
Proof.
  destruct (decide (status (URLCat_GSC.extract_page_content self u) = "success"))
    as [Hs | Hs].
  - destruct (gsc_text_and_word_count self u Hs) as (response & Hg & Htext & Hwords).
    cbv zeta in *.
    assert (Hlen : Py.len (text_content (URLCat_GSC.extract_page_content self u)) <= 1000)
      by (rewrite Htext, slice_to_length; lia).
    split; [done |]. rewrite Hwords, <- Htext. split; [| done].
    pose proof (split_length (text_content (URLCat_GSC.extract_page_content self u))). lia.
  - unfold URLCat_GSC.extract_page_content in *.
    destruct (URLCat_GSC.extract_page self u) as [page | msg] eqn:Hx.
    + exfalso. apply Hs.
      by apply gsc_extract_page_inv in Hx as (? & ? & _ & _ & _ & -> & _).
    + simpl. repeat split; lia.
Qed.

End ExtractionOutcome.

(** X5 at work on the home page of the small site. *)
Lemma urlcat_word_count_is_of_the_document_witness :
  http_get Demo.home = Ok Demo.home_doc /\
  status (URLCat.extract_page_content (Demo.analyzer Demo.home 5) Demo.home) = "success" /\
  word_count (URLCat.extract_page_content (Demo.analyzer Demo.home 5) Demo.home) =
    List.length
      (Py.split (Bs4.get_text (Bs4.decompose ["script"; "style"] Demo.home_doc))).
Proof.
  assert (Hg : http_get Demo.home = Ok Demo.home_doc) by reflexivity.
  assert (Hs : status (URLCat.extract_page_content (Demo.analyzer Demo.home 5) Demo.home)
               = "success") by (vm_compute; reflexivity).
  split; [exact Hg |]. split; [exact Hs |].
  exact (proj1 (urlcat_word_count_is_of_the_document (H := Demo.world)
                  (Demo.analyzer Demo.home 5) Demo.home Demo.home_doc Hg Hs)).
Defined.

(** ** Fields of a split *)

Lemma has_char_app (c : ascii) (a b : string) :
  Py.has_char c (a +:+ b) = Py.has_char c a || Py.has_char c b.
Proof.
  induction a as [|d a IH]; [done |].
  change (String d a +:+ b) with (String d (a +:+ b)). cbn [Py.has_char].
  by rewrite IH, orb_assoc.
Qed.

Lemma split_on_cons (c b : ascii) (s : string) :
  Py.split_on c (String b s) =
  if bool_decide (b = c) then EmptyString :: Py.split_on c s
  else match Py.split_on c s with
       | f :: fs => String b f :: fs
       | [] => [String b EmptyString]
       end.
Proof. reflexivity. Qed.

Lemma split_on_nonempty (c : ascii) (s : string) :
  exists f fs, Py.split_on c s = f :: fs.
Proof.
  destruct s as [|b s]; [by eexists _, _ |]. rewrite split_on_cons.
  destruct (bool_decide (b = c)); [by eexists _, _ |].
  destruct (Py.split_on c s); by eexists _, _.
Qed.

(** No field of a split holds the separator. *)
Lemma split_on_fields (c : ascii) (s : string) :
  Forall (fun f => Py.has_char c f = false) (Py.split_on c s).
Proof.
  induction s as [|b s IH]; [by repeat constructor |]. rewrite split_on_cons.
  destruct (bool_decide (b = c)) eqn:Hb; [by constructor |].
  destruct (Py.split_on c s) as [|f fs]; [repeat constructor; simpl; by rewrite Hb |].
  apply Forall_cons in IH as [Hf Hfs]. constructor; [| done].
  simpl. by rewrite Hb, Hf.
Qed.

(** A string without the separator is the only field of its split, and
    conversely. *)
Lemma split_on_single (c : ascii) (s : string) :
  (Py.has_char c s = false -> Py.split_on c s = [s]) /\
  (forall f, Py.split_on c s = [f] -> Py.has_char c s = false).
Proof.
  induction s as [|b s [IH1 IH2]]; [by split |]. rewrite split_on_cons. cbn [Py.has_char].
  destruct (bool_decide (b = c)) eqn:Hb; simpl.
  - split; [done |]. intros f Hf. destruct (split_on_nonempty c s) as (g & gs & Hg).
    rewrite Hg in Hf. discriminate.
  - split.
    + intros Hs. by rewrite (IH1 Hs).
    + intros f Hf. destruct (split_on_nonempty c s) as (g & gs & Hg).
      rewrite Hg in Hf. destruct gs as [|g' gs]; [| discriminate].
      rewrite Hg in IH2. by apply (IH2 g).
Qed.

(** The last field of a split stands after the last separator. *)
Lemma split_on_last (c : ascii) (s : string) :
  Py.has_char c s = true ->
  exists stem,
    s = stem +:+ String c (Py.last_or "" (Py.split_on c s)) /\
    Py.has_char c (Py.last_or "" (Py.split_on c s)) = false.
Proof.
  unfold Py.last_or. induction s as [|b s IH]; [done |].
  rewrite split_on_cons. cbn [Py.has_char].
  destruct (split_on_nonempty c s) as (f & fs & Hl).
  destruct (bool_decide (b = c)) eqn:Hb; simpl.
  - intros _. apply bool_decide_eq_true in Hb as ->.
    destruct (Py.has_char c s) eqn:Hs.
    + destruct (IH eq_refl) as (stem & Hstem & Hlast).
      exists (String c stem). rewrite Hl in *. split; [| done].
      change (String c stem +:+ String c (List.last (f :: fs) ""))
        with (String c (stem +:+ String c (List.last (f :: fs) ""))).
      by rewrite <- Hstem.
    + rewrite (proj1 (split_on_single c s) Hs). exists EmptyString. by split.
  - intros Hs. destruct (IH Hs) as (stem & Hstem & Hlast). rewrite Hl in *.
    destruct fs as [|g gs].
    + exfalso. pose proof (proj2 (split_on_single c s) f Hl). congruence.
    + exists (String b stem). split; [| done].
      change (String b stem +:+ String c (List.last (String b f :: g :: gs) ""))
        with (String b (stem +:+ String c (List.last (f :: g :: gs) ""))).
      by rewrite <- Hstem.
Qed.

Lemma last_or_elem {A} (d : A) (l : list A) :
  l <> [] -> Py.last_or d l ∈ l.
Proof.
  unfold Py.last_or. induction l as [|x l IH]; [done |]. intros _.
  destruct l as [|y l]; [left |]. right. by apply IH.
Qed.

(** ** The hierarchy of a URL *)

(** X7. Whenever the analyzer of either file returns, the URL parses and
    the segments are the non-empty fields of its path split on [/]: the
    depth is their number, and no segment is empty or holds a [/]; an
    extension is what stands after the last [.] of the last segment, so it
    holds neither [.] nor [/] (and is empty when the segment ends in a
    [.]); [src/URLCat.py] gives no extension exactly when there is no
    segment or the last has no [.], and [src/URLCat_GSC.py] then gives
    [html]. *)
Theorem hierarchy_shape :
  (forall url h,
      URLCat.analyze_url_hierarchy url = Ok h ->
      exists parsed,
        Urllib.urlparse url = Ok parsed /\
        URLCat.path_parts h =
          List.filter Py.truthy (Py.split_on "/" (Urllib.path parsed)) /\
        URLCat.depth h = List.length (URLCat.path_parts h) /\
        URLCat.has_query h = Py.truthy (Urllib.query parsed) /\
        Forall (fun s => s <> EmptyString /\ Py.has_char "/" s = false)
          (URLCat.path_parts h) /\
        (forall e, URLCat.file_extension h = Some e ->
                   Py.has_char "." e = false /\ Py.has_char "/" e = false /\
                   exists stem,
                     Py.last_or "" (URLCat.path_parts h) = stem +:+ String "." e) /\
        (URLCat.file_extension h = None <->
         URLCat.path_parts h = [] \/
         Py.has_char "." (Py.last_or "" (URLCat.path_parts h)) = false)) /\
  (forall url h,
      URLCat_GSC.hierarchy_info url = Ok h ->
      exists parsed parts,
        Urllib.urlparse url = Ok parsed /\
        parts = List.filter Py.truthy (Py.split_on "/" (Urllib.path parsed)) /\
        URLCat_GSC.depth h = List.length parts /\
        Forall (fun s => s <> EmptyString /\ Py.has_char "/" s = false) parts /\
        ((parts = [] \/ Py.has_char "." (Py.last_or "" parts) = false) ->
         URLCat_GSC.file_ext h = "html") /\
        (parts <> [] -> Py.has_char "." (Py.last_or "" parts) = true ->
         Py.has_char "." (URLCat_GSC.file_ext h) = false /\
         Py.has_char "/" (URLCat_GSC.file_ext h) = false /\
         exists stem,
           Py.last_or "" parts = stem +:+ String "." (URLCat_GSC.file_ext h))).
Proof.
  assert (Hparts : forall path,
            Forall (fun s => s <> EmptyString /\ Py.has_char "/" s = false)
              (List.filter Py.truthy (Py.split_on "/" path))).
  { intros path. apply Forall_forall. intros s Hs.
    apply list_elem_of_In, filter_In in Hs as [Hs Ht]. split; [by destruct s |].
    pose proof (split_on_fields "/" path) as Hf. rewrite Forall_forall in Hf.
    by apply Hf, list_elem_of_In. }
  assert (Hext : forall path,
            let parts := List.filter Py.truthy (Py.split_on "/" path) in
            parts <> [] -> Py.has_char "." (Py.last_or "" parts) = true ->
            Py.has_char "." (Py.last_or "" (Py.split_on "." (Py.last_or "" parts))) = false /\
            Py.has_char "/" (Py.last_or "" (Py.split_on "." (Py.last_or "" parts))) = false /\
            exists stem,
              Py.last_or "" parts =
              stem +:+ String "." (Py.last_or "" (Py.split_on "." (Py.last_or "" parts)))).
  { intros path parts Hne Hdot.
    destruct (split_on_last "." _ Hdot) as (stem & Hstem & Hlast).
    split; [done |]. split; [| by exists stem].
    assert (Hslash : Py.has_char "/" (Py.last_or "" parts) = false).
    { pose proof (Hparts path) as Hf.
      rewrite Forall_forall in Hf. by apply Hf, last_or_elem. }
    rewrite Hstem, has_char_app in Hslash.
    apply orb_false_iff in Hslash as [_ Hslash]. simpl in Hslash. done. }
  split.
  - intros url h. unfold URLCat.analyze_url_hierarchy.
    destruct (Urllib.urlparse url) as [parsed | msg]; simpl; [| discriminate].
    intros Hh. injection Hh as <-. exists parsed. simpl.
    specialize (Hext (Urllib.path parsed)). cbv zeta in Hext.
    set (parts := List.filter Py.truthy (Py.split_on "/" (Urllib.path parsed))) in *.
    split; [done |]. split; [done |]. split; [done |]. split; [done |].
    split; [apply Hparts |].
    destruct (decide (parts = [])) as [He | Hne].
    + rewrite He. simpl. split; [done |]. split; [by left | done].
    + rewrite bool_decide_eq_true_2 by done. simpl.
      destruct (Py.has_char "." (Py.last_or "" parts)) eqn:Hdot.
      * split.
        -- intros e He. injection He as <-. by apply Hext.
        -- split; [done |]. intros [He | He]; [done | discriminate].
      * split; [done |]. split; [by right | done].
  - intros url h. unfold URLCat_GSC.hierarchy_info.
    destruct (Urllib.urlparse url) as [parsed | msg]; simpl; [| discriminate].
    intros Hh. injection Hh as <-. simpl.
    specialize (Hext (Urllib.path parsed)). cbv zeta in Hext.
    set (parts := List.filter Py.truthy (Py.split_on "/" (Urllib.path parsed))) in *.
    exists parsed, parts. split; [done |]. split; [done |].
    split; [done |]. split; [apply Hparts |]. split.
    + intros [He | Hdot].
      * by rewrite bool_decide_eq_false_2 by (by intros Hc).
      * rewrite Hdot. by rewrite andb_false_r.
    + intros Hne Hdot. rewrite bool_decide_eq_true_2 by done. rewrite Hdot. simpl.
      by apply Hext.
Qed.

(** X7 at work on ["https://a.com/docs/v1.2?x=1"] in both files: two
    segments, and the extension is [2]. *)
Lemma hierarchy_shape_witness :
  exists h h',
    URLCat.analyze_url_hierarchy "https://a.com/docs/v1.2?x=1" = Ok h /\
    URLCat_GSC.hierarchy_info "https://a.com/docs/v1.2?x=1" = Ok h' /\
    URLCat.path_parts h = ["docs"; "v1.2"] /\
    URLCat.depth h = 2 /\
    URLCat.has_query h = true /\
    URLCat.file_extension h = Some "2" /\
    URLCat_GSC.depth h' = 2 /\
    URLCat_GSC.file_ext h' = "2" /\
    Py.has_char "." (URLCat_GSC.file_ext h') = false.
Proof.
  assert (Hh : URLCat.analyze_url_hierarchy "https://a.com/docs/v1.2?x=1" =
               Ok {| URLCat.depth := 2; URLCat.path_parts := ["docs"; "v1.2"];
                     URLCat.has_query := true; URLCat.file_extension := Some "2" |})
    by (vm_compute; reflexivity).
  assert (Hh' : URLCat_GSC.hierarchy_info "https://a.com/docs/v1.2?x=1" =
                Ok {| URLCat_GSC.depth := 2; URLCat_GSC.file_ext := "2" |})
    by (vm_compute; reflexivity).
  assert (Hp : Urllib.urlparse "https://a.com/docs/v1.2?x=1" =
               Ok {| Urllib.scheme := "https"; Urllib.netloc := "a.com";
                     Urllib.path := "/docs/v1.2"; Urllib.params := "";
                     Urllib.query := "x=1"; Urllib.fragment := "" |})
    by (vm_compute; reflexivity).
  destruct (proj1 hierarchy_shape _ _ Hh) as (parsed & Hparsed & Hparts & Hd & Hq & _).
  destruct (proj2 hierarchy_shape _ _ Hh')
    as (parsed' & parts & Hparsed' & Hparts' & Hd' & _ & _ & Hext).
  rewrite Hp in Hparsed, Hparsed'.
  injection Hparsed as <-. injection Hparsed' as <-.
  assert (Hne : parts <> []) by (rewrite Hparts'; vm_compute; discriminate).
  assert (Hdot : Py.has_char "." (Py.last_or "" parts) = true)
    by (rewrite Hparts'; vm_compute; reflexivity).
  eexists _, _. split; [exact Hh |]. split; [exact Hh' |].
  split; [rewrite Hparts; vm_compute; reflexivity |].
  split; [rewrite Hd, Hparts; vm_compute; reflexivity |].
  split; [rewrite Hq; vm_compute; reflexivity |].
  split; [reflexivity |].
  split; [rewrite Hd', Hparts'; vm_compute; reflexivity |].
  split; [reflexivity |].
  exact (proj1 (Hext Hne Hdot)).
Defined.

(** ** The answers of the classifier *)

Lemma rule_labels (table : list (string * list string)) (text answer : string) :
  classification_rule table text answer ->
  "other" ∉ List.map fst table ->
  answer ∈ List.map fst table ++ ["other"] /\
  (answer = "other" <-> forall cat kws, (cat, kws) ∈ table -> score kws text = 0).
Proof.
  intros [[Hall ->] | (i & cat & kws & Hlook & -> & Hpos & Hmax & _)] Hother.
  - split; [apply elem_of_app; right; left | done].
  - assert (Hin : (cat, kws) ∈ table) by (by eapply list_elem_of_lookup_2).
    assert (Hcat : cat ∈ List.map fst table).
    { apply list_elem_of_In, in_map_iff. exists (cat, kws).
      split; [done | by apply list_elem_of_In]. }
    split; [apply elem_of_app; by left |]. split.
    + intros ->. done.
    + intros Hall. specialize (Hall cat kws Hin). lia.
Qed.

(** X8. The classifier of either file answers with one of its seven
    categories or with [other], and with [other] exactly when no keyword
    of its table occurs in the text of the page. *)
Theorem classify_content_labels :
  (forall page : URLCat.Page,
      URLCat.classify_content page ∈
        ["product"; "blog"; "about"; "contact"; "service"; "help"; "legal"; "other"] /\
      (URLCat.classify_content page = "other" <->
       forall cat kws, (cat, kws) ∈ URLCat.categories ->
                       forall k, k ∈ kws ->
                                 ~ substring_of k (URLCat.classify_text page))) /\
  (forall page : URLCat_GSC.Page,
      URLCat_GSC.classify_content page ∈
        ["product"; "blog"; "about"; "contact"; "service"; "help"; "legal"; "other"] /\
      (URLCat_GSC.classify_content page = "other" <->
       forall cat kws, (cat, kws) ∈ URLCat_GSC._CATEGORY_KEYWORDS ->
                       forall k, k ∈ kws ->
                                 ~ substring_of k (URLCat_GSC.classify_text page))).
Proof.
  assert (Hscore : forall kws text,
            score kws text = 0 <-> forall k, k ∈ kws -> ~ substring_of k text).
  { intros kws text. unfold score. induction kws as [|k kws IH]; simpl.
    - split; [intros _ k Hk; inversion Hk | done].
    - destruct (Py.contains k text) eqn:Hc; simpl.
      + split; [done |]. intros Hall. exfalso.
        apply (Hall k); [left | by apply contains_spec].
      + rewrite IH. split.
        * intros Hall k' Hk'. apply elem_of_cons in Hk' as [-> | Hk']; [| by apply Hall].
          intros Hsub. apply contains_spec in Hsub. congruence.
        * intros Hall k' Hk'. apply Hall. by right. }
  split; intros page.
  - assert (Hrule : classification_rule URLCat.categories
                      (URLCat.classify_text page) (URLCat.classify_content page))
      by (apply (classify_follows_rule URLCat.categories); discriminate).
    apply rule_labels in Hrule as [Hin Hother].
    2:{ intros Hc. vm_compute in Hc. repeat (apply elem_of_cons in Hc as [Hc | Hc]; [discriminate |]). inversion Hc. }
    split; [exact Hin |]. rewrite Hother. split.
    + intros Hall cat kws Hc. by apply Hscore, (Hall cat).
    + intros Hall cat kws Hc. apply Hscore. by apply (Hall cat).
  - assert (Hrule : classification_rule URLCat_GSC._CATEGORY_KEYWORDS
                      (URLCat_GSC.classify_text page) (URLCat_GSC.classify_content page))
      by (apply (classify_follows_rule URLCat_GSC._CATEGORY_KEYWORDS); discriminate).
    apply rule_labels in Hrule as [Hin Hother].
    2:{ intros Hc. vm_compute in Hc. repeat (apply elem_of_cons in Hc as [Hc | Hc]; [discriminate |]). inversion Hc. }
    split; [exact Hin |]. rewrite Hother. split.
    + intros Hall cat kws Hc. by apply Hscore, (Hall cat).
    + intros Hall cat kws Hc. apply Hscore. by apply (Hall cat).
Qed.

(** ** The turns of a crawl in full *)

Section CrawlRun.
Context {H : Type}.
Variables (budget : Z) (bounded : bool).
Variable extract : string -> PageRecord H.
Variable record_of : string -> PageRecord H -> Prop.
Variable seed : string.

Lemma crawl_run_inv_start :
  crawl_run_inv budget bounded extract record_of seed
    {| to_crawl := [seed]; crawled := ∅; site_data := []; fetch_log := [] |}.
Proof.
  unfold crawl_run_inv. cbn [to_crawl crawled site_data fetch_log].
  split; [apply NoDup_singleton |].
  split; [intros x _ Hx; by apply elem_of_empty in Hx |].
  split; [intros x; split; intros Hx; [inversion Hx | by apply elem_of_empty in Hx] |].
  split; [by rewrite size_empty |].
  split; [constructor |].
  split; [intros x Hx; left; rewrite app_nil_r in Hx; by apply list_elem_of_singleton in Hx |].
  split; [by left |].
  split; [left; intros r x Hr; inversion Hr |].
  split; [intros _; rewrite size_empty; simpl; lia |].
  split; [done |]. rewrite size_empty. lia.
Qed.

Lemma crawl_run_inv_keep (st st' : CrawlState H) :
  crawl_run_inv budget bounded extract record_of seed st ->
  crawl_turn budget bounded extract record_of st st' ->
  crawl_run_inv budget bounded extract record_of seed st'.
Proof.
  intros (Hnd & Hdisj & Hlog & Hlen & Hres & Hprov & Hhead & Hclos & Hbound & Hfail & Hmax)
    Hturn.
  assert (Hcommon : forall u rest,
            to_crawl st = u :: rest ->
            (u ∉ crawled st) /\ (u ∉ rest) /\ NoDup rest /\
            size (crawled st ∪ {[u]}) = S (size (crawled st)) /\
            (forall x, x ∈ rest -> x ∉ crawled st ∪ {[u]}) /\
            (forall x, x ∈ fetch_log st ++ [u] <-> x ∈ crawled st ∪ {[u]}) /\
            ((fetch_log st ++ [u] = [] /\ False) \/
             exists tl, fetch_log st ++ [u] = seed :: tl)).
  { intros u rest Hq. rewrite Hq in Hnd, Hdisj, Hhead.
    apply NoDup_cons in Hnd as [Hu Hrest].
    assert (Hout : u ∉ crawled st) by (apply Hdisj; left).
    split; [done |]. split; [done |]. split; [done |].
    split; [by apply size_visit |]. split; [| split].
    - intros x Hx Hin. apply elem_of_union in Hin as [Hin | Hin].
      + apply (Hdisj x); [by right | done].
      + apply elem_of_singleton in Hin. by subst x.
    - intros x. rewrite elem_of_app, elem_of_union, list_elem_of_singleton,
        elem_of_singleton, Hlog. tauto.
    - right. destruct Hhead as [(Hl & Hs & _) | [tl Hl]].
      + injection Hs as -> _. rewrite Hl. by exists [].
      + rewrite Hl. by exists (tl ++ [u]). }
  inversion Hturn as [st0 u rest Hq Hguard Hs | st0 u rest r new Hq Hguard Hs Hrec Hlinks
                                                   Hnew Hnewin Hcomp Hroom]; subst st0.
  - destruct (Hcommon u rest Hq) as (Hout & Hu & Hrest & Hsize & Hd & Hl & Hh).
    unfold crawl_run_inv. cbn [to_crawl crawled site_data fetch_log].
    split; [done |]. split; [done |]. split; [done |].
    split; [rewrite length_app, Hsize; simpl; lia |].
    split.
    { rewrite List.filter_app. simpl. unfold fetched_well at 2.
      rewrite bool_decide_eq_false_2 by done. by rewrite app_nil_r. }
    split.
    { intros x Hx. apply Hprov. rewrite Hq.
      rewrite !elem_of_app in Hx. rewrite elem_of_app, elem_of_cons.
      destruct Hx as [Hx | [Hx | Hx]]; [tauto | tauto |].
      apply list_elem_of_singleton in Hx. tauto. }
    split; [destruct Hh as [[_ []] | Hh]; by right |].
    split.
    { destruct Hclos as [Hclos | [Hb Hfull]].
      - left. intros r x Hr Hx. destruct (Hclos r x Hr Hx) as [Hc | Hc].
        + left. apply elem_of_union. by left.
        + rewrite Hq in Hc. apply elem_of_cons in Hc as [-> | Hc]; [| by right].
          left. apply elem_of_union. right. by apply elem_of_singleton.
      - right. split; [done |]. rewrite Hq in Hfull. simpl in Hfull. rewrite Hsize. lia. }
    split.
    { intros Hb. specialize (Hbound Hb). rewrite Hq in Hbound. simpl in Hbound.
      rewrite Hsize. lia. }
    split; [done |]. rewrite Hsize. lia.
  - destruct (Hcommon u rest Hq) as (Hout & Hu & Hrest & Hsize & Hd & Hl & Hh).
    unfold crawl_run_inv. cbn [to_crawl crawled site_data fetch_log].
    split.
    { apply NoDup_app. split; [done |]. split; [| done].
      intros x Hx Hx'. by apply Hnewin in Hx' as (_ & _ & Hx'). }
    split.
    { intros x Hx. apply elem_of_app in Hx as [Hx | Hx]; [by apply Hd |].
      by apply Hnewin in Hx as (_ & Hx & _). }
    split; [done |].
    split; [rewrite length_app, Hsize; simpl; lia |].
    split.
    { rewrite List.filter_app. simpl. unfold fetched_well at 2.
      rewrite bool_decide_eq_true_2 by done.
      apply Forall2_app; [done |]. by repeat constructor. }
    split.
    { intros x Hx. rewrite !elem_of_app in Hx.
      assert (Hold : x ∈ to_crawl st ++ fetch_log st ->
                     x = seed \/ exists r0, r0 ∈ site_data st ++ [r] /\ x ∈ links r0).
      { intros Hin. destruct (Hprov x Hin) as [-> | (r0 & Hr0 & Hx0)]; [by left |].
        right. exists r0. split; [apply elem_of_app; by left | done]. }
      rewrite Hq in Hold. rewrite elem_of_app, elem_of_cons in Hold.
      destruct Hx as [[Hx | Hx] | [Hx | Hx]]; [tauto | | tauto |].
      - right. exists r. split; [apply elem_of_app; right; left |].
        by apply Hnewin in Hx as (Hx & _).
      - apply list_elem_of_singleton in Hx. tauto. }
    split; [destruct Hh as [[_ []] | Hh]; by right |].
    split.
    { assert (Hfull : bounded = true /\
                      (budget <= Z.of_nat (size (crawled st) + List.length (to_crawl st)))%Z ->
                      bounded = true /\
                      (budget <= Z.of_nat (size (crawled st ∪ {[u]}) +
                                           List.length (rest ++ new)))%Z).
      { intros [Hb Hfull]. split; [done |]. rewrite Hq in Hfull. simpl in Hfull.
        rewrite Hsize, length_app. lia. }
      destruct Hclos as [Hclos | Hclos]; [| right; by apply Hfull].
      destruct Hcomp as [Hcomp | Hcomp]; [| by right].
      left. intros r0 x Hr0 Hx. apply elem_of_app in Hr0 as [Hr0 | Hr0].
      - destruct (Hclos r0 x Hr0 Hx) as [Hc | Hc].
        + left. apply elem_of_union. by left.
        + rewrite Hq in Hc. apply elem_of_cons in Hc as [-> | Hc].
          * left. apply elem_of_union. right. by apply elem_of_singleton.
          * right. apply elem_of_app. by left.
      - apply list_elem_of_singleton in Hr0. subst r0. by apply Hcomp. }
    split.
    { intros Hb. specialize (Hbound Hb). rewrite Hq in Hbound. simpl in Hbound.
      destruct (Hroom Hb) as [-> | Hle]; [| lia].
      rewrite app_nil_r, Hsize. lia. }
    split; [| rewrite Hsize; lia].
    intros Hseed. exfalso. specialize (Hfail Hseed).
    assert (Huseed : u = seed).
    { destruct (Hprov u) as [-> | (r0 & Hr0 & _)]; [| done |].
      - rewrite Hq. left.
      - rewrite Hfail in Hr0. inversion Hr0. }
    subst u. done.
Qed.

(** The invariant holds of every state that a loop reaches whose turns
    are those of [crawl_turn]. *)
Lemma crawl_run_inv_reaches (step : CrawlState H -> option (result (CrawlState H)))
    (start st : CrawlState H) :
  (forall s s', NoDup (to_crawl s) -> (forall x, x ∈ to_crawl s -> x ∉ crawled s) ->
                step s = Some (Ok s') ->
                crawl_turn budget bounded extract record_of s s') ->
  crawl_run_inv budget bounded extract record_of seed start ->
  reaches step start st ->
  crawl_run_inv budget bounded extract record_of seed st.
Proof.
  intros Hstep Hstart Hr.
  apply (reaches_invariant step (crawl_run_inv budget bounded extract record_of seed)
           start st); [| done | done].
  intros s s' Hinv Hs. eapply crawl_run_inv_keep; [exact Hinv |].
  destruct Hinv as (Hnd & Hdisj & _). by apply Hstep.
Qed.

End CrawlRun.

(** A loop whose turns keep [I] and lower the measure [m] ends within
    [m] turns. *)
Lemma while_loop_bounded {St} (step : St -> option (result St))
    (I : St -> Prop) (m : St -> nat) :
  (forall st st', I st -> step st = Some (Ok st') -> I st' /\ m st' < m st) ->
  forall st, I st -> exists out, while_loop step (S (m st)) st = Some out.
Proof.
  intros Hstep st. remember (m st) as n eqn:Hn. revert st Hn.
  induction n as [n IH] using lt_wf_ind. intros st Hn Hinv.
  cbn [while_loop]. destruct (step st) as [[st' | msg] |] eqn:Hs; [| by eexists | by eexists].
  destruct (Hstep st st' Hinv Hs) as [Hinv' Hlt].
  destruct (IH (m st') ltac:(lia) st' eq_refl Hinv') as [out Hout].
  exists out. apply (while_loop_more_fuel step (S (m st')) n st' out Hout). lia.
Qed.

Lemma reaches_snoc {St} (step : St -> option (result St)) (a b c : St) :
  reaches step a b -> step b = Some (Ok c) -> reaches step a c.
Proof.
  intros Hr Hs. induction Hr as [st | st st' st'' Hstep _ IH].
  - eapply reaches_next; [exact Hs | apply reaches_here].
  - eapply reaches_next; [exact Hstep | by apply IH].
Qed.

Lemma reaches_run_turns {St} (step : St -> option (result St)) (n : nat) (st : St) :
  reaches step st (run_turns step n st).
Proof.
  revert st. induction n as [|n IH]; intros st; [apply reaches_here |].
  cbn [run_turns]. destruct (step st) as [[st' | msg] |] eqn:Hs;
    [| apply reaches_here | apply reaches_here].
  eapply reaches_next; [exact Hs | apply IH].
Qed.

(** A fetching turn visits one more URL. *)
Lemma crawl_turn_visits {H} (budget : Z) (bounded : bool)
    (extract : string -> PageRecord H) (record_of : string -> PageRecord H -> Prop)
    (st st' : CrawlState H) :
  (forall x, x ∈ to_crawl st -> x ∉ crawled st) ->
  crawl_turn budget bounded extract record_of st st' ->
  exists u rest,
    to_crawl st = u :: rest /\ (u ∉ crawled st) /\
    (Z.of_nat (size (crawled st)) < budget)%Z /\
    fetch_log st' = fetch_log st ++ [u] /\
    crawled st' = crawled st ∪ {[u]} /\
    size (crawled st') = S (size (crawled st)).
Proof.
  intros Hdisj Hturn.
  inversion Hturn as [st0 u rest Hq Hguard Hs | st0 u rest r new Hq Hguard Hs Hrec Hlinks
                                                   Hnew Hnewin Hcomp Hroom]; subst st0;
    (assert (Hout : u ∉ crawled st) by (apply Hdisj; rewrite Hq; left));
    exists u, rest; cbn [fetch_log crawled]; repeat (split; [done |]);
    by apply size_visit.
Qed.

(** ** The runs of [crawl_website] *)

Section UrlcatRun.
Context `{World} (self : URLCat.WebsiteAnalyzer).

(** What the loop over the links of a page leaves in the queue. *)
Lemma urlcat_enqueue_spec (visited : gset string) (links queue : list string) :
  exists new,
    URLCat.enqueue visited queue links = queue ++ new /\
    NoDup new /\
    (forall x, x ∈ new -> x ∈ links /\ (x ∉ visited) /\ (x ∉ queue)) /\
    (forall x, x ∈ links -> x ∈ visited \/ x ∈ queue ++ new).
Proof.
  unfold URLCat.enqueue. revert queue. induction links as [|l links IH]; intros queue.
  - exists []. simpl. rewrite app_nil_r. split; [done |]. split; [constructor |].
    split; intros x Hx; inversion Hx.
  - cbn [fold_left].
    destruct (decide ((l ∉ visited) /\ (l ∉ queue))) as [[Hv Hq] | Hno].
    + rewrite !bool_decide_eq_true_2 by done. cbn [andb].
      destruct (IH (queue ++ [l])) as (new & Heq & Hnd & Hin & Hall).
      exists (l :: new). rewrite Heq, <- app_assoc. split; [done |].
      split.
      { apply NoDup_cons. split; [| done]. intros Hl.
        apply Hin in Hl as (_ & _ & Hl). apply Hl, elem_of_app. right. left. }
      split.
      * intros x Hx. apply elem_of_cons in Hx as [-> | Hx]; [split; [left | done] |].
        apply Hin in Hx as (Hx1 & Hx2 & Hx3). split; [by right |]. split; [done |].
        intros Hc. apply Hx3, elem_of_app. by left.
      * intros x Hx. apply elem_of_cons in Hx as [-> | Hx].
        { right. apply elem_of_app. right. left. }
        destruct (Hall x Hx) as [Hc | Hc]; [by left |]. right.
        by rewrite <- app_assoc in Hc.
    + assert (Hcond : bool_decide (l ∉ visited) && bool_decide (l ∉ queue) = false).
      { apply andb_false_iff. destruct (decide (l ∉ visited)); [right | left];
          apply bool_decide_eq_false_2; tauto. }
      rewrite Hcond.
      destruct (IH queue) as (new & Heq & Hnd & Hin & Hall).
      exists new. split; [done |]. split; [done |]. split.
      * intros x Hx. apply Hin in Hx as (? & ? & ?). split; [by right | done].
      * intros x Hx. apply elem_of_cons in Hx as [-> | Hx]; [| by apply Hall].
        destruct (decide (l ∈ visited)); [by left |]. right. apply elem_of_app. left.
        destruct (decide (l ∈ queue)); [done |]. exfalso. by apply Hno.
Qed.

(** A turn of [crawl_website] from a queue of new URLs is a fetching
    turn. *)
Lemma urlcat_step_turn (st st' : CrawlState URLCat.Hierarchy) :
  NoDup (to_crawl st) ->
  (forall x, x ∈ to_crawl st -> x ∉ crawled st) ->
  URLCat.crawl_step self st = Some (Ok st') ->
  crawl_turn (URLCat.max_pages self) false (URLCat.extract_page_content self)
    (urlcat_record_of self) st st'.
Proof.
  intros Hnd Hdisj. unfold URLCat.crawl_step.
  destruct (to_crawl st) as [|u rest] eqn:Hq; [discriminate |].
  destruct (Z.ltb_spec (Z.of_nat (size (crawled st))) (URLCat.max_pages self))
    as [Hguard | Hguard]; simpl; [| discriminate].
  rewrite (bool_decide_eq_false_2 (u ∈ crawled st)) by (apply Hdisj; left).
  destruct (decide (status (URLCat.extract_page_content self u) = "success"))
    as [Hs | Hs].
  - rewrite bool_decide_eq_true_2 by done.
    destruct (URLCat.analyze_url_hierarchy u) as [h | msg] eqn:Hh; simpl; [| discriminate].
    intros Hst. injection Hst as <-.
    destruct (urlcat_enqueue_spec (crawled st ∪ {[u]})
                (links (URLCat.extract_page_content self u)) rest)
      as (new & Heq & Hnew & Hin & Hall).
    rewrite Heq.
    apply (fetch_succeeded _ _ _ _ st u rest _ new); simpl; try done.
    + unfold urlcat_record_of. simpl. split; [done |].
      split; [apply urlcat_extract_url |]. repeat (split; [done |]).
      split; [by exists h | done].
    + by left.
  - rewrite bool_decide_eq_false_2 by done. intros Hst. injection Hst as <-.
    by apply (fetch_failed _ _ _ _ st u rest).
Qed.

(** The invariant holds all along a run of a fresh analyzer. *)
Lemma urlcat_run_inv (st : CrawlState URLCat.Hierarchy) :
  URLCat.analyzer_site_data self = [] ->
  reaches (URLCat.crawl_step self) (URLCat.crawl_start self) st ->
  crawl_run_inv (URLCat.max_pages self) false (URLCat.extract_page_content self)
    (urlcat_record_of self) (URLCat.base_url self) st.
Proof.
  intros Hfresh Hr.
  apply (crawl_run_inv_reaches _ _ _ _ _ (URLCat.crawl_step self)
           (URLCat.crawl_start self) st); [| | done].
  - intros s s'. apply urlcat_step_turn.
  - unfold URLCat.crawl_start. rewrite Hfresh. apply crawl_run_inv_start.
Qed.

(** The loop body runs at most [max_pages] times. *)
Lemma urlcat_crawl_within_budget :
  URLCat.analyzer_site_data self = [] ->
  parses (URLCat.base_url self) ->
  exists data, forall fuel,
    Z.to_nat (URLCat.max_pages self) < fuel ->
    URLCat.crawl_website fuel self = Some (Ok data).
Proof.
  intros Hfresh Hbase.
  destruct (while_loop_bounded (URLCat.crawl_step self)
              (reaches (URLCat.crawl_step self) (URLCat.crawl_start self))
              (fun st => Z.to_nat (URLCat.max_pages self - Z.of_nat (size (crawled st)))))
    with (st := URLCat.crawl_start self) as [out Hw].
  { intros st st' Hr Hs. split; [by eapply reaches_snoc |].
    destruct (urlcat_run_inv st Hfresh Hr) as (Hnd & Hdisj & _).
    destruct (crawl_turn_visits _ _ _ _ st st' Hdisj (urlcat_step_turn st st' Hnd Hdisj Hs))
      as (u & rest & _ & _ & Hguard & _ & _ & Hsize).
    rewrite Hsize. lia. }
  { apply reaches_here. }
  cbn [URLCat.crawl_start crawled] in Hw. rewrite size_empty, Z.sub_0_r in Hw.
  destruct out as [st | msg].
  - exists (site_data st). intros fuel Hfuel. unfold URLCat.crawl_website.
    rewrite (while_loop_more_fuel _ _ fuel _ _ Hw) by lia. done.
  - exfalso. apply while_loop_raise in Hw as (st' & Hr & Hraise).
    apply (urlcat_step_no_raise self st' msg); [| done].
    by apply (urlcat_reaches_inv self st' Hbase Hr).
Qed.

End UrlcatRun.

(** ** The runs of [crawl] *)

Section GscRun.
Context `{World} (self : URLCat_GSC.WebsiteAnalyzer).

(** What the loop over the links of a page leaves in the queue: every
    link that is neither visited nor queued joins it, until visited and
    queued URLs together reach the budget. *)
Lemma gsc_enqueue_spec (visited : gset string) (links todo : list string) :
  exists new,
    URLCat_GSC.enqueue self visited todo links = todo ++ new /\
    NoDup new /\
    (forall x, x ∈ new -> x ∈ links /\ (x ∉ visited) /\ (x ∉ todo)) /\
    ((forall x, x ∈ links -> x ∈ visited \/ x ∈ todo ++ new) \/
     (URLCat_GSC.max_pages self <=
      Z.of_nat (size visited + List.length (todo ++ new)))%Z) /\
    (new = [] \/
     (Z.of_nat (size visited + List.length (todo ++ new)) <=
      URLCat_GSC.max_pages self)%Z).
Proof.
  unfold URLCat_GSC.enqueue. revert todo. induction links as [|l links IH]; intros todo.
  - exists []. simpl. rewrite app_nil_r. split; [done |]. split; [constructor |].
    split; [intros x Hx; inversion Hx |]. split; [left; intros x Hx; inversion Hx | by left].
  - cbn [fold_left].
    destruct (decide ((l ∉ visited) /\ (l ∉ todo) /\
                      (Z.of_nat (size visited + List.length todo)
                       < URLCat_GSC.max_pages self)%Z)) as [(Hv & Hq & Hroom) | Hno].
    + rewrite !bool_decide_eq_true_2 by done.
      rewrite (proj2 (Z.ltb_lt _ _) Hroom). cbn [andb].
      destruct (IH (todo ++ [l])) as (new & Heq & Hnd & Hin & Hall & Hle).
      exists (l :: new). rewrite Heq, <- app_assoc. split; [done |].
      split.
      { apply NoDup_cons. split; [| done]. intros Hl.
        apply Hin in Hl as (_ & _ & Hl). apply Hl, elem_of_app. right. left. }
      split.
      { intros x Hx. apply elem_of_cons in Hx as [-> | Hx]; [split; [left | done] |].
        apply Hin in Hx as (Hx1 & Hx2 & Hx3). split; [by right |]. split; [done |].
        intros Hc. apply Hx3, elem_of_app. by left. }
      rewrite <- app_assoc in Hall, Hle. simpl in Hall, Hle.
      split.
      * destruct Hall as [Hall | Hfull]; [left | by right].
        intros x Hx. apply elem_of_cons in Hx as [-> | Hx]; [| by apply Hall].
        right. apply elem_of_app. right. left.
      * right. destruct Hle as [-> | Hle]; [| done].
        rewrite length_app. simpl. lia.
    + assert (Hcond : bool_decide (l ∉ visited) && bool_decide (l ∉ todo) &&
                      (Z.of_nat (size visited + List.length todo)
                       <? URLCat_GSC.max_pages self)%Z = false).
      { destruct (decide (l ∉ visited)) as [Hv | Hv];
          [| by rewrite (bool_decide_eq_false_2 _ Hv)].
        destruct (decide (l ∉ todo)) as [Hq | Hq];
          [| rewrite (bool_decide_eq_false_2 _ Hq); by rewrite andb_false_r].
        destruct (Z.ltb_spec (Z.of_nat (size visited + List.length todo))
                    (URLCat_GSC.max_pages self)) as [Hlt | Hge];
          [exfalso; by apply Hno | by rewrite andb_false_r]. }
      rewrite Hcond.
      destruct (IH todo) as (new & Heq & Hnd & Hin & Hall & Hle).
      exists new. split; [done |]. split; [done |]. split.
      { intros x Hx. apply Hin in Hx as (? & ? & ?). split; [by right | done]. }
      split; [| done].
      destruct Hall as [Hall | Hfull]; [| by right].
      destruct (decide (l ∈ visited)) as [Hv | Hv].
      { left. intros x Hx. apply elem_of_cons in Hx as [-> | Hx]; [by left | by apply Hall]. }
      destruct (decide (l ∈ todo)) as [Hq | Hq].
      { left. intros x Hx. apply elem_of_cons in Hx as [-> | Hx]; [| by apply Hall].
        right. apply elem_of_app. by left. }
      right. rewrite length_app.
      destruct (Z.ltb_spec (Z.of_nat (size visited + List.length todo))
                  (URLCat_GSC.max_pages self)) as [Hlt | Hge]; [exfalso; by apply Hno | lia].
Qed.

(** A turn of [crawl] from a queue of new URLs is a fetching turn. *)
Lemma gsc_step_turn (st st' : CrawlState URLCat_GSC.Hierarchy) :
  NoDup (to_crawl st) ->
  (forall x, x ∈ to_crawl st -> x ∉ crawled st) ->
  URLCat_GSC.crawl_step self st = Some (Ok st') ->
  crawl_turn (URLCat_GSC.max_pages self) true (URLCat_GSC.extract_page_content self)
    (gsc_record_of self) st st'.
Proof.
  intros Hnd Hdisj. unfold URLCat_GSC.crawl_step.
  destruct (to_crawl st) as [|u rest] eqn:Hq; [discriminate |].
  destruct (Z.ltb_spec (Z.of_nat (size (crawled st))) (URLCat_GSC.max_pages self))
    as [Hguard | Hguard]; simpl; [| discriminate].
  rewrite (bool_decide_eq_false_2 (u ∈ crawled st)) by (apply Hdisj; left).
  destruct (decide (status (URLCat_GSC.extract_page_content self u) = "success"))
    as [Hs | Hs].
  - rewrite bool_decide_eq_true_2 by done.
    destruct (URLCat_GSC.hierarchy_info u) as [h | msg] eqn:Hh; simpl; [| discriminate].
    intros Hst. injection Hst as <-.
    destruct (gsc_enqueue_spec (crawled st ∪ {[u]})
                (links (URLCat_GSC.extract_page_content self u)) rest)
      as (new & Heq & Hnew & Hin & Hall & Hle).
    rewrite Heq.
    apply (fetch_succeeded _ _ _ _ st u rest _ new); simpl; try done.
    + unfold gsc_record_of. simpl. split; [done |].
      split; [apply gsc_extract_url |]. repeat (split; [done |]).
      split; [by exists h | done].
    + destruct Hall as [Hall | Hfull]; [by left | by right].
  - rewrite bool_decide_eq_false_2 by done. intros Hst. injection Hst as <-.
    by apply (fetch_failed _ _ _ _ st u rest).
Qed.

(** The invariant holds all along a run of a fresh analyzer. *)
Lemma gsc_run_inv (st : CrawlState URLCat_GSC.Hierarchy) :
  URLCat_GSC.analyzer_site_data self = [] ->
  reaches (URLCat_GSC.crawl_step self) (URLCat_GSC.crawl_start self) st ->
  crawl_run_inv (URLCat_GSC.max_pages self) true (URLCat_GSC.extract_page_content self)
    (gsc_record_of self) (URLCat_GSC.base_url self) st.
Proof.
  intros Hfresh Hr.
  apply (crawl_run_inv_reaches _ _ _ _ _ (URLCat_GSC.crawl_step self)
           (URLCat_GSC.crawl_start self) st); [| | done].
  - intros s s'. apply gsc_step_turn.
  - unfold URLCat_GSC.crawl_start. rewrite Hfresh. apply crawl_run_inv_start.
Qed.

(** The loop body runs at most [max_pages] times. *)
Lemma gsc_crawl_within_budget :
  URLCat_GSC.analyzer_site_data self = [] ->
  parses (URLCat_GSC.base_url self) ->
  exists data, forall fuel,
    Z.to_nat (URLCat_GSC.max_pages self) < fuel ->
    URLCat_GSC.crawl fuel self = Some (Ok data).
Proof.
  intros Hfresh Hbase.
  destruct (while_loop_bounded (URLCat_GSC.crawl_step self)
              (reaches (URLCat_GSC.crawl_step self) (URLCat_GSC.crawl_start self))
              (fun st => Z.to_nat (URLCat_GSC.max_pages self - Z.of_nat (size (crawled st)))))
    with (st := URLCat_GSC.crawl_start self) as [out Hw].
  { intros st st' Hr Hs. split; [by eapply reaches_snoc |].
    destruct (gsc_run_inv st Hfresh Hr) as (Hnd & Hdisj & _).
    destruct (crawl_turn_visits _ _ _ _ st st' Hdisj (gsc_step_turn st st' Hnd Hdisj Hs))
      as (u & rest & _ & _ & Hguard & _ & _ & Hsize).
    rewrite Hsize. lia. }
  { apply reaches_here. }
  cbn [URLCat_GSC.crawl_start crawled] in Hw. rewrite size_empty, Z.sub_0_r in Hw.
  destruct out as [st | msg].
  - exists (site_data st). intros fuel Hfuel. unfold URLCat_GSC.crawl.
    rewrite (while_loop_more_fuel _ _ fuel _ _ Hw) by lia. done.
  - exfalso. apply while_loop_raise in Hw as (st' & Hr & Hraise).
    apply (gsc_step_no_raise self st' msg); [| done].
    by apply (gsc_reaches_inv self st' Hbase Hr).
Qed.

End GscRun.

(** ** What the runs show *)

Lemma Forall2_urls {H} (P : PageRecord H -> string -> Prop)
    (data : list (PageRecord H)) (log : list string) :
  (forall r u, P r u -> url r = u) ->
  Forall2 P data log -> List.map url data = log.
Proof.
  intros Hurl Hall. induction Hall as [|r u data log Hr _ IH]; [done |].
  simpl. by rewrite (Hurl r u Hr), IH.
Qed.

Lemma Forall2_elem_l {A B} (P : A -> B -> Prop) (l : list A) (k : list B) (x : A) :
  Forall2 P l k -> x ∈ l -> exists y, y ∈ k /\ P x y.
Proof.
  intros Hall Hx. induction Hall as [|a b l k Hab _ IH]; [inversion Hx |].
  apply elem_of_cons in Hx as [-> | Hx].
  - exists b. split; [left | done].
  - destruct (IH Hx) as (y & Hy & Hxy). exists y. split; [by right | done].
Qed.

Section RunProperties.
Context `{World}.

Lemma urlcat_links_valid (self : URLCat.WebsiteAnalyzer) (u x : string) :
  x ∈ links (URLCat.extract_page_content self u) -> URLCat.is_valid_url self x = true.
Proof.
  destruct (decide (status (URLCat.extract_page_content self u) = "success")) as [Hs | Hs].
  - destruct (urlcat_links_spec self u Hs) as (_ & _ & _ & _ & _ & Hvalid). apply Hvalid.
  - unfold URLCat.extract_page_content in *.
    destruct (URLCat.extract_page self u) as [page | msg] eqn:Hx;
      [| intros Hin; inversion Hin].
    exfalso. apply Hs.
    by apply urlcat_extract_page_inv in Hx as (? & ? & _ & _ & _ & -> & _).
Qed.

Lemma gsc_links_valid (self : URLCat_GSC.WebsiteAnalyzer) (u x : string) :
  x ∈ links (URLCat_GSC.extract_page_content self u) ->
  Py.has_char "#" x = false /\ URLCat_GSC.is_valid_url self x = true.
Proof.
  destruct (decide (status (URLCat_GSC.extract_page_content self u) = "success"))
    as [Hs | Hs].
  - destruct (gsc_links_spec self u Hs) as (_ & _ & _ & _ & _ & Hvalid). apply Hvalid.
  - unfold URLCat_GSC.extract_page_content in *.
    destruct (URLCat_GSC.extract_page self u) as [page | msg] eqn:Hx;
      [| intros Hin; inversion Hin].
    exfalso. apply Hs.
    by apply gsc_extract_page_inv in Hx as (? & ? & _ & _ & _ & -> & _).
Qed.

(** The records of a run, against the log of its fetches. *)
Lemma urlcat_run_records (self : URLCat.WebsiteAnalyzer)
    (st : CrawlState URLCat.Hierarchy) :
  URLCat.analyzer_site_data self = [] ->
  reaches (URLCat.crawl_step self) (URLCat.crawl_start self) st ->
  Forall2 (fun r u => urlcat_record_of self u r) (site_data st)
    (List.filter (fetched_well (URLCat.extract_page_content self)) (fetch_log st)).
Proof.
  intros Hfresh Hr.
  destruct (urlcat_run_inv self st Hfresh Hr) as (_ & _ & _ & _ & Hres & _).
  eapply Forall2_impl; [exact Hres |]. by intros r u [Hrec _].
Qed.

Lemma gsc_run_records (self : URLCat_GSC.WebsiteAnalyzer)
    (st : CrawlState URLCat_GSC.Hierarchy) :
  URLCat_GSC.analyzer_site_data self = [] ->
  reaches (URLCat_GSC.crawl_step self) (URLCat_GSC.crawl_start self) st ->
  Forall2 (fun r u => gsc_record_of self u r) (site_data st)
    (List.filter (fetched_well (URLCat_GSC.extract_page_content self)) (fetch_log st)).
Proof.
  intros Hfresh Hr.
  destruct (gsc_run_inv self st Hfresh Hr) as (_ & _ & _ & _ & Hres & _).
  eapply Forall2_impl; [exact Hres |]. by intros r u [Hrec _].
Qed.

(** Every record that a crawl returns is the record of its URL. *)
Lemma urlcat_returned_records (self : URLCat.WebsiteAnalyzer) (fuel : nat)
    (data : list URLCat.Page) :
  URLCat.analyzer_site_data self = [] ->
  URLCat.crawl_website fuel self = Some (Ok data) ->
  Forall (fun r => urlcat_record_of self (url r) r) data.
Proof.
  intros Hfresh Hc. apply urlcat_crawl_result in Hc as (st & Hr & _ & <-).
  apply Forall_forall. intros r Hr'.
  destruct (Forall2_elem_l _ _ _ r (urlcat_run_records self st Hfresh Hr) Hr')
    as (u & _ & Hrec).
  pose proof (proj1 (proj2 Hrec)) as Hurl. by rewrite Hurl.
Qed.

Lemma gsc_returned_records (self : URLCat_GSC.WebsiteAnalyzer) (fuel : nat)
    (data : list URLCat_GSC.Page) :
  URLCat_GSC.analyzer_site_data self = [] ->
  URLCat_GSC.crawl fuel self = Some (Ok data) ->
  Forall (fun r => gsc_record_of self (url r) r) data.
Proof.
  intros Hfresh Hc. apply gsc_crawl_result in Hc as (st & Hr & _ & <-).
  apply Forall_forall. intros r Hr'.
  destruct (Forall2_elem_l _ _ _ r (gsc_run_records self st Hfresh Hr) Hr')
    as (u & _ & Hrec).
  pose proof (proj1 (proj2 Hrec)) as Hurl. by rewrite Hurl.
Qed.

(** X9. In a run of either crawl the queue never holds a URL twice, nor
    a URL that was visited: the test [if current_url in crawled: continue]
    never succeeds, and every turn of the loop fetches the head of the
    queue. *)
Theorem crawl_queue_holds_new_urls_only :
  (forall (self : URLCat.WebsiteAnalyzer) (st : CrawlState URLCat.Hierarchy),
      URLCat.analyzer_site_data self = [] ->
      reaches (URLCat.crawl_step self) (URLCat.crawl_start self) st ->
      NoDup (to_crawl st) /\
      (forall x, x ∈ to_crawl st -> x ∉ crawled st) /\
      (forall st', URLCat.crawl_step self st = Some (Ok st') ->
                   exists u rest,
                     to_crawl st = u :: rest /\ (u ∉ crawled st) /\
                     fetch_log st' = fetch_log st ++ [u] /\
                     crawled st' = crawled st ∪ {[u]})) /\
  (forall (self : URLCat_GSC.WebsiteAnalyzer) (st : CrawlState URLCat_GSC.Hierarchy),
      URLCat_GSC.analyzer_site_data self = [] ->
      reaches (URLCat_GSC.crawl_step self) (URLCat_GSC.crawl_start self) st ->
      NoDup (to_crawl st) /\
      (forall x, x ∈ to_crawl st -> x ∉ crawled st) /\
      (forall st', URLCat_GSC.crawl_step self st = Some (Ok st') ->
                   exists u rest,
                     to_crawl st = u :: rest /\ (u ∉ crawled st) /\
                     fetch_log st' = fetch_log st ++ [u] /\
                     crawled st' = crawled st ∪ {[u]})).
Proof.
  split; intros self st Hfresh Hr.
  - destruct (urlcat_run_inv self st Hfresh Hr) as (Hnd & Hdisj & _).
    split; [done |]. split; [done |]. intros st' Hs.
    destruct (crawl_turn_visits _ _ _ _ st st' Hdisj (urlcat_step_turn self st st' Hnd Hdisj Hs))
      as (u & rest & Hq & Hout & _ & Hlog & Hc & _).
    by exists u, rest.
  - destruct (gsc_run_inv self st Hfresh Hr) as (Hnd & Hdisj & _).
    split; [done |]. split; [done |]. intros st' Hs.
    destruct (crawl_turn_visits _ _ _ _ st st' Hdisj (gsc_step_turn self st st' Hnd Hdisj Hs))
      as (u & rest & Hq & Hout & _ & Hlog & Hc & _).
    by exists u, rest.
Qed.

(** X10. All along a run of either crawl the result lists, in the order
    of the fetches, one record for each URL whose extraction was a
    success, and that record is the extracted page with the category that
    the classifier gives that page, the hierarchy of its URL and the
    keywords of its stored text.  So is every record of the list that the
    crawl returns. *)
Theorem crawl_result_in_fetch_order :
  (forall (self : URLCat.WebsiteAnalyzer) (st : CrawlState URLCat.Hierarchy),
      URLCat.analyzer_site_data self = [] ->
      reaches (URLCat.crawl_step self) (URLCat.crawl_start self) st ->
      Forall2 (fun r u => urlcat_record_of self u r) (site_data st)
        (List.filter (fetched_well (URLCat.extract_page_content self)) (fetch_log st)) /\
      List.map url (site_data st) =
        List.filter (fetched_well (URLCat.extract_page_content self)) (fetch_log st)) /\
  (forall (self : URLCat.WebsiteAnalyzer) (fuel : nat) (data : list URLCat.Page),
      URLCat.analyzer_site_data self = [] ->
      URLCat.crawl_website fuel self = Some (Ok data) ->
      Forall (fun r => urlcat_record_of self (url r) r) data) /\
  (forall (self : URLCat_GSC.WebsiteAnalyzer) (st : CrawlState URLCat_GSC.Hierarchy),
      URLCat_GSC.analyzer_site_data self = [] ->
      reaches (URLCat_GSC.crawl_step self) (URLCat_GSC.crawl_start self) st ->
      Forall2 (fun r u => gsc_record_of self u r) (site_data st)
        (List.filter (fetched_well (URLCat_GSC.extract_page_content self)) (fetch_log st)) /\
      List.map url (site_data st) =
        List.filter (fetched_well (URLCat_GSC.extract_page_content self)) (fetch_log st)) /\
  (forall (self : URLCat_GSC.WebsiteAnalyzer) (fuel : nat) (data : list URLCat_GSC.Page),
      URLCat_GSC.analyzer_site_data self = [] ->
      URLCat_GSC.crawl fuel self = Some (Ok data) ->
      Forall (fun r => gsc_record_of self (url r) r) data).
Proof.
  pose proof urlcat_run_records as Hu. pose proof gsc_run_records as Hg.
  split; [| split; [| split]].
  - intros self st Hfresh Hr. split; [by apply Hu |].
    apply (Forall2_urls _ _ _ (fun r u (Hrec : urlcat_record_of self u r) =>
                                 proj1 (proj2 Hrec)) (Hu self st Hfresh Hr)).
  - intros self fuel data. apply urlcat_returned_records.
  - intros self st Hfresh Hr. split; [by apply Hg |].
    apply (Forall2_urls _ _ _ (fun r u (Hrec : gsc_record_of self u r) =>
                                 proj1 (proj2 Hrec)) (Hg self st Hfresh Hr)).
  - intros self fuel data. apply gsc_returned_records.
Qed.

(** X11. Every URL that either crawl queues or fetches is the seed or a
    link of a record of the result so far, accepted by the scoper of the
    file; in [src/URLCat_GSC.py] such a link holds no [#]. *)
Theorem crawl_follows_links_in_scope :
  (forall (self : URLCat.WebsiteAnalyzer) (st : CrawlState URLCat.Hierarchy) (x : string),
      URLCat.analyzer_site_data self = [] ->
      reaches (URLCat.crawl_step self) (URLCat.crawl_start self) st ->
      x ∈ to_crawl st ++ fetch_log st ->
      x = URLCat.base_url self \/
      (URLCat.is_valid_url self x = true /\
       exists r, r ∈ site_data st /\ x ∈ links r)) /\
  (forall (self : URLCat_GSC.WebsiteAnalyzer) (st : CrawlState URLCat_GSC.Hierarchy)
          (x : string),
      URLCat_GSC.analyzer_site_data self = [] ->
      reaches (URLCat_GSC.crawl_step self) (URLCat_GSC.crawl_start self) st ->
      x ∈ to_crawl st ++ fetch_log st ->
      x = URLCat_GSC.base_url self \/
      (URLCat_GSC.is_valid_url self x = true /\ Py.has_char "#" x = false /\
       exists r, r ∈ site_data st /\ x ∈ links r)).
Proof.
  split; intros self st x Hfresh Hr Hx.
  - destruct (urlcat_run_inv self st Hfresh Hr) as (_ & _ & _ & _ & Hres & Hprov & _).
    destruct (Hprov x Hx) as [-> | (r & Hin & Hl)]; [by left | right].
    split; [| by exists r].
    destruct (Forall2_elem_l _ _ _ r Hres Hin) as (u & _ & _ & Hlinks).
    rewrite Hlinks in Hl. by apply urlcat_links_valid in Hl.
  - destruct (gsc_run_inv self st Hfresh Hr) as (_ & _ & _ & _ & Hres & Hprov & _).
    destruct (Hprov x Hx) as [-> | (r & Hin & Hl)]; [by left | right].
    assert (Hv : Py.has_char "#" x = false /\ URLCat_GSC.is_valid_url self x = true).
    { destruct (Forall2_elem_l _ _ _ r Hres Hin) as (u & _ & _ & Hlinks).
      rewrite Hlinks in Hl. by apply gsc_links_valid in Hl. }
    destruct Hv as [Hhash Hvalid]. split; [done |]. split; [done | by exists r].
Qed.

(** X12. When either crawl returns, it fetched at most [max(0, max_pages)]
    URLs, and either as many as [max_pages], or the queue is empty and
    every link of every record of the result was fetched: a crawl that
    stops short of its budget has followed every link in scope. *)
Theorem crawl_stops_at_budget_or_exhausts :
  (forall (self : URLCat.WebsiteAnalyzer) (fuel : nat) (data : list URLCat.Page),
      URLCat.analyzer_site_data self = [] ->
      URLCat.crawl_website fuel self = Some (Ok data) ->
      exists st,
        reaches (URLCat.crawl_step self) (URLCat.crawl_start self) st /\
        site_data st = data /\
        (Z.of_nat (List.length (fetch_log st)) <= Z.max 0 (URLCat.max_pages self))%Z /\
        ((URLCat.max_pages self <= Z.of_nat (List.length (fetch_log st)))%Z \/
         (to_crawl st = [] /\
          forall r x, r ∈ data -> x ∈ links r -> x ∈ fetch_log st))) /\
  (forall (self : URLCat_GSC.WebsiteAnalyzer) (fuel : nat) (data : list URLCat_GSC.Page),
      URLCat_GSC.analyzer_site_data self = [] ->
      URLCat_GSC.crawl fuel self = Some (Ok data) ->
      exists st,
        reaches (URLCat_GSC.crawl_step self) (URLCat_GSC.crawl_start self) st /\
        site_data st = data /\
        (Z.of_nat (List.length (fetch_log st)) <= Z.max 0 (URLCat_GSC.max_pages self))%Z /\
        ((URLCat_GSC.max_pages self <= Z.of_nat (List.length (fetch_log st)))%Z \/
         (to_crawl st = [] /\
          forall r x, r ∈ data -> x ∈ links r -> x ∈ fetch_log st))).
Proof.
  assert (Hend : forall {Hy} budget bounded extract record_of seed (st : CrawlState Hy),
             crawl_run_inv budget bounded extract record_of seed st ->
             (to_crawl st = [] \/ (budget <= Z.of_nat (size (crawled st)))%Z) ->
             (Z.of_nat (List.length (fetch_log st)) <= Z.max 0 budget)%Z /\
             ((budget <= Z.of_nat (List.length (fetch_log st)))%Z \/
              (to_crawl st = [] /\
               forall r x, r ∈ site_data st -> x ∈ links r -> x ∈ fetch_log st))).
  { intros Hy budget bounded extract record_of seed st
      (_ & _ & Hlog & Hlen & _ & _ & _ & Hclos & _ & _ & Hmax) Hstop.
    rewrite Hlen. split; [done |].
    destruct Hstop as [Hq | Hfull]; [| by left].
    destruct Hclos as [Hclos | [_ Hfull]].
    - right. split; [done |]. intros r x Hr Hx.
      destruct (Hclos r x Hr Hx) as [Hc | Hc]; [by apply Hlog |].
      rewrite Hq in Hc. inversion Hc.
    - left. rewrite Hq in Hfull. simpl in Hfull. lia. }
  split; intros self fuel data Hfresh Hc.
  - apply urlcat_crawl_result in Hc as (st & Hr & Hstop & <-).
    exists st. split; [done |]. split; [done |].
    apply (Hend _ _ _ _ _ _ st (urlcat_run_inv self st Hfresh Hr)).
    unfold URLCat.crawl_step in Hstop.
    destruct (to_crawl st) as [|u rest]; [by left | right].
    destruct (Z.ltb_spec (Z.of_nat (size (crawled st))) (URLCat.max_pages self));
      [| done].
    simpl in Hstop. destruct (bool_decide (u ∈ crawled st)); [discriminate |].
    destruct (bool_decide _); discriminate.
  - apply gsc_crawl_result in Hc as (st & Hr & Hstop & <-).
    exists st. split; [done |]. split; [done |].
    apply (Hend _ _ _ _ _ _ st (gsc_run_inv self st Hfresh Hr)).
    unfold URLCat_GSC.crawl_step in Hstop.
    destruct (to_crawl st) as [|u rest]; [by left | right].
    destruct (Z.ltb_spec (Z.of_nat (size (crawled st))) (URLCat_GSC.max_pages self));
      [| done].
    simpl in Hstop. destruct (bool_decide (u ∈ crawled st)); [discriminate |].
    destruct (bool_decide _); discriminate.
Qed.

(** X13. In [src/URLCat_GSC.py] the URLs visited and queued together never
    exceed [max(1, max_pages)], and with a budget of at least one page the
    queue is empty when [crawl] returns: no queued URL is left unfetched.
    ([src/URLCat.py] has no such test in its loop over the links.) *)
Theorem gsc_frontier_bounded :
  forall (self : URLCat_GSC.WebsiteAnalyzer) (st : CrawlState URLCat_GSC.Hierarchy),
    URLCat_GSC.analyzer_site_data self = [] ->
    reaches (URLCat_GSC.crawl_step self) (URLCat_GSC.crawl_start self) st ->
    (Z.of_nat (size (crawled st) + List.length (to_crawl st))
     <= Z.max 1 (URLCat_GSC.max_pages self))%Z /\
    (URLCat_GSC.crawl_step self st = None ->
     (1 <= URLCat_GSC.max_pages self)%Z -> to_crawl st = []).
Proof.
  intros self st Hfresh Hr.
  destruct (gsc_run_inv self st Hfresh Hr)
    as (_ & _ & _ & _ & _ & _ & _ & _ & Hbound & _).
  specialize (Hbound eq_refl). split; [done |].
  intros Hstop Hpos. unfold URLCat_GSC.crawl_step in Hstop.
  destruct (to_crawl st) as [|u rest]; [done | exfalso].
  destruct (Z.ltb_spec (Z.of_nat (size (crawled st))) (URLCat_GSC.max_pages self))
    as [Hlt | Hge].
  - simpl in Hstop. destruct (bool_decide (u ∈ crawled st)); [discriminate |].
    destruct (bool_decide _); discriminate.
  - simpl in Hbound. lia.
Qed.

(** X14. An analyzer that its constructor returned crawls to the end
    within [max_pages] turns of the loop, whatever the site answers: with
    any fuel beyond [max_pages] the crawl of either file returns a list,
    the same for every such fuel, and raises nothing. *)
Theorem crawl_ends_within_the_budget :
  (forall (base : string) (budget : Z) (self : URLCat.WebsiteAnalyzer),
      URLCat.init base budget = Ok self ->
      exists data, forall fuel,
        Z.to_nat budget < fuel -> URLCat.crawl_website fuel self = Some (Ok data)) /\
  (forall (base : string) (budget : Z) (self : URLCat_GSC.WebsiteAnalyzer),
      URLCat_GSC.init base budget = Ok self ->
      exists data, forall fuel,
        Z.to_nat budget < fuel -> URLCat_GSC.crawl fuel self = Some (Ok data)).
Proof.
  split; intros base budget self Hinit.
  - apply urlcat_init_ready in Hinit as (_ & <- & Hfresh & Hbase).
    by apply urlcat_crawl_within_budget.
  - apply gsc_init_ready in Hinit as (_ & <- & Hfresh & Hbase).
    by apply gsc_crawl_within_budget.
Qed.

(** X15. Every turn of either crawl calls the progress callback, with the
    number [current] of the fetch and a [total] such that
    [1 <= current <= total <= max_pages]: the fraction that the dashboard
    shows is above 0 and at most 1, and its guard against a [total] of 0
    is never needed. *)
Theorem progress_call_bounds :
  (forall (self : URLCat.WebsiteAnalyzer) (st st' : CrawlState URLCat.Hierarchy),
      URLCat.analyzer_site_data self = [] ->
      reaches (URLCat.crawl_step self) (URLCat.crawl_start self) st ->
      URLCat.crawl_step self st = Some (Ok st') ->
      exists current total,
        progress_call (URLCat.max_pages self) st = Some (current, total) /\
        current = S (List.length (fetch_log st)) /\
        current = List.length (fetch_log st') /\
        (Z.of_nat current <= total)%Z /\ (total <= URLCat.max_pages self)%Z) /\
  (forall (self : URLCat_GSC.WebsiteAnalyzer) (st st' : CrawlState URLCat_GSC.Hierarchy),
      URLCat_GSC.analyzer_site_data self = [] ->
      reaches (URLCat_GSC.crawl_step self) (URLCat_GSC.crawl_start self) st ->
      URLCat_GSC.crawl_step self st = Some (Ok st') ->
      exists current total,
        progress_call (URLCat_GSC.max_pages self) st = Some (current, total) /\
        current = S (List.length (fetch_log st)) /\
        current = List.length (fetch_log st') /\
        (Z.of_nat current <= total)%Z /\ (total <= URLCat_GSC.max_pages self)%Z).
Proof.
  assert (Hcall : forall {Hy} budget bounded extract record_of seed (st st' : CrawlState Hy),
             crawl_run_inv budget bounded extract record_of seed st ->
             crawl_turn budget bounded extract record_of st st' ->
             exists current total,
               progress_call budget st = Some (current, total) /\
               current = S (List.length (fetch_log st)) /\
               current = List.length (fetch_log st') /\
               (Z.of_nat current <= total)%Z /\ (total <= budget)%Z).
  { intros Hy budget bounded extract record_of seed st st'
      (_ & Hdisj & _ & Hlen & _) Hturn.
    destruct (crawl_turn_visits _ _ _ _ st st' Hdisj Hturn)
      as (u & rest & Hq & Hout & Hguard & Hlog & _ & Hsize).
    unfold progress_call. rewrite Hq.
    rewrite (proj2 (Z.ltb_lt _ _) Hguard). simpl.
    rewrite bool_decide_eq_false_2 by done.
    eexists _, _. split; [reflexivity |].
    rewrite size_visit by done. rewrite Hlog, length_app, Hlen. simpl.
    split; [done |]. split; [lia |]. lia. }
  split; intros self st st' Hfresh Hr Hs.
  - pose proof (urlcat_run_inv self st Hfresh Hr) as Hinv.
    apply (Hcall _ _ _ _ _ _ st st' Hinv).
    destruct Hinv as (Hnd & Hdisj & _). by apply urlcat_step_turn.
  - pose proof (gsc_run_inv self st Hfresh Hr) as Hinv.
    apply (Hcall _ _ _ _ _ _ st st' Hinv).
    destruct Hinv as (Hnd & Hdisj & _). by apply gsc_step_turn.
Qed.

End RunProperties.

(** X9 at work on the small site, after the home page was fetched: its
    three links wait in the queue, and the next turn fetches the first. *)
Lemma crawl_queue_holds_new_urls_only_witness :
  URLCat.analyzer_site_data (Demo.analyzer Demo.home 5) = [] /\
  to_crawl (run_turns (URLCat.crawl_step (Demo.analyzer Demo.home 5)) 1
              (URLCat.crawl_start (Demo.analyzer Demo.home 5)))
    = [Demo.about_team; Demo.missing; Demo.mailto] /\
  fetch_log (run_turns (URLCat.crawl_step (Demo.analyzer Demo.home 5)) 1
               (URLCat.crawl_start (Demo.analyzer Demo.home 5)))
    = [Demo.home] /\
  NoDup (to_crawl (run_turns (URLCat.crawl_step (Demo.analyzer Demo.home 5)) 1
                     (URLCat.crawl_start (Demo.analyzer Demo.home 5)))) /\
  (Demo.about_team ∉
     crawled (run_turns (URLCat.crawl_step (Demo.analyzer Demo.home 5)) 1
                (URLCat.crawl_start (Demo.analyzer Demo.home 5)))) /\
  exists st2 u rest,
    URLCat.crawl_step (Demo.analyzer Demo.home 5)
      (run_turns (URLCat.crawl_step (Demo.analyzer Demo.home 5)) 1
         (URLCat.crawl_start (Demo.analyzer Demo.home 5))) = Some (Ok st2) /\
    to_crawl (run_turns (URLCat.crawl_step (Demo.analyzer Demo.home 5)) 1
                (URLCat.crawl_start (Demo.analyzer Demo.home 5))) = u :: rest /\
    fetch_log st2 = [Demo.home] ++ [u].
Proof.
  assert (Hq : to_crawl (run_turns (URLCat.crawl_step (Demo.analyzer Demo.home 5)) 1
                           (URLCat.crawl_start (Demo.analyzer Demo.home 5)))
               = [Demo.about_team; Demo.missing; Demo.mailto])
    by (vm_compute; reflexivity).
  assert (Hl : fetch_log (run_turns (URLCat.crawl_step (Demo.analyzer Demo.home 5)) 1
                            (URLCat.crawl_start (Demo.analyzer Demo.home 5)))
               = [Demo.home])
    by (vm_compute; reflexivity).
  assert (Hs : exists st2,
             URLCat.crawl_step (Demo.analyzer Demo.home 5)
               (run_turns (URLCat.crawl_step (Demo.analyzer Demo.home 5)) 1
                  (URLCat.crawl_start (Demo.analyzer Demo.home 5))) = Some (Ok st2))
    by (vm_compute; eexists; reflexivity).
  destruct Hs as [st2 Hs].
  destruct (proj1 (crawl_queue_holds_new_urls_only (H := Demo.world))
              (Demo.analyzer Demo.home 5)
              (run_turns (URLCat.crawl_step (Demo.analyzer Demo.home 5)) 1
                 (URLCat.crawl_start (Demo.analyzer Demo.home 5)))
              eq_refl (reaches_run_turns _ 1 _)) as (Hnd & Hdisj & Hturn).
  destruct (Hturn st2 Hs) as (u & rest & Hhead & _ & Hlog & _).
  split; [reflexivity |]. split; [exact Hq |]. split; [exact Hl |].
  split; [exact Hnd |].
  split; [apply Hdisj; rewrite Hq; left |].
  exists st2, u, rest. split; [exact Hs |]. split; [exact Hhead |].
  rewrite Hlog, Hl. reflexivity.
Defined.

(** X10 at work on the small site. *)
Lemma crawl_result_in_fetch_order_witness :
  URLCat.analyzer_site_data (Demo.analyzer Demo.home 5) = [] /\
  exists data,
    URLCat.crawl_website 6 (Demo.analyzer Demo.home 5) = Some (Ok data) /\
    Forall (fun r => urlcat_record_of (Demo.analyzer Demo.home 5) (url r) r) data.
Proof.
  split; [reflexivity |].
  assert (Hc : exists data,
             URLCat.crawl_website 6 (Demo.analyzer Demo.home 5) = Some (Ok data))
    by (vm_compute; eexists; reflexivity).
  destruct Hc as [data Hc]. exists data. split; [exact Hc |].
  exact (proj1 (proj2 (crawl_result_in_fetch_order (H := Demo.world)))
           (Demo.analyzer Demo.home 5) 6 data eq_refl Hc).
Defined.

(** X11 at work on the small site, after the home page was fetched: the
    page [about] waits in the queue; it is not the seed, so it is a link of
    the record of the home page, in scope and without [#]. *)
Lemma crawl_follows_links_in_scope_witness :
  URLCat_GSC.analyzer_site_data (Demo.analyzer_gsc Demo.home 5) = [] /\
  to_crawl (run_turns (URLCat_GSC.crawl_step (Demo.analyzer_gsc Demo.home 5)) 1
              (URLCat_GSC.crawl_start (Demo.analyzer_gsc Demo.home 5)))
    = [Demo.about; Demo.missing] /\
  Demo.about <> URLCat_GSC.base_url (Demo.analyzer_gsc Demo.home 5) /\
  URLCat_GSC.is_valid_url (Demo.analyzer_gsc Demo.home 5) Demo.about = true /\
  Py.has_char "#" Demo.about = false /\
  exists r,
    r ∈ site_data (run_turns (URLCat_GSC.crawl_step (Demo.analyzer_gsc Demo.home 5)) 1
                     (URLCat_GSC.crawl_start (Demo.analyzer_gsc Demo.home 5))) /\
    Demo.about ∈ links r.
Proof.
  assert (Hq : to_crawl (run_turns (URLCat_GSC.crawl_step (Demo.analyzer_gsc Demo.home 5)) 1
                           (URLCat_GSC.crawl_start (Demo.analyzer_gsc Demo.home 5)))
               = [Demo.about; Demo.missing])
    by (vm_compute; reflexivity).
  assert (Hne : Demo.about <> URLCat_GSC.base_url (Demo.analyzer_gsc Demo.home 5))
    by (vm_compute; intros Hc; discriminate Hc).
  assert (Hx : Demo.about ∈
               to_crawl (run_turns (URLCat_GSC.crawl_step (Demo.analyzer_gsc Demo.home 5)) 1
                           (URLCat_GSC.crawl_start (Demo.analyzer_gsc Demo.home 5))) ++
               fetch_log (run_turns (URLCat_GSC.crawl_step (Demo.analyzer_gsc Demo.home 5)) 1
                            (URLCat_GSC.crawl_start (Demo.analyzer_gsc Demo.home 5))))
    by (apply elem_of_app; left; rewrite Hq; left).
  destruct (proj2 (crawl_follows_links_in_scope (H := Demo.world))
              (Demo.analyzer_gsc Demo.home 5)
              (run_turns (URLCat_GSC.crawl_step (Demo.analyzer_gsc Demo.home 5)) 1
                 (URLCat_GSC.crawl_start (Demo.analyzer_gsc Demo.home 5)))
              Demo.about eq_refl (reaches_run_turns _ 1 _) Hx)
    as [Heq | (Hvalid & Hhash & Hlink)]; [destruct (Hne Heq) |].
  split; [reflexivity |]. split; [exact Hq |]. split; [exact Hne |].
  split; [exact Hvalid |]. split; [exact Hhash | exact Hlink].
Defined.

(** X12 at work on the small site: the crawl stops short of its budget of
    five pages. *)
Lemma crawl_stops_at_budget_or_exhausts_witness :
  URLCat.analyzer_site_data (Demo.analyzer Demo.home 5) = [] /\
  exists data st,
    URLCat.crawl_website 6 (Demo.analyzer Demo.home 5) = Some (Ok data) /\
    site_data st = data /\
    (Z.of_nat (List.length (fetch_log st)) <= 5)%Z.
Proof.
  split; [reflexivity |].
  assert (Hc : exists data,
             URLCat.crawl_website 6 (Demo.analyzer Demo.home 5) = Some (Ok data))
    by (vm_compute; eexists; reflexivity).
  destruct Hc as [data Hc].
  destruct (proj1 (crawl_stops_at_budget_or_exhausts (H := Demo.world))
              (Demo.analyzer Demo.home 5) 6 data eq_refl Hc)
    as (st & _ & Hd & Hle & _).
  exists data, st. split; [exact Hc |]. split; [exact Hd | exact Hle].
Defined.

(** X13 at work on the small site with a budget of two pages: after the
    home page only the first of its two links in scope is queued, and
    after the second fetch the loop stops with an empty queue. *)
Lemma gsc_frontier_bounded_witness :
  URLCat_GSC.analyzer_site_data (Demo.analyzer_gsc Demo.home 2) = [] /\
  links (URLCat_GSC.extract_page_content (Demo.analyzer_gsc Demo.home 2) "https://a.com")
    = [Demo.about; Demo.missing] /\
  to_crawl (run_turns (URLCat_GSC.crawl_step (Demo.analyzer_gsc Demo.home 2)) 1
              (URLCat_GSC.crawl_start (Demo.analyzer_gsc Demo.home 2)))
    = [Demo.about] /\
  (Z.of_nat
     (size (crawled (run_turns (URLCat_GSC.crawl_step (Demo.analyzer_gsc Demo.home 2)) 1
                       (URLCat_GSC.crawl_start (Demo.analyzer_gsc Demo.home 2)))) +
      List.length
        (to_crawl (run_turns (URLCat_GSC.crawl_step (Demo.analyzer_gsc Demo.home 2)) 1
                     (URLCat_GSC.crawl_start (Demo.analyzer_gsc Demo.home 2)))))
   <= Z.max 1 2)%Z /\
  fetch_log (run_turns (URLCat_GSC.crawl_step (Demo.analyzer_gsc Demo.home 2)) 2
               (URLCat_GSC.crawl_start (Demo.analyzer_gsc Demo.home 2)))
    = ["https://a.com"; Demo.about] /\
  URLCat_GSC.crawl_step (Demo.analyzer_gsc Demo.home 2)
    (run_turns (URLCat_GSC.crawl_step (Demo.analyzer_gsc Demo.home 2)) 2
       (URLCat_GSC.crawl_start (Demo.analyzer_gsc Demo.home 2))) = None /\
  to_crawl (run_turns (URLCat_GSC.crawl_step (Demo.analyzer_gsc Demo.home 2)) 2
              (URLCat_GSC.crawl_start (Demo.analyzer_gsc Demo.home 2))) = [].
Proof.
  assert (Hstop : URLCat_GSC.crawl_step (Demo.analyzer_gsc Demo.home 2)
                    (run_turns (URLCat_GSC.crawl_step (Demo.analyzer_gsc Demo.home 2)) 2
                       (URLCat_GSC.crawl_start (Demo.analyzer_gsc Demo.home 2))) = None)
    by (vm_compute; reflexivity).
  assert (Hpos : (1 <= URLCat_GSC.max_pages (Demo.analyzer_gsc Demo.home 2))%Z)
    by (intros Hc; discriminate Hc).
  split; [reflexivity |].
  split; [vm_compute; reflexivity |].
  split; [vm_compute; reflexivity |].
  split.
  { exact (proj1 (gsc_frontier_bounded (H := Demo.world)
                    (Demo.analyzer_gsc Demo.home 2)
                    (run_turns (URLCat_GSC.crawl_step (Demo.analyzer_gsc Demo.home 2)) 1
                       (URLCat_GSC.crawl_start (Demo.analyzer_gsc Demo.home 2)))
                    eq_refl (reaches_run_turns _ 1 _))). }
  split; [vm_compute; reflexivity |].
  split; [exact Hstop |].
  exact (proj2 (gsc_frontier_bounded (H := Demo.world)
                  (Demo.analyzer_gsc Demo.home 2)
                  (run_turns (URLCat_GSC.crawl_step (Demo.analyzer_gsc Demo.home 2)) 2
                     (URLCat_GSC.crawl_start (Demo.analyzer_gsc Demo.home 2)))
                  eq_refl (reaches_run_turns _ 2 _)) Hstop Hpos).
Defined.

(** X14 at work on the small site. *)
Lemma crawl_ends_within_the_budget_witness :
  exists self,
    URLCat_GSC.init Demo.home 5 = Ok self /\
    exists data, forall fuel, 5 < fuel -> URLCat_GSC.crawl fuel self = Some (Ok data).
Proof.
  assert (Hi : URLCat_GSC.init Demo.home 5 = Ok (Demo.analyzer_gsc Demo.home 5))
    by (vm_compute; reflexivity).
  exists (Demo.analyzer_gsc Demo.home 5). split; [exact Hi |].
  exact (proj2 (crawl_ends_within_the_budget (H := Demo.world))
           Demo.home 5%Z (Demo.analyzer_gsc Demo.home 5) Hi).
Defined.

(** X15 at work on the small site: the first call is [(1, 1)]. *)
Lemma progress_call_bounds_witness :
  URLCat.analyzer_site_data (Demo.analyzer Demo.home 5) = [] /\
  exists st' current total,
    URLCat.crawl_step (Demo.analyzer Demo.home 5)
      (URLCat.crawl_start (Demo.analyzer Demo.home 5)) = Some (Ok st') /\
    progress_call 5 (URLCat.crawl_start (Demo.analyzer Demo.home 5))
      = Some (current, total) /\
    (Z.of_nat current <= total)%Z /\ (total <= 5)%Z.
Proof.
  split; [reflexivity |].
  assert (Hs : exists st',
             URLCat.crawl_step (Demo.analyzer Demo.home 5)
               (URLCat.crawl_start (Demo.analyzer Demo.home 5)) = Some (Ok st'))
    by (vm_compute; eexists; reflexivity).
  destruct Hs as [st' Hs].
  destruct (proj1 (progress_call_bounds (H := Demo.world))
              (Demo.analyzer Demo.home 5)
              (URLCat.crawl_start (Demo.analyzer Demo.home 5)) st'
              eq_refl (reaches_here _ _) Hs)
    as (current & total & Hp & _ & _ & Hle & Hmax).
  exists st', current, total. split; [exact Hs |]. split; [exact Hp |].
  split; [exact Hle | exact Hmax].
Defined.

(** ** The list that a crawl returns *)

(** Where a loop that kept [crawl_run_inv] stops: with the empty list
    when the budget allows no fetch or the extraction of the seed fails,
    and else with a list that begins with the record of the seed. *)
Lemma crawl_run_final {H} (budget : Z) (bounded : bool)
    (extract : string -> PageRecord H) (record_of : string -> PageRecord H -> Prop)
    (seed : string) (st : CrawlState H) :
  crawl_run_inv budget bounded extract record_of seed st ->
  (to_crawl st = [] \/ (budget <= Z.of_nat (size (crawled st)))%Z) ->
  (Z.of_nat (List.length (site_data st)) <= Z.max 0 budget)%Z /\
  ((site_data st = [] /\
    ((budget <= 0)%Z \/ status (extract seed) <> "success")) \/
   ((0 < budget)%Z /\ status (extract seed) = "success" /\
    exists r rest, site_data st = r :: rest /\ record_of seed r)).
Proof.
  intros (_ & _ & _ & Hlen & Hres & _ & Hhead & _ & _ & Hfail & Hmax) Hstop.
  split.
  { apply Forall2_length in Hres. rewrite Hres.
    pose proof (List.filter_length_le (fetched_well extract) (fetch_log st)). lia. }
  destruct Hhead as [(Hlog & Hq & Hd) | [tl Hlog]].
  - left. split; [done |]. left.
    destruct Hstop as [Hstop | Hstop]; [rewrite Hq in Hstop; discriminate |].
    rewrite <- Hlen, Hlog in Hstop. simpl in Hstop. lia.
  - assert (Hpos : (0 < budget)%Z).
    { rewrite <- Hlen, Hlog in Hmax. simpl in Hmax. lia. }
    destruct (decide (status (extract seed) = "success")) as [Hs | Hs].
    + right. split; [done |]. split; [done |].
      rewrite Hlog in Hres. simpl in Hres. unfold fetched_well at 1 in Hres.
      rewrite bool_decide_eq_true_2 in Hres by done.
      inversion Hres as [| r u rest k [Hrec _] Hrest]; subst.
      by exists r, rest.
    + left. split; [by apply Hfail | by right].
Qed.

Section Returned.
Context `{World}.

Lemma urlcat_stop (self : URLCat.WebsiteAnalyzer)
    (st : CrawlState URLCat.Hierarchy) :
  (forall x, x ∈ to_crawl st -> x ∉ crawled st) ->
  URLCat.crawl_step self st = None ->
  to_crawl st = [] \/ (URLCat.max_pages self <= Z.of_nat (size (crawled st)))%Z.
Proof.
  intros Hdisj Hstop. unfold URLCat.crawl_step in Hstop.
  destruct (to_crawl st) as [|u rest]; [by left | right].
  destruct (Z.ltb_spec (Z.of_nat (size (crawled st))) (URLCat.max_pages self));
    [| done].
  simpl in Hstop. destruct (bool_decide (u ∈ crawled st)); [discriminate |].
  destruct (bool_decide _); discriminate.
Qed.

Lemma gsc_stop (self : URLCat_GSC.WebsiteAnalyzer)
    (st : CrawlState URLCat_GSC.Hierarchy) :
  (forall x, x ∈ to_crawl st -> x ∉ crawled st) ->
  URLCat_GSC.crawl_step self st = None ->
  to_crawl st = [] \/ (URLCat_GSC.max_pages self <= Z.of_nat (size (crawled st)))%Z.
Proof.
  intros Hdisj Hstop. unfold URLCat_GSC.crawl_step in Hstop.
  destruct (to_crawl st) as [|u rest]; [by left | right].
  destruct (Z.ltb_spec (Z.of_nat (size (crawled st))) (URLCat_GSC.max_pages self));
    [| done].
  simpl in Hstop. destruct (bool_decide (u ∈ crawled st)); [discriminate |].
  destruct (bool_decide _); discriminate.
Qed.

(** X16. The crawl of either file returns the empty list exactly when the
    budget is not positive or the extraction of the seed is no success;
    otherwise the list begins with the record of the seed. *)
Theorem crawl_result_begins_with_the_seed :
  (forall (self : URLCat.WebsiteAnalyzer) (fuel : nat) (data : list URLCat.Page),
      URLCat.analyzer_site_data self = [] ->
      URLCat.crawl_website fuel self = Some (Ok data) ->
      (data = [] <->
       (URLCat.max_pages self <= 0)%Z \/
       status (URLCat.extract_page_content self (URLCat.base_url self)) <> "success") /\
      (forall r rest, data = r :: rest ->
                      urlcat_record_of self (URLCat.base_url self) r)) /\
  (forall (self : URLCat_GSC.WebsiteAnalyzer) (fuel : nat) (data : list URLCat_GSC.Page),
      URLCat_GSC.analyzer_site_data self = [] ->
      URLCat_GSC.crawl fuel self = Some (Ok data) ->
      (data = [] <->
       (URLCat_GSC.max_pages self <= 0)%Z \/
       status (URLCat_GSC.extract_page_content self (URLCat_GSC.base_url self))
         <> "success") /\
      (forall r rest, data = r :: rest ->
                      gsc_record_of self (URLCat_GSC.base_url self) r)).
Proof.
  split; intros self fuel data Hfresh Hc.
  - apply urlcat_crawl_result in Hc as (st & Hr & Hstop & <-).
    pose proof (urlcat_run_inv self st Hfresh Hr) as Hinv.
    destruct (crawl_run_final _ _ _ _ _ st Hinv) as [_ Hfinal].
    { destruct Hinv as (_ & Hdisj & _). by apply urlcat_stop. }
    destruct Hfinal as [[Hd Hwhy] | (Hpos & Hs & r & rest & Hd & Hrec)].
    + rewrite Hd. split; [done | discriminate].
    + rewrite Hd. split.
      * split; [discriminate |]. intros [Hb | Hf]; [lia | done].
      * intros r' rest' Heq. by injection Heq as <- _.
  - apply gsc_crawl_result in Hc as (st & Hr & Hstop & <-).
    pose proof (gsc_run_inv self st Hfresh Hr) as Hinv.
    destruct (crawl_run_final _ _ _ _ _ st Hinv) as [_ Hfinal].
    { destruct Hinv as (_ & Hdisj & _). by apply gsc_stop. }
    destruct Hfinal as [[Hd Hwhy] | (Hpos & Hs & r & rest & Hd & Hrec)].
    + rewrite Hd. split; [done | discriminate].
    + rewrite Hd. split.
      * split; [discriminate |]. intros [Hb | Hf]; [lia | done].
      * intros r' rest' Heq. by injection Heq as <- _.
Qed.

(** X17. What the button of the dashboard ends in: the warning that no URL
    was entered, for the empty input; the error message, with the text of
    the exception of [urlparse], when the seed does not parse; and else,
    within [max_pages] turns of the loop, either the warning that no page
    was analysed, exactly when the budget is not positive or the
    extraction of the seed is no success, or the success message with a
    list of at most [max_pages] records that begins with the seed. *)
Theorem start_analysis_outcomes (website_url : string) (max_pages : Z) :
  (website_url = "" ->
   forall fuel, Dashboard.start_analysis fuel website_url max_pages = Some Dashboard.NoUrl) /\
  (website_url <> "" ->
   forall msg, Urllib.urlparse (Dashboard.seed_url website_url) = Raise msg ->
   forall fuel, Dashboard.start_analysis fuel website_url max_pages
                = Some (Dashboard.Failed msg)) /\
  (website_url <> "" ->
   forall self, URLCat.init (Dashboard.seed_url website_url) max_pages = Ok self ->
   exists outcome,
     (forall fuel, Z.to_nat max_pages < fuel ->
                   Dashboard.start_analysis fuel website_url max_pages = Some outcome) /\
     match outcome with
     | Dashboard.NoPages =>
         (max_pages <= 0)%Z \/
         status (URLCat.extract_page_content self (Dashboard.seed_url website_url))
           <> "success"
     | Dashboard.Analysed data =>
         (0 < max_pages)%Z /\
         status (URLCat.extract_page_content self (Dashboard.seed_url website_url))
           = "success" /\
         (exists r rest, data = r :: rest /\ url r = Dashboard.seed_url website_url) /\
         (Z.of_nat (List.length data) <= max_pages)%Z
     | _ => False
     end).
Proof.
  split; [by intros -> |]. split.
  - intros Hne msg Hp fuel. unfold Dashboard.start_analysis.
    destruct website_url; [done |]. cbn [Py.truthy].
    unfold URLCat.init. by rewrite Hp.
  - intros Hne self Hinit.
    pose proof Hinit as Hready.
    apply urlcat_init_ready in Hready as (Hbase & Hbudget & Hfresh & Hparses).
    destruct (urlcat_crawl_within_budget self Hfresh Hparses) as [data Hdata].
    rewrite Hbudget in Hdata.
    pose proof (Hdata (S (Z.to_nat max_pages)) ltac:(lia)) as Hc.
    apply urlcat_crawl_result in Hc as (st & Hr & Hstop & Hd).
    pose proof (urlcat_run_inv self st Hfresh Hr) as Hinv.
    destruct (crawl_run_final _ _ _ _ _ st Hinv) as [Hlen Hfinal].
    { destruct Hinv as (_ & Hdisj & _). by apply urlcat_stop. }
    rewrite Hd, Hbase, Hbudget in *.
    assert (Hrun : forall fuel outcome,
               Z.to_nat max_pages < fuel ->
               match data with [] => Dashboard.NoPages | _ => Dashboard.Analysed data end
               = outcome ->
               Dashboard.start_analysis fuel website_url max_pages = Some outcome).
    { intros fuel outcome Hfuel <-. unfold Dashboard.start_analysis.
      destruct website_url; [done |]. cbn [Py.truthy].
      rewrite Hinit, (Hdata fuel Hfuel). by destruct data. }
    destruct Hfinal as [[Hnil Hwhy] | (Hpos & Hs & r & rest & Hcons & Hrec)].
    + exists Dashboard.NoPages. split; [| done].
      intros fuel Hfuel. apply Hrun; [done |]. by rewrite Hnil.
    + exists (Dashboard.Analysed data). split.
      * intros fuel Hfuel. apply Hrun; [done |]. by rewrite Hcons.
      * split; [done |]. split; [done |]. split; [| lia].
        exists r, rest. split; [done |]. exact (proj1 (proj2 Hrec)).
Qed.

End Returned.

(** X16 at work on the small site. *)
Lemma crawl_result_begins_with_the_seed_witness :
  URLCat.analyzer_site_data (Demo.analyzer Demo.home 5) = [] /\
  exists data,
    URLCat.crawl_website 6 (Demo.analyzer Demo.home 5) = Some (Ok data) /\
    forall r rest, data = r :: rest ->
                   urlcat_record_of (Demo.analyzer Demo.home 5) Demo.home r.
Proof.
  split; [reflexivity |].
  assert (Hc : exists data,
             URLCat.crawl_website 6 (Demo.analyzer Demo.home 5) = Some (Ok data))
    by (vm_compute; eexists; reflexivity).
  destruct Hc as [data Hc]. exists data. split; [exact Hc |].
  exact (proj2 (proj1 (crawl_result_begins_with_the_seed (H := Demo.world))
                  (Demo.analyzer Demo.home 5) 6 data eq_refl Hc)).
Defined.

(** X17 at work on the input [a.com/]. *)
Lemma start_analysis_outcomes_witness :
  exists self outcome,
    URLCat.init (Dashboard.seed_url "a.com/") 5 = Ok self /\
    forall fuel, 5 < fuel -> Dashboard.start_analysis fuel "a.com/" 5 = Some outcome.
Proof.
  assert (Hne : "a.com/" <> "") by discriminate.
  assert (Hi : URLCat.init (Dashboard.seed_url "a.com/") 5 =
               Ok (Demo.analyzer Demo.home 5)) by (vm_compute; reflexivity).
  destruct (proj2 (proj2 (start_analysis_outcomes (H := Demo.world) "a.com/" 5)) Hne
              (Demo.analyzer Demo.home 5) Hi) as (outcome & Hrun & _).
  exists (Demo.analyzer Demo.home 5), outcome. split; [exact Hi | exact Hrun].
Defined.

(** ** The seed of the dashboard *)

Lemma urlparse_scheme (u : string) (parsed : Urllib.ParseResult) :
  Urllib.urlparse u = Ok parsed -> Urllib.scheme parsed = fst (Urllib.split_scheme u).
Proof.
  unfold Urllib.urlparse. destruct (Urllib.split_scheme u) as [sch url1].
  destruct (Urllib.split_netloc url1) as [[loc url2] | msg]; simpl; [| discriminate].
  destruct (Urllib.cut "#" url2) as [url3 frag].
  destruct (Urllib.cut "?" url3) as [url4 qry].
  match goal with
  | |- context [let '(_, _) := ?x in _] => destruct x as [pth prm]
  end.
  intros Hp. by injection Hp as <-.
Qed.

Lemma split_scheme_http (rest : string) :
  fst (Urllib.split_scheme ("http://" +:+ rest)) = "http" /\
  fst (Urllib.split_scheme ("https://" +:+ rest)) = "https".
Proof. split; reflexivity. Qed.

(** X18. The seed that the dashboard hands to the analyzer begins with
    [http://] or [https://], whatever was typed; normalising it again
    changes nothing; when it parses its scheme is [http] or [https]; and
    the analyzer built on it accepts it as a URL of its own domain. *)
Theorem seed_url_is_http (website_url : string) :
  (Py.startswith "http://" (Dashboard.seed_url website_url) = true \/
   Py.startswith "https://" (Dashboard.seed_url website_url) = true) /\
  Dashboard.seed_url (Dashboard.seed_url website_url) = Dashboard.seed_url website_url /\
  (forall parsed,
      Urllib.urlparse (Dashboard.seed_url website_url) = Ok parsed ->
      Urllib.scheme parsed = "http" \/ Urllib.scheme parsed = "https") /\
  (forall budget self,
      URLCat.init (Dashboard.seed_url website_url) budget = Ok self ->
      URLCat.is_valid_url self (Dashboard.seed_url website_url) = true).
Proof.
  assert (Hstart : Py.startswith "http://" (Dashboard.seed_url website_url) = true \/
                   Py.startswith "https://" (Dashboard.seed_url website_url) = true).
  { unfold Dashboard.seed_url.
    destruct (Py.startswith "http://" website_url) eqn:H1; [by left |].
    destruct (Py.startswith "https://" website_url) eqn:H2; [by right |].
    right. reflexivity. }
  split; [done |]. split; [| split].
  - unfold Dashboard.seed_url at 1.
    destruct Hstart as [-> | ->]; [done |]. by rewrite orb_true_r.
  - intros parsed Hp. apply urlparse_scheme in Hp. rewrite Hp.
    destruct Hstart as [Hs | Hs]; apply startswith_spec in Hs as [rest ->].
    + left. apply split_scheme_http.
    + right. apply split_scheme_http.
  - intros budget self. unfold URLCat.init, URLCat.is_valid_url.
    destruct (Urllib.urlparse (Dashboard.seed_url website_url)) as [parsed | msg];
      simpl; [| discriminate].
    intros Hi. injection Hi as <-. simpl. by rewrite bool_decide_eq_true_2.
Qed.

(** ** The export of the URL list *)

Lemma split_on_join (c : ascii) (f : string) (fs : list string) :
  Forall (fun x => Py.has_char c x = false) (f :: fs) ->
  Py.split_on c (Py.join (String c EmptyString) (f :: fs)) = f :: fs.
Proof.
  revert f. induction fs as [|g fs IH]; intros f Hall.
  - apply Forall_cons in Hall as [Hf _]. simpl. by apply split_on_single.
  - apply Forall_cons in Hall as [Hf Hrest].
    change (Py.join (String c EmptyString) (f :: g :: fs))
      with (f +:+ String c (Py.join (String c EmptyString) (g :: fs))).
    specialize (IH g Hrest). revert IH.
    generalize (Py.join (String c EmptyString) (g :: fs)). intros t IH.
    induction f as [|b f IHf].
    + change (EmptyString +:+ String c t) with (String c t).
      rewrite split_on_cons, bool_decide_eq_true_2 by done. by rewrite IH.
    + change (String b f +:+ String c t) with (String b (f +:+ String c t)).
      cbn [Py.has_char] in Hf. apply orb_false_iff in Hf as [Hb Hf].
      rewrite split_on_cons, Hb, (IHf Hf). done.
Qed.

(** X19. The URL list that the dashboard exports has one line for each
    record of the result, in order: splitting it at the line breaks gives
    the URLs of the records back, when there is a record and no URL holds
    a line break.  For an empty result the text is empty, which splits
    into one empty line. *)
Theorem url_list_lines :
  (forall site_data : list URLCat.Page,
      site_data <> [] ->
      Forall (fun r => Py.has_char "010" (url r) = false) site_data ->
      Py.split_on "010" (Dashboard.url_list site_data) = List.map url site_data) /\
  Py.split_on "010" (Dashboard.url_list []) = [""].
Proof.
  split; [| reflexivity]. intros site_data Hne Hall. unfold Dashboard.url_list.
  destruct site_data as [|r rest]; [done |].
  apply (split_on_join "010" (url r) (List.map url rest)).
  change (Forall (fun x => Py.has_char "010" x = false) (List.map url (r :: rest))).
  by apply Forall_map.
Qed.

(** X19 at work on two records. *)
Lemma url_list_lines_witness :
  [Demo.titled (H := URLCat.Hierarchy) "a"; Demo.titled "b"] <> [] /\
  Py.split_on "010"
    (Dashboard.url_list [Demo.titled (H := URLCat.Hierarchy) "a"; Demo.titled "b"])
  = [Demo.home; Demo.home].
Proof.
  assert (Hne : [Demo.titled (H := URLCat.Hierarchy) "a"; Demo.titled "b"] <> [])
    by discriminate.
  split; [exact Hne |].
  apply (proj1 url_list_lines _ Hne). by repeat constructor.
Defined.

(** ** The topics and the keys of the taxonomy *)

Lemma occurrences_app `{EqDecision K} (k : K) (l1 l2 : list K) :
  occurrences k (l1 ++ l2) = occurrences k l1 + occurrences k l2.
Proof. unfold occurrences. by rewrite List.filter_app, length_app. Qed.

Lemma occurrences_NoDup `{EqDecision K} (k : K) (l : list K) :
  NoDup l -> occurrences k l = if bool_decide (k ∈ l) then 1 else 0.
Proof.
  induction l as [|x l IH]; intros Hnd; [done |].
  apply NoDup_cons in Hnd as [Hx Hl]. specialize (IH Hl).
  change (x :: l) with ([x] ++ l). rewrite occurrences_app, IH.
  unfold occurrences. simpl. destruct (decide (x = k)) as [-> | Hne].
  - rewrite bool_decide_eq_true_2 by done.
    rewrite (bool_decide_eq_false_2 (k ∈ l)) by done.
    by rewrite bool_decide_eq_true_2 by left.
  - rewrite bool_decide_eq_false_2 by done. simpl.
    destruct (decide (k ∈ l)) as [Hin | Hout].
    + rewrite !bool_decide_eq_true_2; [done | by right | done].
    + rewrite !bool_decide_eq_false_2; [done | | done].
      intros Hc. apply elem_of_cons in Hc as [-> | Hc]; done.
Qed.

(** A word that every page lists at most once occurs in the keywords of
    all pages as often as there are pages that list it. *)
Lemma occurrences_pages_listing {H} (w : string) (data : list (PageRecord H)) :
  Forall (fun r => NoDup (List.map fst (default [] (keywords r)))) data ->
  occurrences w (List.flat_map (fun r => List.map fst (default [] (keywords r))) data)
  = pages_listing w data.
Proof.
  unfold pages_listing. induction data as [|r data IH]; intros Hall; [done |].
  apply Forall_cons in Hall as [Hr Hall]. cbn [List.flat_map List.filter].
  rewrite occurrences_app, (IH Hall), (occurrences_NoDup _ _ Hr).
  by destruct (bool_decide _).
Qed.

Lemma top_keywords_NoDup (tokens : list string) :
  NoDup (List.map fst (top_keywords tokens)).
Proof. unfold top_keywords. apply most_common_spec. Qed.

Section TaxonomyOfRuns.
Context `{World}.

(** X20. In the taxonomy of the list that [crawl_website] returns there
    are at most 10 topics, each a different word, and the number beside a
    topic is the number of records that list the word among their
    keywords, not the number of its occurrences in the texts: it is at
    least 1 and at most the number of records.  Topics with larger numbers
    come first. *)
Theorem topics_count_pages (self : URLCat.WebsiteAnalyzer) (fuel : nat)
    (data : list URLCat.Page) :
  URLCat.analyzer_site_data self = [] ->
  URLCat.crawl_website fuel self = Some (Ok data) ->
  exists tax,
    URLCat.create_taxonomy_data data = Ok tax /\
    List.length (URLCat.topics tax) <= 10 /\
    NoDup (List.map fst (URLCat.topics tax)) /\
    (forall w n, (w, n) ∈ URLCat.topics tax ->
                 n = pages_listing w data /\ 1 <= n /\ n <= List.length data) /\
    (forall x y, before x y (URLCat.topics tax) -> snd y <= snd x).
Proof.
  intros Hfresh Hc.
  pose proof (urlcat_returned_records self fuel data Hfresh Hc) as Hrecs.
  destruct (urlcat_taxonomy_counts_all data) as (tax & Htax & _ & _ & _ & _ & Htopics).
  { eapply Forall_impl; [exact Hrecs |].
    intros r (_ & _ & _ & _ & _ & _ & _ & _ & _ & Hcat & (h & _ & Hh) & Hk).
    rewrite Hcat, Hh, Hk. by repeat split. }
  exists tax. split; [done |]. rewrite Htopics.
  destruct (most_common_spec 10
              (List.flat_map (fun r : URLCat.Page =>
                                List.map fst (default [] (keywords r))) data))
    as (Hlen & Hnd & Hin & Hord & _).
  split; [done |]. split; [done |]. split.
  - intros w n Hw. destruct (Hin w n Hw) as (Hn & Hpos & _).
    rewrite occurrences_pages_listing in Hn.
    + split; [done |]. split; [lia |]. rewrite Hn. unfold pages_listing.
      apply List.filter_length_le.
    + eapply Forall_impl; [exact Hrecs |].
      intros r (_ & _ & _ & _ & _ & _ & _ & _ & _ & _ & _ & Hk). rewrite Hk. simpl.
      unfold URLCat.page_keywords. destruct (Py.truthy _); [| constructor].
      apply top_keywords_NoDup.
  - intros x y Hb. by destruct (Hord x y Hb).
Qed.

(** X21. In the taxonomy of the list that either crawl returns, every
    category listed is one of the seven categories or [other], and stands
    with a count of at least 1; no file type that [create_taxonomy_data]
    lists is the empty string. *)
Theorem taxonomy_keys :
  (forall (self : URLCat.WebsiteAnalyzer) (fuel : nat) (data : list URLCat.Page)
          (tax : URLCat.Taxonomy),
      URLCat.analyzer_site_data self = [] ->
      URLCat.crawl_website fuel self = Some (Ok data) ->
      URLCat.create_taxonomy_data data = Ok tax ->
      (forall c n, (c, n) ∈ URLCat.tax_categories tax ->
                   c ∈ ["product"; "blog"; "about"; "contact"; "service"; "help";
                        "legal"; "other"] /\ 1 <= n) /\
      (forall k n, (k, n) ∈ URLCat.file_types tax -> k <> "" /\ 1 <= n)) /\
  (forall (self : URLCat_GSC.WebsiteAnalyzer) (fuel : nat) (data : list URLCat_GSC.Page)
          (tax : URLCat_GSC.Taxonomy),
      URLCat_GSC.analyzer_site_data self = [] ->
      URLCat_GSC.crawl fuel self = Some (Ok data) ->
      URLCat_GSC.build_taxonomy data = Ok tax ->
      forall c n, (c, n) ∈ URLCat_GSC.tax_categories tax ->
                  c ∈ ["product"; "blog"; "about"; "contact"; "service"; "help";
                       "legal"; "other"] /\ 1 <= n).
Proof.
  assert (Hkey : forall {A} (f : A -> option string) (data : list A) (cats : list string) c,
             List.map Some cats = List.map f data -> c ∈ cats ->
             exists r, r ∈ data /\ f r = Some c).
  { intros A f data cats c Hmap Hc.
    assert (Hin : Some c ∈ List.map f data).
    { rewrite <- Hmap. apply list_elem_of_In, in_map, list_elem_of_In, Hc. }
    apply list_elem_of_In, in_map_iff in Hin as (r & Hr & Hin).
    exists r. split; [by apply list_elem_of_In | done]. }
  split.
  - intros self fuel data tax Hfresh Hc Htax.
    pose proof (urlcat_returned_records self fuel data Hfresh Hc) as Hrecs.
    rewrite Forall_forall in Hrecs.
    unfold URLCat.create_taxonomy_data in Htax.
    destruct (mapM_getitem_ok "category" category data) as (cats & Hcm & Hcats).
    { apply Forall_forall. intros r Hr.
      destruct (Hrecs r Hr) as (_ & _ & _ & _ & _ & _ & _ & _ & _ & -> & _). by eexists. }
    destruct (mapM_getitem_ok "hierarchy" hierarchy data) as (hs & Hhm & Hhs).
    { apply Forall_forall. intros r Hr.
      destruct (Hrecs r Hr) as (_ & _ & _ & _ & _ & _ & _ & _ & _ & _ & (h & _ & ->) & _).
      by eexists. }
    destruct (mapM_getitem_ok "keywords" keywords data) as (kws & Hkm & Hkws).
    { apply Forall_forall. intros r Hr.
      destruct (Hrecs r Hr) as (_ & _ & _ & _ & _ & _ & _ & _ & _ & _ & _ & ->).
      by eexists. }
    rewrite Hcm in Htax. cbn [mbind result_bind] in Htax.
    rewrite Hhm in Htax. cbn [mbind result_bind] in Htax.
    rewrite Hkm in Htax. cbn [mbind result_bind] in Htax.
    injection Htax as <-.
    cbn [URLCat.tax_categories URLCat.file_types]. split.
    + intros c n Hcn. apply counter_elem in Hcn as (_ & Hpos & Hin).
      split; [| lia].
      destruct (Hkey _ category data cats c Hcats Hin) as (r & Hr & Hcat).
      destruct (Hrecs r Hr) as (_ & _ & _ & _ & _ & _ & _ & _ & _ & Hcat' & _).
      rewrite Hcat' in Hcat. injection Hcat as <-.
      assert (Hrule : classification_rule URLCat.categories
                        (URLCat.classify_text (URLCat.extract_page_content self (url r)))
                        (URLCat.classify_content (URLCat.extract_page_content self (url r))))
        by (apply (classify_follows_rule URLCat.categories); discriminate).
      apply rule_labels in Hrule as [Hlabel _]; [exact Hlabel |].
      intros Hc'. vm_compute in Hc'.
      repeat (apply elem_of_cons in Hc' as [Hc' | Hc']; [discriminate |]). inversion Hc'.
    + intros k n Hkn. apply counter_elem in Hkn as (_ & Hpos & Hin).
      split; [| lia].
      apply list_elem_of_In, in_map_iff in Hin as (h & <- & _).
      unfold URLCat.file_type. destruct (URLCat.file_extension h) as [[|c e] |]; done.
  - intros self fuel data tax Hfresh Hc Htax c n Hcn.
    pose proof (gsc_returned_records self fuel data Hfresh Hc) as Hrecs.
    rewrite Forall_forall in Hrecs.
    unfold URLCat_GSC.build_taxonomy in Htax.
    destruct (mapM_getitem_ok "category" category data) as (cats & Hcm & Hcats).
    { apply Forall_forall. intros r Hr.
      destruct (Hrecs r Hr) as (_ & _ & _ & _ & _ & _ & _ & _ & _ & -> & _). by eexists. }
    destruct (mapM_getitem_ok "hierarchy" hierarchy data) as (hs & Hhm & Hhs).
    { apply Forall_forall. intros r Hr.
      destruct (Hrecs r Hr) as (_ & _ & _ & _ & _ & _ & _ & _ & _ & _ & (h & _ & ->) & _).
      by eexists. }
    rewrite Hcm in Htax. cbn [mbind result_bind] in Htax.
    rewrite Hhm in Htax. cbn [mbind result_bind] in Htax.
    injection Htax as <-. cbn [URLCat_GSC.tax_categories] in Hcn.
    apply counter_elem in Hcn as (_ & Hpos & Hin). split; [| lia].
    destruct (Hkey _ category data cats c Hcats Hin) as (r & Hr & Hcat).
    destruct (Hrecs r Hr) as (_ & _ & _ & _ & _ & _ & _ & _ & _ & Hcat' & _).
    rewrite Hcat' in Hcat. injection Hcat as <-.
    assert (Hrule : classification_rule URLCat_GSC._CATEGORY_KEYWORDS
                      (URLCat_GSC.classify_text
                         (URLCat_GSC.extract_page_content self (url r)))
                      (URLCat_GSC.classify_content
                         (URLCat_GSC.extract_page_content self (url r))))
      by (apply (classify_follows_rule URLCat_GSC._CATEGORY_KEYWORDS); discriminate).
    apply rule_labels in Hrule as [Hlabel _]; [exact Hlabel |].
    intros Hc'. vm_compute in Hc'.
    repeat (apply elem_of_cons in Hc' as [Hc' | Hc']; [discriminate |]). inversion Hc'.
Qed.

End TaxonomyOfRuns.

(** X20 at work on the small site. *)
Lemma topics_count_pages_witness :
  URLCat.analyzer_site_data (Demo.analyzer Demo.home 5) = [] /\
  exists data tax,
    URLCat.crawl_website 6 (Demo.analyzer Demo.home 5) = Some (Ok data) /\
    URLCat.create_taxonomy_data data = Ok tax /\
    List.length (URLCat.topics tax) <= 10.
Proof.
  split; [reflexivity |].
  assert (Hc : exists data,
             URLCat.crawl_website 6 (Demo.analyzer Demo.home 5) = Some (Ok data))
    by (vm_compute; eexists; reflexivity).
  destruct Hc as [data Hc].
  destruct (topics_count_pages (H := Demo.world) (Demo.analyzer Demo.home 5) 6 data
              eq_refl Hc) as (tax & Htax & Hlen & _).
  exists data, tax. split; [exact Hc |]. split; [exact Htax | exact Hlen].
Defined.

(** X21 at work on the small site. *)
Lemma taxonomy_keys_witness :
  URLCat_GSC.analyzer_site_data (Demo.analyzer_gsc Demo.home 5) = [] /\
  exists data tax,
    URLCat_GSC.crawl 6 (Demo.analyzer_gsc Demo.home 5) = Some (Ok data) /\
    URLCat_GSC.build_taxonomy data = Ok tax /\
    forall c n, (c, n) ∈ URLCat_GSC.tax_categories tax ->
                c ∈ ["product"; "blog"; "about"; "contact"; "service"; "help";
                     "legal"; "other"] /\ 1 <= n.
Proof.
  split; [reflexivity |].
  assert (Hc : exists data,
             URLCat_GSC.crawl 6 (Demo.analyzer_gsc Demo.home 5) = Some (Ok data) /\
             exists tax, URLCat_GSC.build_taxonomy data = Ok tax)
    by (vm_compute; eexists; split; [reflexivity | eexists; reflexivity]).
  destruct Hc as (data & Hc & tax & Htax).
  exists data, tax. split; [exact Hc |]. split; [exact Htax |].
  exact (proj2 (taxonomy_keys (H := Demo.world))
           (Demo.analyzer_gsc Demo.home 5) 6 data tax eq_refl Hc Htax).
Defined.

(** ** The seed of [src/URLCat_GSC.py] *)

Lemma rstrip_char_no_trailing (c : ascii) (s pre : string) :
  Py.rstrip_char c s <> pre +:+ String c EmptyString.
Proof.
  revert pre. induction s as [|b s IH]; intros pre.
  - simpl. by destruct pre.
  - rewrite rstrip_char_cons. destruct (Py.rstrip_char c s) as [|x r] eqn:Hr.
    + destruct (bool_decide (b = c)) eqn:Hb; [by destruct pre |].
      apply bool_decide_eq_false in Hb.
      destruct pre as [|y pre].
      * intros Heq. injection Heq as ->. done.
      * intros Heq. injection Heq as _ Heq. by destruct pre.
    + destruct pre as [|y pre].
      * intros Heq. injection Heq as _ Heq. discriminate.
      * intros Heq. injection Heq as _ Heq. by apply (IH pre).
Qed.

Lemma split_netloc_rstrip_loc (t : string) (r : string * string) :
  Urllib.split_netloc t = Ok r ->
  exists r', Urllib.split_netloc (Py.rstrip_char "/" t) = Ok r' /\ fst r' = fst r.
Proof.
  intros Hr.
  destruct t as [|a t].
  { exists (EmptyString, EmptyString). split; [done |]. by injection Hr as <-. }
  destruct (decide (a = "/"%char)) as [-> | Ha].
  2:{ rewrite split_netloc_other in Hr by done. injection Hr as <-.
      rewrite rstrip_char_keep by done. rewrite split_netloc_other by done. by eexists. }
  destruct t as [|b t].
  { exists (EmptyString, EmptyString). split; [done |]. by injection Hr as <-. }
  destruct (decide (b = "/"%char)) as [-> | Hb].
  2:{ rewrite split_netloc_single in Hr by done. injection Hr as <-.
      rewrite rstrip_char_nonempty by (rewrite rstrip_char_keep by done; discriminate).
      rewrite rstrip_char_keep by done. rewrite split_netloc_single by done. by eexists. }
  destruct (decide (Py.rstrip_char "/" t = EmptyString)) as [He | Hne].
  { rewrite !rstrip_char_cons, He. exists (EmptyString, EmptyString). split; [done |].
    unfold Urllib.split_netloc in Hr.
    pose proof (span_until_all_stripped t He) as Hl.
    destruct (Urllib.span_until Urllib.netloc_delim t) as [l r0]. simpl in Hl. subst l.
    simpl in Hr. by injection Hr as <-. }
  rewrite rstrip_char_nonempty.
  2:{ rewrite rstrip_char_nonempty by done. discriminate. }
  rewrite rstrip_char_nonempty by done.
  unfold Urllib.split_netloc in *.
  pose proof (span_until_rstrip t Hne) as Hspan.
  destruct (Urllib.span_until Urllib.netloc_delim (Py.rstrip_char "/" t)) as [l' r'].
  destruct (Urllib.span_until Urllib.netloc_delim t) as [l r0]. simpl in Hspan. subst l'.
  destruct (xorb _ _); [discriminate |]. injection Hr as <-. by eexists.
Qed.

Lemma urlparse_netloc (u : string) (parsed : Urllib.ParseResult) :
  Urllib.urlparse u = Ok parsed ->
  exists r, Urllib.split_netloc (snd (Urllib.split_scheme u)) = Ok r /\
            Urllib.netloc parsed = fst r.
Proof.
  unfold Urllib.urlparse. destruct (Urllib.split_scheme u) as [sch url1]. simpl.
  destruct (Urllib.split_netloc url1) as [[loc url2] | msg]; simpl; [| discriminate].
  destruct (Urllib.cut "#" url2) as [url3 frag].
  destruct (Urllib.cut "?" url3) as [url4 qry].
  match goal with
  | |- context [let '(_, _) := ?x in _] => destruct x as [pth prm]
  end.
  intros Hp. injection Hp as <-. by eexists.
Qed.

(** Trailing slashes change neither the scheme nor the network location
    of a URL. *)
Lemma urlparse_rstrip (u : string) (parsed : Urllib.ParseResult) :
  Urllib.urlparse u = Ok parsed ->
  exists parsed',
    Urllib.urlparse (Py.rstrip_char "/" u) = Ok parsed' /\
    Urllib.scheme parsed' = Urllib.scheme parsed /\
    Urllib.netloc parsed' = Urllib.netloc parsed.
Proof.
  intros Hp.
  destruct (parses_rstrip u (ex_intro _ parsed Hp)) as [parsed' Hp'].
  exists parsed'. split; [done |]. split.
  - rewrite (urlparse_scheme _ _ Hp), (urlparse_scheme _ _ Hp'), split_scheme_rstrip. done.
  - destruct (urlparse_netloc _ _ Hp) as (r & Hr & ->).
    destruct (urlparse_netloc _ _ Hp') as (r' & Hr' & ->).
    rewrite split_scheme_rstrip in Hr'. simpl in Hr'.
    destruct (split_netloc_rstrip_loc _ _ Hr) as (r'' & Hr'' & <-).
    rewrite Hr' in Hr''. by injection Hr'' as ->.
Qed.

(** X22. The seed that the constructor of [src/URLCat_GSC.py] keeps has no
    trailing [/]; it parses, with the scheme of the URL given and with the
    network location that the constructor took as the domain from the URL
    as given; and the scoper accepts this seed exactly when its scheme is
    [http] or [https]. *)
Theorem gsc_seed_normalised (base : string) (budget : Z)
    (self : URLCat_GSC.WebsiteAnalyzer) :
  URLCat_GSC.init base budget = Ok self ->
  Py.endswith "/" (URLCat_GSC.base_url self) = false /\
  exists given parsed,
    Urllib.urlparse base = Ok given /\
    Urllib.urlparse (URLCat_GSC.base_url self) = Ok parsed /\
    Urllib.scheme parsed = Urllib.scheme given /\
    Urllib.netloc parsed = URLCat_GSC.domain self /\
    (URLCat_GSC.is_valid_url self (URLCat_GSC.base_url self) = true <->
     Urllib.scheme parsed = "http" \/ Urllib.scheme parsed = "https").
Proof.
  unfold URLCat_GSC.init.
  destruct (Urllib.urlparse base) as [given | msg] eqn:Hp; simpl; [| discriminate].
  intros Hs. injection Hs as <-. cbn [URLCat_GSC.base_url URLCat_GSC.domain].
  split.
  { destruct (Py.endswith "/" (Py.rstrip_char "/" base)) eqn:He; [| done].
    apply endswith_spec in He as [pre He]. by apply rstrip_char_no_trailing in He. }
  destruct (urlparse_rstrip base given Hp) as (parsed & Hp' & Hsch & Hloc).
  exists given, parsed. split; [done |]. split; [done |]. split; [done |].
  split; [done |].
  unfold URLCat_GSC.is_valid_url. rewrite Hp'. cbn [URLCat_GSC.domain].
  rewrite (bool_decide_eq_true_2 (Urllib.netloc parsed = Urllib.netloc given)) by done.
  cbn [orb]. rewrite andb_true_r, bool_decide_eq_true.
  rewrite elem_of_cons, list_elem_of_singleton. done.
Qed.

(** X22 at work on the seed of the small site. *)
Lemma gsc_seed_normalised_witness :
  URLCat_GSC.init Demo.home 5 = Ok (Demo.analyzer_gsc Demo.home 5) /\
  Py.endswith "/" (URLCat_GSC.base_url (Demo.analyzer_gsc Demo.home 5)) = false.
Proof.
  assert (Hi : URLCat_GSC.init Demo.home 5 = Ok (Demo.analyzer_gsc Demo.home 5))
    by (vm_compute; reflexivity).
  split; [exact Hi |].
  exact (proj1 (gsc_seed_normalised Demo.home 5 (Demo.analyzer_gsc Demo.home 5) Hi)).
Defined.

(** ** The two scopers *)

(** X23. On the same domain, the scoper of [src/URLCat_GSC.py] accepts
    exactly the URLs that the scoper of [src/URLCat.py] accepts and whose
    scheme is [http] or [https]. *)
Theorem gsc_scoper_is_urlcat_scoper_on_http (self : URLCat.WebsiteAnalyzer)
    (self' : URLCat_GSC.WebsiteAnalyzer) (x : string) :
  URLCat.domain self = URLCat_GSC.domain self' ->
  (URLCat_GSC.is_valid_url self' x = true <->
   URLCat.is_valid_url self x = true /\
   exists parsed, Urllib.urlparse x = Ok parsed /\
                  (Urllib.scheme parsed = "http" \/ Urllib.scheme parsed = "https")).
Proof.
  intros Hd. unfold URLCat_GSC.is_valid_url, URLCat.is_valid_url. rewrite Hd.
  destruct (Urllib.urlparse x) as [parsed | msg].
  - rewrite andb_true_iff, bool_decide_eq_true, elem_of_cons, list_elem_of_singleton.
    split.
    + intros [Hs Hv]. split; [| by exists parsed].
      destruct (bool_decide (Urllib.netloc parsed = URLCat_GSC.domain self'));
        [done |].
      destruct (bool_decide (Urllib.netloc parsed = "")); [done |].
      simpl in *. by rewrite orb_false_r in Hv.
    + intros [Hv (parsed' & Hp & Hs)]. injection Hp as <-. split; [done |].
      destruct (bool_decide (Urllib.netloc parsed = URLCat_GSC.domain self'));
        [done |].
      destruct (bool_decide (Urllib.netloc parsed = "")); [by rewrite orb_true_r |].
      simpl in *. by rewrite orb_false_r.
  - split; [done |]. by intros [Hv _].
Qed.

(** X23 at work on a link of the small site. *)
Lemma gsc_scoper_is_urlcat_scoper_on_http_witness :
  URLCat.domain (Demo.analyzer Demo.home 5) =
    URLCat_GSC.domain (Demo.analyzer_gsc Demo.home 5) /\
  URLCat_GSC.is_valid_url (Demo.analyzer_gsc Demo.home 5) Demo.mailto = false.
Proof.
  split; [reflexivity |].
  destruct (URLCat_GSC.is_valid_url (Demo.analyzer_gsc Demo.home 5) Demo.mailto) eqn:Hv;
    [| reflexivity].
  apply (gsc_scoper_is_urlcat_scoper_on_http (Demo.analyzer Demo.home 5)
           (Demo.analyzer_gsc Demo.home 5) Demo.mailto eq_refl) in Hv.
  destruct Hv as [_ (parsed & Hp & Hs)]. vm_compute in Hp. injection Hp as <-.
  destruct Hs as [Hs | Hs]; discriminate Hs.
Defined.

(** ** The tags that extraction removes *)



